(** * Weighted-sampling backfill scripts: a shallow embedding

    The repository is a family of Python scripts that sample candidate FIDs,
    probe remote services through [curl], keep run-level counters and audit a
    leaderboard.  This development embeds the decision logic of those scripts
    and proves (or refutes) the properties that their specification states.

    Conventions of the embedding.
    - Python [int] is [Z]; the probability weights (Python floats) are exact
      rationals [Q], so rounding of the accumulated mass is not modelled.
    - A decoded JSON document is a value of [json]; the attribute, item and
      truthiness operations the scripts apply to such values are given with the
      exception Python raises on a value of the wrong shape.
    - Exceptions are explicit: fallible code returns [result A].
    - The outside world (the random source, what each [subprocess.run] call
      gives back, what [json.loads] makes of a text) is an explicit input.
    - Side effects that the properties speak about ([time.sleep], the remote
      requests, the status lines printed) are recorded in a trace of events;
      banners and purely decorative prints are left out. *)

From Stdlib Require Import ZArith QArith Lia Ascii String List.
From stdpp Require Import base gmap strings list.

#[local] Set Warnings "-register-all".
Local Open Scope string_scope.
Local Open Scope Z_scope.

(** ** Python primitives *)

Module Py.

(** Exception classes that the scripts can meet. *)
Inductive exn_kind :=
| AttributeError | KeyError | TypeError | IndexError | ValueError
| ZeroDivisionError | JSONDecodeError | TimeoutExpired | OSError.

(** An exception carries its class and its [str(e)] text.  The text of the
    exceptions raised by the interpreter itself is abbreviated: no modelled
    code inspects it. *)
Inductive exn := Exn (kind : exn_kind) (msg : string).

Definition exn_class (e : exn) : exn_kind := let 'Exn k _ := e in k.
Definition str_exn (e : exn) : string := let 'Exn _ m := e in m.

Inductive result (A : Type) :=
| Ok (a : A)
| Raise (e : exn).
Arguments Ok {A} a.
Arguments Raise {A} e.

Definition bind {A B} (r : result A) (k : A -> result B) : result B :=
  match r with
  | Ok a => k a
  | Raise e => Raise e
  end.

Definition raise {A} (k : exn_kind) (msg : string) : result A := Raise (Exn k msg).

(** Decoded JSON, as [json.loads] returns it. *)
Inductive json :=
| JNull
| JBool (b : bool)
| JInt (n : Z)
| JFloat (q : Q)
| JStr (s : string)
| JArr (items : list json)
| JObj (fields : list (string * json)).

Fixpoint dict_lookup (k : string) (fields : list (string * json)) : option json :=
  match fields with
  | [] => None
  | (k', v) :: rest => if String.eqb k k' then Some v else dict_lookup k rest
  end.

(** [bool(v)] *)
Definition truthy (v : json) : bool :=
  match v with
  | JNull => false
  | JBool b => b
  | JInt n => negb (n =? 0)
  | JFloat q => negb (Qeq_bool q 0)
  | JStr s => negb (String.eqb s "")
  | JArr items => match items with [] => false | _ => true end
  | JObj fields => match fields with [] => false | _ => true end
  end.

(** [a or b] *)
Definition py_or (a b : json) : json := if truthy a then a else b.

(** [v.get(k, default)]: only a dict has the method. *)
Definition get_default (v : json) (k : string) (default : json) : result json :=
  match v with
  | JObj fields => Ok (match dict_lookup k fields with Some x => x | None => default end)
  | _ => raise AttributeError "object has no attribute 'get'"
  end.

(** [v.get(k)] *)
Definition get (v : json) (k : string) : result json := get_default v k JNull.

(** [v[k]] for a string key [k]. *)
Definition getitem (v : json) (k : string) : result json :=
  match v with
  | JObj fields =>
      match dict_lookup k fields with
      | Some x => Ok x
      | None => raise KeyError k
      end
  | _ => raise TypeError "indices must be integers or object is not subscriptable"
  end.

(** [v[0]] *)
Definition getitem0 (v : json) : result json :=
  match v with
  | JArr [] => raise IndexError "list index out of range"
  | JArr (x :: _) => Ok x
  | JStr "" => raise IndexError "string index out of range"
  | JStr (String c _) => Ok (JStr (String c ""))
  | JObj _ => raise KeyError "0"
  | _ => raise TypeError "object is not subscriptable"
  end.

(** [len(v)] *)
Definition len (v : json) : result Z :=
  match v with
  | JArr items => Ok (Z.of_nat (List.length items))
  | JObj fields => Ok (Z.of_nat (List.length fields))
  | JStr s => Ok (Z.of_nat (String.length s))
  | _ => raise TypeError "object has no len()"
  end.

Fixpoint chars (s : string) : list json :=
  match s with
  | "" => []
  | String c rest => JStr (String c "") :: chars rest
  end.

(** The elements that [for x in v] visits. *)
Definition iter (v : json) : result (list json) :=
  match v with
  | JArr items => Ok items
  | JObj fields => Ok (List.map (fun kv => JStr (fst kv)) fields)
  | JStr s => Ok (chars s)
  | _ => raise TypeError "object is not iterable"
  end.

(** [v[:n]] *)
Definition slice_to (n : nat) (v : json) : result json :=
  match v with
  | JArr items => Ok (JArr (firstn n items))
  | JStr s => Ok (JStr (String.substring 0 n s))
  | _ => raise TypeError "object is not subscriptable"
  end.

(** [v == n] for an integer [n]: numbers compare by value, and a bool is the
    integer 0 or 1. *)
Definition eq_int (v : json) (n : Z) : bool :=
  match v with
  | JInt m => m =? n
  | JFloat q => Qeq_bool q (inject_Z n)
  | JBool b => (if b then 1 else 0) =? n
  | _ => false
  end.

(** [v is not None] *)
Definition is_not_none (v : json) : bool :=
  match v with JNull => false | _ => true end.

(** *** Strings *)

Definition lower_ascii (c : ascii) : ascii :=
  let n := nat_of_ascii c in
  if ((65 <=? n)%nat && (n <=? 90)%nat)%bool then ascii_of_nat (n + 32) else c.

(** [s.lower()] on ASCII text. *)
Fixpoint lower (s : string) : string :=
  match s with
  | "" => ""
  | String c rest => String (lower_ascii c) (lower rest)
  end.

Fixpoint startswith (p s : string) : bool :=
  match p, s with
  | "", _ => true
  | String _ _, "" => false
  | String a p', String b s' => (Ascii.eqb a b && startswith p' s')%bool
  end.

(** [needle in hay] *)
Fixpoint contains (needle hay : string) : bool :=
  (startswith needle hay ||
   match hay with
   | "" => false
   | String _ rest => contains needle rest
   end)%bool.

(** [v.lower()] where [v] came out of a JSON document. *)
Definition lower_of (v : json) : result string :=
  match v with
  | JStr s => Ok (lower s)
  | _ => raise AttributeError "object has no attribute 'lower'"
  end.

(** [s[-3:]] and [s[:-3]] *)
Definition last3 (s : string) : string :=
  String.substring (String.length s - 3) 3 s.
Definition drop_last3 (s : string) : string :=
  String.substring 0 (String.length s - 3) s.

(** [f"{v:.1f}"], [f"{v:2d}"] and [f"{v:15s}"]: only whether the format
    specification accepts the value matters here. *)
Definition format_f (v : json) : result unit :=
  match v with
  | JInt _ | JFloat _ | JBool _ => Ok tt
  | JStr _ => raise ValueError "Unknown format code 'f' for object of type 'str'"
  | _ => raise TypeError "unsupported format string"
  end.

Definition format_d (v : json) : result unit :=
  match v with
  | JInt _ | JBool _ => Ok tt
  | JFloat _ | JStr _ => raise ValueError "Unknown format code 'd'"
  | _ => raise TypeError "unsupported format string"
  end.

Definition format_s (v : json) : result unit :=
  match v with
  | JStr _ => Ok tt
  | JInt _ | JFloat _ | JBool _ => raise ValueError "Unknown format code 's'"
  | _ => raise TypeError "unsupported format string"
  end.

(** *** The random source

    [random.random()] hands back a rational in [0,1); it is an input [rand]
    of the functions below.  [random.randint(a, b)] returns
    [a + randbelow(b - a + 1)] and raises [ValueError] on an empty range; the
    raw draw [u] of the generator is an input, and [randbelow n] is its
    residue modulo [n]. *)
Definition randint (a b : Z) (u : Z) : result Z :=
  if a <=? b then Ok (a + u mod (b - a + 1))
  else raise ValueError "empty range for randrange()".

(** *** Child processes

    What [subprocess.run([curl, ...], capture_output=True, text=True,
    timeout=...)] gives: a completed process, or an exception
    ([TimeoutExpired], [OSError], ...). *)
Record CompletedProcess := { returncode : Z; stdout : string }.

End Py.

Import Py.

Notation "'let?' x := r 'in' k" := (Py.bind r (fun x => k))
  (at level 10, x name, r at level 100, k at level 200, only parsing).

(** ** Effects, the outside world and the run-level counters *)

Module Run.

Inductive request :=
| GetNeynarUser (fid : Z)                         (* GET .../user/bulk?fids=fid *)
| GetScore (fid : Z) (cache_bust : bool)          (* GET .../score/creator/fid[?t=...] *)
| GetLeaderboard                                  (* GET .../leaderboard *)
| PostRefresh.                                    (* POST .../leaderboard/refresh *)

(** [Printed text values]: a status line, given by the words of its format
    string (or, for a line made of interpolated values only, a name for its
    role) and the values interpolated into it. *)
Inductive event :=
| Curl (r : request)
| Slept (seconds : Q)
| Printed (text : string) (values : list json).

(** A program threads the trace of events (newest first) and may raise; the
    events emitted before an exception stay in the trace. *)
Definition prog (A : Type) : Type := list event -> list event * result A.

Definition ret {A} (a : A) : prog A := fun tr => (tr, Ok a).

Definition pbind {A B} (m : prog A) (k : A -> prog B) : prog B :=
  fun tr =>
    match m tr with
    | (tr', Ok a) => k a tr'
    | (tr', Raise e) => (tr', Raise e)
    end.

Definition lift {A} (r : result A) : prog A := fun tr => (tr, r).

Definition emit (e : event) : prog unit := fun tr => (e :: tr, Ok tt).

(** [try: body except Exception as e: handler e] *)
Definition try_catch {A} (body : prog A) (handler : exn -> prog A) : prog A :=
  fun tr =>
    match body tr with
    | (tr', Ok a) => (tr', Ok a)
    | (tr', Raise e) => handler e tr'
    end.

Definition exn_kind_eqb (a b : exn_kind) : bool :=
  match a, b with
  | AttributeError, AttributeError | KeyError, KeyError | TypeError, TypeError
  | IndexError, IndexError | ValueError, ValueError
  | ZeroDivisionError, ZeroDivisionError | JSONDecodeError, JSONDecodeError
  | TimeoutExpired, TimeoutExpired | OSError, OSError => true
  | _, _ => false
  end.

(** [try: body except K: handler]: other classes propagate. *)
Definition try_catch_only {A} (k : exn_kind) (body : prog A) (handler : prog A) : prog A :=
  fun tr =>
    match body tr with
    | (tr', Ok a) => (tr', Ok a)
    | (tr', Raise e) => if exn_kind_eqb (exn_class e) k then handler tr' else (tr', Raise e)
    end.

(** What one pass through a sampling loop observes: the value of
    [random.random()], the raw draw behind [random.randint], and what the two
    [curl] calls give. *)
Record tick := {
  rand : Q;
  raw : Z;
  neynar : result CompletedProcess;
  score : result CompletedProcess
}.

(** The outside world of a run.  [json_loads] is Python's decoder;
    [tick_at n] is what the pass numbered [n] observes (for the sampling
    loops [n] is the value of [attempts] in that pass, for the fixed-list
    loop the FID being updated); [refresh] is what the rebuild request gives
    and [leaderboard_fetch] what the closing read of the leaderboard gives;
    [sorted_by_score] is [sorted(..., key=lambda x: x['score'],
    reverse=True)], which raises when two scores do not compare. *)
Record World := {
  json_loads : string -> result json;
  tick_at : Z -> tick;
  refresh : result CompletedProcess;
  leaderboard_fetch : result CompletedProcess;
  sorted_by_score : list json -> result (list json)
}.

Record RunState := {
  successful_adds : Z;
  attempts : Z;
  processed_fids : gset Z
}.

Definition initial : RunState :=
  {| successful_adds := 0; attempts := 0; processed_fids := ∅ |}.

(** [while cond: body], unrolled at most [fuel] times; [None] when the fuel
    runs out with the condition still true. *)
Section While.
Context {St : Type}.
Variable cond : St -> bool.
Variable body : St -> prog St.

Fixpoint while (fuel : nat) (st : St) : prog (option St) :=
  if cond st then
    match fuel with
    | O => ret None
    | S fuel' => pbind (body st) (while fuel')
    end
  else ret (Some st).
End While.

(** [for x in xs: body], threading the loop-carried variables. *)
Fixpoint for_each {A St : Type} (xs : list A) (body : A -> St -> prog St) (st : St)
  : prog St :=
  match xs with
  | [] => ret st
  | x :: rest => pbind (body x st) (for_each rest body)
  end.

(** [a / b] on integers (true division). *)
Definition truediv (a b : Z) : result Q :=
  if b =? 0 then raise ZeroDivisionError "division by zero"
  else Ok (inject_Z a / inject_Z b)%Q.

End Run.

Import Run.

Notation "'let*' x := m 'in' k" := (pbind m (fun x => k))
  (at level 10, x name, m at level 100, k at level 200, only parsing).
Notation "m >> k" := (pbind m (fun _ => k))
  (at level 100, k at level 200, right associativity, only parsing).

(** ** The weighted sampler shared by the populate scripts *)

Module Sampler.

(** The walk [for min_fid, max_fid, weight in FID_RANGES: cumulative += weight;
    if rand <= cumulative: return ...]: the bounds of the first range whose
    accumulated mass reaches [rand], or [None] when the walk falls through. *)
Fixpoint select_range (ranges : list (Z * Z * Q)) (cumulative : Q) (rand : Q)
  : option (Z * Z) :=
  match ranges with
  | [] => None
  | (min_fid, max_fid, weight) :: rest =>
      let cumulative := (cumulative + weight)%Q in
      if Qle_bool rand cumulative then Some (min_fid, max_fid)
      else select_range rest cumulative rand
  end.

(** [generate_weighted_fid] for a table [ranges] and the bounds [fallback] of
    the final [return random.randint(...)]. *)
Definition weighted_fid (ranges : list (Z * Z * Q)) (fallback : Z * Z)
  (rand : Q) (u : Z) : result Z :=
  match select_range ranges 0 rand with
  | Some (min_fid, max_fid) => randint min_fid max_fid u
  | None => randint (fst fallback) (snd fallback) u
  end.

(** [itertools.accumulate(weights)] *)
Fixpoint accumulate (acc : Q) (weights : list Q) : list Q :=
  match weights with
  | [] => []
  | x :: rest => (acc + x)%Q :: accumulate (acc + x)%Q rest
  end.

(** [bisect.bisect(cum_weights, x, 0, hi)] on an ascending list: the number of
    entries among the first [hi] that are at most [x]. *)
Fixpoint bisect (cum_weights : list Q) (x : Q) (hi : nat) : nat :=
  match hi, cum_weights with
  | S hi', c :: rest => if Qle_bool c x then S (bisect rest x hi') else O
  | _, _ => O
  end.

(** The index that [random.choices(population, weights=weights)[0]] selects:
    [bisect(cum_weights, random() * total, 0, n - 1)]. *)
Definition choices_index (weights : list Q) (rand : Q) : nat :=
  let cum_weights := accumulate 0 weights in
  let total := List.last cum_weights 0%Q in
  bisect cum_weights (rand * total)%Q (List.length weights - 1).

End Sampler.

(** ** bulk_populate.py

    The start-up test of [NEYNAR_API_KEY] (the script exits before [main]
    when the variable is unset) is outside the model. *)

Module BulkPopulate.

Definition REQUEST_DELAY : Q := 2.

Definition FID_RANGES : list (Z * Z * Q) :=
  [ (1, 1000, 3 # 10);
    (1000, 5000, 4 # 10);
    (5000, 20000, 2 # 10);
    (20000, 50000, 1 # 10) ].

Definition generate_weighted_fid (rand : Q) (u : Z) : result Z :=
  Sampler.weighted_fid FID_RANGES (20000, 50000) rand u.

Section Configuration.
Variable TARGET_USERS : Z.
Variable w : World.

(** [r] is what [subprocess.run] gives for this call. *)
Definition check_neynar_user_exists (fid : Z) (r : result CompletedProcess) : prog bool :=
  emit (Curl (GetNeynarUser fid)) >>
  try_catch
    (let* result := lift r in
     if negb (returncode result =? 0) then ret false
     else
       let response_body := drop_last3 (stdout result) in
       let status_code := last3 (stdout result) in
       if negb (String.eqb status_code "200") then ret false
       else
         try_catch_only JSONDecodeError
           (let* data := lift (json_loads w response_body) in
            let* users := lift (get_default data "users" (JArr [])) in
            let* n := lift (len users) in
            if 0 <? n then
              let* first := lift (getitem0 users) in
              let* first_fid := lift (get first "fid") in
              ret (eq_int first_fid fid)
            else ret false)
           (ret false))
    (fun e =>
       emit (Printed "Neynar check failed for FID" [JInt fid; JStr (str_exn e)]) >>
       ret false).

(** Returns [data['data']], or [JNull] for Python's [None]. *)
Definition get_creator_score (fid : Z) (r : result CompletedProcess) : prog json :=
  emit (Curl (GetScore fid false)) >>
  try_catch
    (let* result := lift r in
     if negb (returncode result =? 0) then ret JNull
     else
       let* data := lift (json_loads w (stdout result)) in
       let* success := lift (get data "success") in
       if truthy success then lift (getitem data "data")
       else
         let* error := lift (get_default data "error" (JStr "Unknown error")) in
         emit (Printed "Score API error for FID" [JInt fid; error]) >>
         ret JNull)
    (fun e =>
       emit (Printed "Score request failed for FID" [JInt fid; JStr (str_exn e)]) >>
       ret JNull).

Definition max_attempts : Z := TARGET_USERS * 3.

(** [successful_adds < TARGET_USERS and attempts < max_attempts] *)
Definition loop_condition (st : RunState) : bool :=
  (successful_adds st <? TARGET_USERS) && (attempts st <? max_attempts).

(** One pass through the body of the [while] loop. *)
Definition loop_body (st : RunState) : prog RunState :=
  let attempts := attempts st + 1 in
  let t := tick_at w attempts in
  let* fid := lift (generate_weighted_fid (rand t) (raw t)) in
  if decide (fid ∈ processed_fids st) then
    (* continue *)
    ret {| successful_adds := successful_adds st; attempts := attempts;
           processed_fids := processed_fids st |}
  else
    let processed_fids := {[fid]} ∪ processed_fids st in
    emit (Printed "Testing FID" [JInt attempts; JInt fid]) >>
    let* found := check_neynar_user_exists fid (neynar t) in
    if negb found then
      emit (Printed "Not found in Neynar" []) >>
      emit (Slept (1 # 2)) >>
      (* continue *)
      ret {| successful_adds := successful_adds st; attempts := attempts;
             processed_fids := processed_fids |}
    else
      emit (Printed "Active" []) >>
      let* score_data := get_creator_score fid (score t) in
      let* successful_adds :=
        (if truthy score_data then
           let* score := lift (get_default score_data "overallScore" (JStr "N/A")) in
           let* tier := lift (get_default score_data "tier" (JStr "N/A")) in
           let successful_adds := successful_adds st + 1 in
           emit (Printed "Score" [score; tier; JInt successful_adds; JInt TARGET_USERS]) >>
           ret successful_adds
         else
           emit (Printed "Score failed" []) >>
           ret (successful_adds st)) in
      emit (Slept REQUEST_DELAY) >>
      ret {| successful_adds := successful_adds; attempts := attempts;
             processed_fids := processed_fids |}.

(** The summary printed after the loop. *)
Definition summary (st : RunState) : prog unit :=
  emit (Printed "Bulk population complete" []) >>
  emit (Printed "Successfully added" [JInt (successful_adds st); JInt TARGET_USERS]) >>
  emit (Printed "Total attempts" [JInt (attempts st)]) >>
  let* rate := lift (truediv (successful_adds st) (attempts st)) in
  emit (Printed "Success rate" [JFloat (rate * 100)]) >>
  if successful_adds st <? TARGET_USERS then
    emit (Printed "Target not fully reached" [JInt (TARGET_USERS - successful_adds st)])
  else ret tt.

(** The loop of [main], then its summary.  [None]: the fuel ran out. *)
Definition run (fuel : nat) : prog (option RunState) :=
  let* final := while loop_condition loop_body fuel initial in
  match final with
  | None => ret None
  | Some st => summary st >> ret (Some st)
  end.
End Configuration.

Definition TARGET_USERS : Z := 100.

Definition main (w : World) : prog (option RunState) :=
  run TARGET_USERS w (Z.to_nat (max_attempts TARGET_USERS)).

End BulkPopulate.

(** ** simple_bulk_populate.py *)

Module SimpleBulkPopulate.

Definition REQUEST_DELAY : Q := 3 # 2.

Definition FID_RANGES : list (Z * Z * Q) :=
  [ (1, 1000, 4 # 10);
    (1000, 5000, 3 # 10);
    (5000, 15000, 2 # 10);
    (15000, 30000, 1 # 10) ].

Definition generate_weighted_fid (rand : Q) (u : Z) : result Z :=
  Sampler.weighted_fid FID_RANGES (1, 5000) rand u.

Definition failure (error : string) : json :=
  JObj [("success", JBool false); ("error", JStr error)].

Section Configuration.
Variable TARGET_USERS : Z.
Variable w : World.

Definition get_creator_score (fid : Z) (r : result CompletedProcess) : prog json :=
  emit (Curl (GetScore fid false)) >>
  try_catch
    (let* result := lift r in
     if negb (returncode result =? 0) then ret (failure "Request failed")
     else lift (json_loads w (stdout result)))
    (fun e => ret (failure (str_exn e))).

Definition max_attempts : Z := TARGET_USERS * 2.

Definition loop_condition (st : RunState) : bool :=
  (successful_adds st <? TARGET_USERS) && (attempts st <? max_attempts).

Definition loop_body (st : RunState) : prog RunState :=
  let attempts := attempts st + 1 in
  let t := tick_at w attempts in
  let* fid := lift (generate_weighted_fid (rand t) (raw t)) in
  if decide (fid ∈ processed_fids st) then
    (* continue *)
    ret {| successful_adds := successful_adds st; attempts := attempts;
           processed_fids := processed_fids st |}
  else
    let processed_fids := {[fid]} ∪ processed_fids st in
    emit (Printed "Testing FID" [JInt attempts; JInt fid]) >>
    let* result := get_creator_score fid (score t) in
    let* success := lift (get result "success") in
    let* successful_adds :=
      (if truthy success then
         let* score_data := lift (getitem result "data") in
         let* score := lift (get_default score_data "overallScore" (JStr "N/A")) in
         let* tier := lift (get_default score_data "tier" (JStr "N/A")) in
         let successful_adds := successful_adds st + 1 in
         emit (Printed "Score" [score; tier; JInt successful_adds; JInt TARGET_USERS]) >>
         ret successful_adds
       else
         let* error := lift (get_default result "error" (JStr "Unknown error")) in
         let* lowered := lift (lower_of error) in
         (if contains "not found" lowered || contains "invalid" lowered then
            emit (Printed "Invalid FID" [])
          else emit (Printed "Error" [error])) >>
         ret (successful_adds st)) in
    emit (Slept REQUEST_DELAY) >>
    (if attempts mod 20 =? 0 then
       let* share := lift (truediv successful_adds TARGET_USERS) in
       emit (Printed "Progress" [JInt successful_adds; JInt TARGET_USERS;
                                 JFloat (share * 100); JInt attempts])
     else ret tt) >>
    ret {| successful_adds := successful_adds; attempts := attempts;
           processed_fids := processed_fids |}.

Definition summary (st : RunState) : prog unit :=
  emit (Printed "Bulk population complete" []) >>
  emit (Printed "Successfully added" [JInt (successful_adds st); JInt TARGET_USERS]) >>
  emit (Printed "Total attempts" [JInt (attempts st)]) >>
  let* rate := lift (truediv (successful_adds st) (attempts st)) in
  emit (Printed "Success rate" [JFloat (rate * 100)]) >>
  if successful_adds st <? TARGET_USERS then
    let remaining := TARGET_USERS - successful_adds st in
    emit (Printed "Target not fully reached" [JInt remaining]) >>
    emit (Printed "Consider running again or adjusting FID ranges" [])
  else ret tt.

Definition run (fuel : nat) : prog (option RunState) :=
  let* final := while loop_condition loop_body fuel initial in
  match final with
  | None => ret None
  | Some st => summary st >> ret (Some st)
  end.
End Configuration.

Definition TARGET_USERS : Z := 100.

Definition main (w : World) : prog (option RunState) :=
  run TARGET_USERS w (Z.to_nat (max_attempts TARGET_USERS)).

End SimpleBulkPopulate.

(** ** targeted_bulk_populate.py *)

Module TargetedBulkPopulate.

Definition REQUEST_DELAY : Q := 1.

(** The bounds of the [random.randint] call inside each strategy. *)
Definition strategies : list (Z * Z) :=
  [(1, 100); (100, 500); (500, 2000); (2000, 8000); (8000, 25000)].

Definition weights : list Q := [3 # 10; 25 # 100; 2 # 10; 15 # 100; 1 # 10].

Definition generate_likely_fid (rand : Q) (u : Z) : result Z :=
  let choice := List.nth (Sampler.choices_index weights rand) strategies (8000, 25000) in
  randint (fst choice) (snd choice) u.

Definition failure (error : string) : json :=
  JObj [("success", JBool false); ("error", JStr error)].

Section Configuration.
Variable TARGET_USERS : Z.
Variable w : World.

Definition get_creator_score (fid : Z) (r : result CompletedProcess) : prog json :=
  emit (Curl (GetScore fid false)) >>
  try_catch
    (let* result := lift r in
     if negb (returncode result =? 0) then ret (failure "Request failed")
     else lift (json_loads w (stdout result)))
    (fun e => ret (failure (str_exn e))).

Definition max_attempts : Z := TARGET_USERS * 3.

Definition loop_condition (st : RunState) : bool :=
  (successful_adds st <? TARGET_USERS) && (attempts st <? max_attempts).

Definition loop_body (st : RunState) : prog RunState :=
  let attempts := attempts st + 1 in
  let t := tick_at w attempts in
  let* fid := lift (generate_likely_fid (rand t) (raw t)) in
  if decide (fid ∈ processed_fids st) then
    (* continue *)
    ret {| successful_adds := successful_adds st; attempts := attempts;
           processed_fids := processed_fids st |}
  else
    let processed_fids := {[fid]} ∪ processed_fids st in
    emit (Printed "FID" [JInt attempts; JInt fid]) >>
    let* result := get_creator_score fid (score t) in
    let* success := lift (get result "success") in
    let* successful_adds :=
      (if truthy success then
         let* score_data := lift (getitem result "data") in
         let* score := lift (get score_data "overallScore") in
         let* tier := lift (get_default score_data "tier" (JStr "N/A")) in
         if is_not_none score then
           let successful_adds := successful_adds st + 1 in
           lift (format_f score) >>
           emit (Printed "Valid score" [score; tier; JInt successful_adds; JInt TARGET_USERS]) >>
           ret successful_adds
         else
           emit (Printed "Inactive" []) >>
           ret (successful_adds st)
       else
         let* error := lift (get_default result "error" (JStr "Failed")) in
         emit (Printed "Error" [error]) >>
         ret (successful_adds st)) in
    emit (Slept REQUEST_DELAY) >>
    (if attempts mod 25 =? 0 then
       let* rate := lift (truediv successful_adds attempts) in
       emit (Printed "Progress" [JInt successful_adds; JInt TARGET_USERS; JFloat (rate * 100)])
     else ret tt) >>
    ret {| successful_adds := successful_adds; attempts := attempts;
           processed_fids := processed_fids |}.

Definition summary (st : RunState) : prog unit :=
  emit (Printed "Complete" [JInt (successful_adds st); JInt TARGET_USERS]) >>
  let* rate := lift (truediv (successful_adds st) (attempts st)) in
  emit (Printed "Success rate" [JFloat (rate * 100); JInt (attempts st)]).

Definition run (fuel : nat) : prog (option RunState) :=
  let* final := while loop_condition loop_body fuel initial in
  match final with
  | None => ret None
  | Some st => summary st >> ret (Some st)
  end.
End Configuration.

Definition TARGET_USERS : Z := 100.

Definition main (w : World) : prog (option RunState) :=
  run TARGET_USERS w (Z.to_nat (max_attempts TARGET_USERS)).

End TargetedBulkPopulate.

(** ** Reading the leaderboard: the profile-coverage count *)

Module Leaderboard.

(** [entry.get('username') or entry.get('displayName')], as a condition. *)
Definition has_profile (entry : json) : result bool :=
  let? username := get entry "username" in
  if truthy username then Ok true
  else
    let? display_name := get entry "displayName" in
    Ok (truthy display_name).

(** [sum(1 for entry in entries if entry.get('username') or
    entry.get('displayName'))] *)
Fixpoint count_profiles (entries : list json) : result Z :=
  match entries with
  | [] => Ok 0
  | entry :: rest =>
      let? counted := has_profile entry in
      let? n := count_profiles rest in
      Ok (if counted then 1 + n else n)
  end.

(** ['Yes' if entry.get('pfpUrl') else 'No'] *)
Definition pfp_status (entry : json) : result json :=
  let? pfp_url := get entry "pfpUrl" in
  Ok (JStr (if truthy pfp_url then "Yes" else "No")).

(** [entry.get(k) or 'N/A'] *)
Definition get_or_na (entry : json) (k : string) : result json :=
  let? v := get entry k in
  Ok (py_or v (JStr "N/A")).

End Leaderboard.

(** ** force_cache_refresh.py: the closing leaderboard check of [main] *)

Module ForceCacheRefresh.

Section Audit.
Variable w : World.

(** One line of the [Top 5 entries] listing. *)
Definition print_entry (entry : json) (_ : unit) : prog unit :=
  let* username := lift (Leaderboard.get_or_na entry "username") in
  let* display_name := lift (Leaderboard.get_or_na entry "displayName") in
  let* pfp := lift (Leaderboard.pfp_status entry) in
  let* profile_status := lift (Leaderboard.has_profile entry) in
  let* rank := lift (getitem entry "rank") in
  let* fid := lift (getitem entry "fid") in
  let* overall_score := lift (getitem entry "overallScore") in
  let* tier := lift (getitem entry "tier") in
  emit (Printed "Entry" [JBool profile_status; rank; fid; username; display_name;
                         overall_score; tier; pfp]).

(** The last [try] block of [main] (the text after [Final leaderboard
    check...]). *)
Definition final_leaderboard_check : prog unit :=
  emit (Printed "Final leaderboard check" []) >>
  try_catch
    (emit (Curl GetLeaderboard) >>
     let* result := lift (leaderboard_fetch w) in
     if returncode result =? 0 then
       let* data := lift (json_loads w (stdout result)) in
       let* success := lift (get data "success") in
       if truthy success then
         let* payload := lift (getitem data "data") in
         let* leaderboard := lift (getitem payload "leaderboard") in
         let* entries := lift (iter leaderboard) in
         let* with_profiles := lift (Leaderboard.count_profiles entries) in
         let* total_entries := lift (len leaderboard) in
         emit (Printed "Final profile coverage" [JInt with_profiles; JInt total_entries]) >>
         emit (Printed "Top 5 entries" []) >>
         let* top := lift (slice_to 5 leaderboard) in
         let* top_entries := lift (iter top) in
         for_each top_entries print_entry tt
       else emit (Printed "Leaderboard API error" [])
     else emit (Printed "Leaderboard request failed" []))
    (fun e => emit (Printed "Leaderboard test failed" [JStr (str_exn e)])).
End Audit.

End ForceCacheRefresh.

(** ** update_all_profiles.py: [force_profile_update] and the closing
    leaderboard test of [main] *)

Module UpdateAllProfiles.

Section Script.
Variable w : World.

(** [username != 'N/A'], where [username] is a JSON value or the literal. *)
Definition is_na (v : json) : bool :=
  match v with
  | JStr s => String.eqb s "N/A"
  | _ => false
  end.

Definition force_profile_update (fid : Z) (r : result CompletedProcess) : prog bool :=
  emit (Curl (GetScore fid true)) >>
  try_catch
    (let* result := lift r in
     if negb (returncode result =? 0) then
       emit (Printed "Request failed" [JInt fid]) >>
       ret false
     else
       let* data := lift (json_loads w (stdout result)) in
       let* success := lift (get data "success") in
       if truthy success then
         let* score_data := lift (getitem data "data") in
         let* username := lift (Leaderboard.get_or_na score_data "username") in
         let* display_name := lift (Leaderboard.get_or_na score_data "displayName") in
         let* pfp_url := lift (Leaderboard.pfp_status score_data) in
         let* overall := lift (get_default score_data "overallScore" (JStr "N/A")) in
         let* tier := lift (get_default score_data "tier" (JStr "N/A")) in
         (if negb (is_na username) || negb (is_na display_name) then
            emit (Printed "Updated" [JInt fid; username; display_name; overall; tier; pfp_url])
          else
            emit (Printed "No profile data" [JInt fid; overall; tier])) >>
         ret true
       else
         let* error_msg := lift (get_default data "error" (JStr "Unknown error")) in
         let* lowered := lift (lower_of error_msg) in
         (if contains "not found" lowered || contains "invalid" lowered then
            emit (Printed "Not found/invalid" [JInt fid])
          else
            emit (Printed "Error" [JInt fid; error_msg])) >>
         ret false)
    (fun e =>
       if exn_kind_eqb (exn_class e) JSONDecodeError then
         emit (Printed "Invalid JSON response" [JInt fid]) >>
         ret false
       else
         emit (Printed "Exception" [JInt fid; JStr (str_exn e)]) >>
         ret false).

(** The body of [for i, fid in enumerate(all_fids, 1)] in [main]; the state
    is the pair of [successful_updates] and [failed_updates]. *)
Definition loop_body (i fid : Z) (counts : Z * Z) : prog (Z * Z) :=
  let '(successful_updates, failed_updates) := counts in
  emit (Printed "Item" [JInt i]) >>
  let* result := force_profile_update fid (score (tick_at w fid)) in
  let counts :=
    if result then (successful_updates + 1, failed_updates)
    else (successful_updates, failed_updates + 1) in
  (if i mod 10 =? 0 then
     emit (Printed "Progress" [JInt i]) >>
     emit (Slept 2)
   else emit (Slept 1)) >>
  ret counts.

(** One line of the [Top 5 with profile data] listing. *)
Definition print_entry (entry : json) (_ : unit) : prog unit :=
  let* username := lift (Leaderboard.get_or_na entry "username") in
  let* display_name := lift (Leaderboard.get_or_na entry "displayName") in
  let* pfp := lift (Leaderboard.pfp_status entry) in
  let* rank := lift (getitem entry "rank") in
  let* fid := lift (getitem entry "fid") in
  let* overall_score := lift (getitem entry "overallScore") in
  let* tier := lift (getitem entry "tier") in
  emit (Printed "Entry" [rank; fid; username; display_name; overall_score; tier; pfp]).

(** The last [try] block of [main] (the text after [Testing updated
    leaderboard with profile data...]). *)
Definition leaderboard_test : prog unit :=
  emit (Printed "Testing updated leaderboard with profile data" []) >>
  try_catch
    (emit (Curl GetLeaderboard) >>
     let* result := lift (leaderboard_fetch w) in
     if returncode result =? 0 then
       let* data := lift (json_loads w (stdout result)) in
       let* success := lift (get data "success") in
       if truthy success then
         let* payload := lift (getitem data "data") in
         let* full := lift (getitem payload "leaderboard") in
         let* leaderboard := lift (slice_to 5 full) in
         emit (Printed "Top 5 with profile data" []) >>
         let* top_entries := lift (iter leaderboard) in
         for_each top_entries print_entry tt >>
         let* entries := lift (iter full) in
         let* with_profiles := lift (Leaderboard.count_profiles entries) in
         let* total_entries := lift (len full) in
         emit (Printed "Leaderboard profile coverage" [JInt with_profiles; JInt total_entries])
       else emit (Printed "Leaderboard API error" [])
     else emit (Printed "Leaderboard request failed" []))
    (fun e => emit (Printed "Leaderboard test failed" [JStr (str_exn e)])).
End Script.

End UpdateAllProfiles.

(** ** bulk_update_1_to_100.py *)

Module BulkUpdate1To100.

(** The dict that [update_fid_with_profile] returns, by its ['status']. *)
Inductive update :=
| Success (username displayName pfpUrl score tier : json) (hasProfile : bool)
| Error (error : json)
| Failed (error : string).

(** The counters of [main] and its [results] list. *)
Record Tally := {
  successful_updates : Z;
  failed_updates : Z;
  not_found : Z;
  with_profiles : Z;
  results : list json
}.

Definition no_updates : Tally :=
  {| successful_updates := 0; failed_updates := 0; not_found := 0;
     with_profiles := 0; results := [] |}.

Section Script.
Variable w : World.

Definition update_fid_with_profile (fid : Z) (r : result CompletedProcess) : prog update :=
  emit (Curl (GetScore fid true)) >>
  try_catch
    (let* result := lift r in
     if negb (returncode result =? 0) then ret (Failed "Request failed")
     else
       let* data := lift (json_loads w (stdout result)) in
       let* success := lift (get data "success") in
       if truthy success then
         let* score_data := lift (getitem data "data") in
         let* username := lift (get score_data "username") in
         let* display_name := lift (get score_data "displayName") in
         let* pfp_url := lift (get score_data "pfpUrl") in
         let* overall := lift (get_default score_data "overallScore" (JInt 0)) in
         let* tier := lift (get_default score_data "tier" (JStr "D")) in
         ret (Success username display_name pfp_url overall tier
                (truthy (py_or username display_name)))
       else
         let* error_msg := lift (get_default data "error" (JStr "Unknown error")) in
         ret (Error error_msg))
    (fun e =>
       if exn_kind_eqb (exn_class e) JSONDecodeError then
         ret (Failed "Invalid JSON response")
       else ret (Failed (str_exn e))).

(** The body of [for fid in range(1, 101)]. *)
Definition loop_body (fid : Z) (st : Tally) : prog Tally :=
  emit (Printed "FID" [JInt fid]) >>
  let* result := update_fid_with_profile fid (score (tick_at w fid)) in
  let* st :=
    match result with
    | Success username display_name pfp_url overall tier has_profile =>
        let successful_updates := successful_updates st + 1 in
        if has_profile then
          let with_profiles := with_profiles st + 1 in
          let username := py_or username (JStr "N/A") in
          let display_name := py_or display_name (JStr "N/A") in
          let pfp := JStr (if truthy pfp_url then "Yes" else "No") in
          emit (Printed "Profile" [username; display_name; overall; tier; pfp]) >>
          ret {| successful_updates := successful_updates;
                 failed_updates := failed_updates st;
                 not_found := not_found st;
                 with_profiles := with_profiles;
                 results := results st ++
                   [JObj [("fid", JInt fid); ("username", username);
                          ("displayName", display_name); ("score", overall);
                          ("tier", tier); ("hasProfile", JBool true)]] |}
        else
          emit (Printed "No profile" [overall; tier]) >>
          ret {| successful_updates := successful_updates;
                 failed_updates := failed_updates st;
                 not_found := not_found st;
                 with_profiles := with_profiles st;
                 results := results st |}
    | Error error =>
        let* lowered := lift (lower_of error) in
        if contains "not found" lowered || contains "invalid" lowered then
          emit (Printed "Not found" []) >>
          ret {| successful_updates := successful_updates st;
                 failed_updates := failed_updates st;
                 not_found := not_found st + 1;
                 with_profiles := with_profiles st;
                 results := results st |}
        else
          emit (Printed "Error" [error]) >>
          ret {| successful_updates := successful_updates st;
                 failed_updates := failed_updates st + 1;
                 not_found := not_found st;
                 with_profiles := with_profiles st;
                 results := results st |}
    | Failed error =>
        emit (Printed "Error" [JStr error]) >>
        ret {| successful_updates := successful_updates st;
               failed_updates := failed_updates st + 1;
               not_found := not_found st;
               with_profiles := with_profiles st;
               results := results st |}
    end in
  (if fid mod 10 =? 0 then
     emit (Printed "Progress" [JInt fid]) >>
     emit (Slept 2)
   else emit (Slept 1)) >>
  ret st.

(** [range(1, 101)] *)
Definition fids : list Z := List.map Z.of_nat (List.seq 1 100).

(** The [FINAL RESULTS] block, up to and including the coverage line. *)
Definition final_results (st : Tally) : prog unit :=
  emit (Printed "FINAL RESULTS" []) >>
  emit (Printed "Successful updates:" [JInt (successful_updates st)]) >>
  emit (Printed "With profile data:" [JInt (with_profiles st)]) >>
  emit (Printed "Failed updates:" [JInt (failed_updates st)]) >>
  emit (Printed "Not found:" [JInt (not_found st)]) >>
  let* coverage := lift (truediv (with_profiles st) (successful_updates st)) in
  emit (Printed "Profile coverage:" [JInt (with_profiles st); JInt (successful_updates st);
                                     JFloat (coverage * 100)]).

(** [r['hasProfile']] on an element of [results]. *)
Definition has_profile_flag (r : json) : bool :=
  match getitem r "hasProfile" with
  | Ok v => truthy v
  | Raise _ => false
  end.

Definition print_creator (creator : json) (i : Z) : prog Z :=
  let* fid := lift (getitem creator "fid") in
  lift (format_d fid) >>
  let* username := lift (getitem creator "username") in
  let* display_name := lift (getitem creator "displayName") in
  let* overall := lift (getitem creator "score") in
  let* tier := lift (getitem creator "tier") in
  emit (Printed "Top creator" [JInt i; fid; username; display_name; overall; tier]) >>
  ret (i + 1).

(** [if results: ...] *)
Definition top_creators (st : Tally) : prog unit :=
  match results st with
  | [] => ret tt
  | _ =>
      emit (Printed "Top 10 creators (FIDs 1-100) with profile data" []) >>
      let* ranked := lift (sorted_by_score w (List.filter has_profile_flag (results st))) in
      for_each (firstn 10 ranked) print_creator 1 >>
      ret tt
  end.

Definition refresh_leaderboard : prog unit :=
  emit (Printed "Refreshing leaderboard cache" []) >>
  try_catch
    (emit (Curl PostRefresh) >>
     let* result := lift (refresh w) in
     if returncode result =? 0 then
       emit (Printed "Leaderboard cache refreshed successfully" [])
     else emit (Printed "Failed to refresh leaderboard cache" []))
    (fun e => emit (Printed "Leaderboard refresh failed" [JStr (str_exn e)])).

(** One line of the [Top 10 leaderboard entries] listing. *)
Definition print_entry (entry : json) (_ : unit) : prog unit :=
  let* username := lift (Leaderboard.get_or_na entry "username") in
  let* display_name := lift (Leaderboard.get_or_na entry "displayName") in
  let* pfp := lift (Leaderboard.pfp_status entry) in
  let* profile_icon := lift (Leaderboard.has_profile entry) in
  let* rank := lift (getitem entry "rank") in
  lift (format_d rank) >>
  let* fid := lift (getitem entry "fid") in
  lift (format_d fid) >>
  lift (format_s username) >>
  lift (format_s display_name) >>
  let* overall_score := lift (getitem entry "overallScore") in
  lift (format_f overall_score) >>
  let* tier := lift (getitem entry "tier") in
  emit (Printed "Entry" [JBool profile_icon; rank; fid; username; display_name;
                         overall_score; tier; pfp]).

Definition final_analysis : prog unit :=
  emit (Printed "Final leaderboard profile coverage analysis" []) >>
  try_catch
    (emit (Curl GetLeaderboard) >>
     let* result := lift (leaderboard_fetch w) in
     if returncode result =? 0 then
       let* data := lift (json_loads w (stdout result)) in
       let* success := lift (get data "success") in
       if truthy success then
         let* payload := lift (getitem data "data") in
         let* leaderboard := lift (getitem payload "leaderboard") in
         let* entries := lift (iter leaderboard) in
         let* leaderboard_with_profiles := lift (Leaderboard.count_profiles entries) in
         let* total_entries := lift (len leaderboard) in
         let* share := lift (truediv leaderboard_with_profiles total_entries) in
         emit (Printed "Leaderboard profile coverage"
                 [JInt leaderboard_with_profiles; JInt total_entries; JFloat (share * 100)]) >>
         emit (Printed "Top 10 leaderboard entries" []) >>
         let* top := lift (slice_to 10 leaderboard) in
         let* top_entries := lift (iter top) in
         for_each top_entries print_entry tt
       else emit (Printed "Leaderboard API error" [])
     else emit (Printed "Leaderboard request failed" []))
    (fun e => emit (Printed "Leaderboard analysis failed" [JStr (str_exn e)])).

Definition main : prog unit :=
  let* st := for_each fids loop_body no_updates in
  final_results st >>
  top_creators st >>
  refresh_leaderboard >>
  final_analysis >>
  emit (Printed "Comprehensive update complete" []).
End Script.

End BulkUpdate1To100.

(** ** test_neynar.py *)

Module TestNeynar.

Definition test_fids : list Z := [1; 2; 3; 10; 12; 15; 20; 22; 100; 200; 500; 1000].

Section Script.
Variable w : World.

(** The body of [for fid in test_fids]. *)
Definition probe (fid : Z) (_ : unit) : prog unit :=
  try_catch
    (emit (Curl (GetNeynarUser fid)) >>
     let* result := lift (neynar (tick_at w fid)) in
     if negb (returncode result =? 0) then
       (* continue *)
       emit (Printed "curl failed" [JInt fid])
     else
       let response_body := drop_last3 (stdout result) in
       let status_code := last3 (stdout result) in
       emit (Printed "Status" [JInt fid; JStr status_code]) >>
       if String.eqb status_code "200" then
         try_catch_only JSONDecodeError
           (let* data := lift (json_loads w response_body) in
            let* users := lift (get_default data "users" (JArr [])) in
            let* n := lift (len users) in
            let* matches :=
              (if 0 <? n then
                 let* first := lift (getitem0 users) in
                 let* first_fid := lift (get first "fid") in
                 ret (eq_int first_fid fid)
               else ret false) in
            if matches then
              let* first := lift (getitem0 users) in
              let* username := lift (get_default first "username" (JStr "unknown")) in
              emit (Printed "Found" [username])
            else emit (Printed "No user data" []))
           (emit (Printed "Invalid JSON" []))
       else
         emit (Printed "HTTP" [JStr status_code]) >>
         if String.eqb status_code "401" then emit (Printed "API key might be invalid" [])
         else if String.eqb status_code "429" then emit (Printed "Rate limited" [])
         else ret tt)
    (fun e => emit (Printed "Exception" [JInt fid; JStr (str_exn e)])).

Definition run : prog unit :=
  for_each test_fids probe tt >>
  emit (Printed "Neynar API test complete" []).
End Script.

End TestNeynar.

(** ** The shape shared by the three sampling loops *)

Module Loop.

(** What a completed pass does to the counters: one more attempt, at most one
    more success. *)
Definition pass_of (st st' : RunState) : Prop :=
  attempts st' = attempts st + 1 /\
  successful_adds st <= successful_adds st' <= successful_adds st + 1.

(** [successful_adds < quota and attempts < budget] *)
Definition counting (quota budget : Z) (st : RunState) : bool :=
  (successful_adds st <? quota) && (attempts st <? budget).

(** The attempts left in the budget. *)
Definition remaining (budget : Z) (st : RunState) : nat :=
  Z.to_nat (budget - attempts st).

Definition within_budget (budget : Z) (st : RunState) : Prop :=
  0 <= successful_adds st <= attempts st /\ attempts st <= Z.max 0 budget.

(** The loop never needs more passes than its budget: run with the budget as
    fuel it does not run out of fuel. *)
Definition never_starves (cond : RunState -> bool) (body : RunState -> prog RunState)
  (budget : Z) : Prop :=
  forall tr, while cond body (Z.to_nat budget) initial [] <> (tr, Ok None).

(** The loop started from the initial state reaches a state that falsifies
    its condition, after [attempts] passes, at most the budget. *)
Definition reaches_stopped (cond : RunState -> bool) (body : RunState -> prog RunState)
  (budget : Z) : Prop :=
  exists tr st,
    while cond body (Z.to_nat budget) initial [] = (tr, Ok (Some st)) /\
    cond st = false /\ attempts st <= Z.max 0 budget.

(** The state after a pass that only counted the attempt ([continue] right
    after the dedupe test). *)
Definition skipped (st : RunState) : RunState :=
  {| successful_adds := successful_adds st;
     attempts := attempts st + 1;
     processed_fids := processed_fids st |}.

End Loop.

(** ** The collaborators' contracts, in the words of the specification *)

Module Contract.

Definition optional_number (v : option json) : bool :=
  match v with
  | None | Some JNull | Some (JInt _) | Some (JFloat _) => true
  | _ => false
  end.

Definition optional_string (v : option json) : bool :=
  match v with
  | None | Some JNull | Some (JStr _) => true
  | _ => false
  end.

(** ScoreRecord: an object whose [overallScore] is an optional number. *)
Definition score_record (v : json) : bool :=
  match v with
  | JObj fields => optional_number (dict_lookup "overallScore" fields)
  | _ => false
  end.

(** The reply of the scoring service: [{success: bool, data?: ScoreRecord,
    error?: string}], with the record present when [success] is true. *)
Definition score_response (j : json) : bool :=
  match j with
  | JObj fields =>
      match dict_lookup "success" fields with
      | Some (JBool true) =>
          match dict_lookup "data" fields with
          | Some d => score_record d
          | None => false
          end
      | Some (JBool false) =>
          match dict_lookup "error" fields with
          | None | Some (JStr _) => true
          | _ => false
          end
      | _ => false
      end
  | _ => false
  end.

(** Every reply of the scoring service that arrives and decodes follows the
    contract.  Transport errors and undecodable bodies are not restricted. *)
Definition scoring_service_conforms (w : World) : Prop :=
  forall n cp j,
    score (tick_at w n) = Ok cp -> returncode cp = 0 ->
    json_loads w (stdout cp) = Ok j -> score_response j = true.

(** The reply of the identity service confirms [fid]: a JSON body with a
    [users] array whose first element's [fid] field equals the requested
    key. *)
Definition identity_matches (data : json) (fid : Z) : bool :=
  match data with
  | JObj fields =>
      match dict_lookup "users" fields with
      | Some (JArr (JObj first :: _)) =>
          match dict_lookup "fid" first with
          | Some v => eq_int v fid
          | None => false
          end
      | _ => false
      end
  | _ => false
  end.

(** [s] contains [needle] up to the case of its letters. *)
Definition mentions (needle s : string) : Prop :=
  exists pre mid post,
    s = String.append pre (String.append mid post) /\ lower mid = needle.

(** A field is present when it holds a non-empty string. *)
Definition present (v : option json) : bool :=
  match v with
  | Some (JStr s) => negb (String.eqb s "")
  | _ => false
  end.

(** "Has enrichment": (username present) OR (displayName present). *)
Definition has_enrichment (entry : json) : bool :=
  match entry with
  | JObj fields =>
      present (dict_lookup "username" fields) || present (dict_lookup "displayName" fields)
  | _ => false
  end.

(** AggregateEntry: an object with rank, key, score and tier, whose
    enrichment fields are optional strings. *)
Definition aggregate_entry (entry : json) : bool :=
  match entry with
  | JObj fields =>
      optional_string (dict_lookup "username" fields) &&
      optional_string (dict_lookup "displayName" fields) &&
      bool_decide (is_Some (dict_lookup "rank" fields)) &&
      bool_decide (is_Some (dict_lookup "fid" fields)) &&
      bool_decide (is_Some (dict_lookup "overallScore" fields)) &&
      bool_decide (is_Some (dict_lookup "tier" fields))
  | _ => false
  end.

(** What [update_fid_with_profile] makes of the reply for [fid]. *)
Definition outcome (w : World) (fid : Z) : result BulkUpdate1To100.update :=
  snd (BulkUpdate1To100.update_fid_with_profile w fid (score (tick_at w fid)) []).

(** The fetch for a key failed or returned an error text. *)
Definition update_failed (r : result BulkUpdate1To100.update) : bool :=
  match r with
  | Ok (BulkUpdate1To100.Failed _) => true
  | Ok (BulkUpdate1To100.Error (JStr _)) => true
  | _ => false
  end.

Definition update_succeeded (r : result BulkUpdate1To100.update) : bool :=
  match r with
  | Ok (BulkUpdate1To100.Success _ _ _ _ _ _) => true
  | _ => false
  end.

(** An event that is neither the rebuild request nor the coverage line of the
    final results. *)
Definition before_summary (ev : event) : Prop :=
  ev <> Curl PostRefresh /\ forall values, ev <> Printed "Profile coverage:" values.

End Contract.

(** ** Sample worlds *)

Module Sample.

Definition timed_out : result CompletedProcess :=
  Raise (Exn TimeoutExpired "Command timed out").

Definition completed (text : string) : result CompletedProcess :=
  Ok {| returncode := 0; stdout := text |}.

(** Every text decodes to [doc]; the scoring service always answers; the
    pass numbered [n] has [random.random() = 0] and the raw draw [n]; nothing
    else answers. *)
Definition answering (doc : json) : World :=
  {| json_loads := fun _ => Ok doc;
     tick_at := fun n => {| rand := 0; raw := n; neynar := timed_out; score := completed "{}" |};
     refresh := timed_out;
     leaderboard_fetch := timed_out;
     sorted_by_score := fun l => Ok l |}.

(** Like [answering], but every pass has the raw draw 41, that is the key
    42. *)
Definition repeating (doc : json) : World :=
  {| json_loads := fun _ => Ok doc;
     tick_at := fun n => {| rand := 0; raw := 41; neynar := timed_out; score := completed "{}" |};
     refresh := timed_out;
     leaderboard_fetch := timed_out;
     sorted_by_score := fun l => Ok l |}.

(** [{users: [{fid: 42}]}] *)
Definition user_42_doc : json := JObj [("users", JArr [JObj [("fid", JInt 42)]])].

(** Like [repeating], with an identity service that confirms the key 42:
    its body is the text [users], which decodes to [user_42_doc]. *)
Definition confirming (doc : json) : World :=
  {| json_loads := fun text => if String.eqb text "users" then Ok user_42_doc else Ok doc;
     tick_at := fun n => {| rand := 0; raw := 41; neynar := completed "users200";
                            score := completed "{}" |};
     refresh := timed_out;
     leaderboard_fetch := timed_out;
     sorted_by_score := fun l => Ok l |}.

(** No remote call ever completes. *)
Definition silent : World :=
  {| json_loads := fun _ => Raise (Exn JSONDecodeError "Expecting value");
     tick_at := fun n => {| rand := 0; raw := n; neynar := timed_out; score := timed_out |};
     refresh := timed_out;
     leaderboard_fetch := timed_out;
     sorted_by_score := fun l => Ok l |}.

(** [{success: true, data: {overallScore: null, tier: "D"}}] *)
Definition null_score_doc : json :=
  JObj [("success", JBool true);
        ("data", JObj [("overallScore", JNull); ("tier", JStr "D")])].

(** The state after one pass that probed the key 42 without success. *)
Definition seen_42 : RunState :=
  {| successful_adds := 0; attempts := 1; processed_fids := {[42]} |}.

(** [{users: [{fid: 3, username: "dwr"}]}] *)
Definition user_3_doc : json :=
  JObj [("users", JArr [JObj [("fid", JInt 3); ("username", JStr "dwr")]])].

(** A leaderboard of five rows; the first and the third carry a username. *)
Definition row (rank fid : Z) (username : json) : json :=
  JObj [("rank", JInt rank); ("fid", JInt fid); ("overallScore", JInt 50);
        ("tier", JStr "B"); ("username", username); ("displayName", JNull)].

Definition five_rows : list json :=
  [row 1 3 (JStr "dwr"); row 2 8 JNull; row 3 2 (JStr "v"); row 4 9 (JStr ""); row 5 7 JNull].

Definition leaderboard_payload : list (string * json) := [("leaderboard", JArr five_rows)].

Definition leaderboard_fields : list (string * json) :=
  [("success", JBool true); ("data", JObj leaderboard_payload)].

(** The leaderboard is served; no score is. *)
Definition auditing : World :=
  {| json_loads := fun _ => Ok (JObj leaderboard_fields);
     tick_at := fun n => {| rand := 0; raw := n; neynar := timed_out; score := timed_out |};
     refresh := completed "";
     leaderboard_fetch := completed "{}";
     sorted_by_score := fun l => Ok l |}.

(** [{success: false, error: "FID not found"}] *)
Definition not_found_doc : json :=
  JObj [("success", JBool false); ("error", JStr "FID not found")].

End Sample.

(** ** Reading a trace *)

Module Trace.

(** The keys of the score requests of a trace, newest first. *)
Fixpoint score_requests (tr : list event) : list Z :=
  match tr with
  | [] => []
  | Curl (GetScore fid _) :: rest => fid :: score_requests rest
  | _ :: rest => score_requests rest
  end.

(** The keys of the requests to the identity service, newest first. *)
Fixpoint identity_requests (tr : list event) : list Z :=
  match tr with
  | [] => []
  | Curl (GetNeynarUser fid) :: rest => fid :: identity_requests rest
  | _ :: rest => identity_requests rest
  end.

(** The requests of a trace, newest first. *)
Fixpoint requests (tr : list event) : list request :=
  match tr with
  | [] => []
  | Curl r :: rest => r :: requests rest
  | _ :: rest => requests rest
  end.

(** The seconds spent in [time.sleep]. *)
Fixpoint slept (tr : list event) : Q :=
  match tr with
  | [] => 0
  | Slept seconds :: rest => (seconds + slept rest)%Q
  | _ :: rest => slept rest
  end.

End Trace.

(** ** What one pass of a sampling loop does to the requests *)

Module Pass.

(** A pass leaves the trace as it was and only counts the attempt (when the
    result is a state), or it handles one key that was not in the seen-set:
    the key joins the seen-set and either no score is requested and the
    successes stay, or one score request for that key is recorded. *)
Definition probes (st : RunState) (tr tr' : list event) (r : result RunState) : Prop :=
  (tr' = tr /\ forall st', r = Ok st' -> st' = Loop.skipped st) \/
  (exists fid, (fid ∉ processed_fids st) /\
     ((Trace.score_requests tr' = Trace.score_requests tr /\
       forall st', r = Ok st' -> successful_adds st' = successful_adds st) \/
      Trace.score_requests tr' = fid :: Trace.score_requests tr) /\
     forall st', r = Ok st' -> processed_fids st' = {[fid]} ∪ processed_fids st).

(** Successes, score requests, keys seen and attempts, in that order. *)
Definition tallied (st : RunState) (tr : list event) : Prop :=
  successful_adds st <= Z.of_nat (List.length (Trace.score_requests tr)) /\
  (List.length (Trace.score_requests tr) <= size (processed_fids st))%nat /\
  Z.of_nat (size (processed_fids st)) <= attempts st.

End Pass.

(** ** Score requests that bring no reply *)

Module Fetch.

(** The request raised (a timeout, a failure to start the client), the
    client exited with a non-zero code, or its output does not decode. *)
Definition failed (w : World) (r : result CompletedProcess) : bool :=
  match r with
  | Raise _ => true
  | Ok cp =>
      negb (returncode cp =? 0) ||
      match json_loads w (stdout cp) with
      | Raise _ => true
      | Ok _ => false
      end
  end.

(** The state after a pass that handled the key [fid] without success. *)
Definition unsuccessful (fid : Z) (st : RunState) : RunState :=
  {| successful_adds := successful_adds st;
     attempts := attempts st + 1;
     processed_fids := {[fid]} ∪ processed_fids st |}.

End Fetch.

(** ** What the identity service said of a key during a run *)

Module Identity.

(** Some pass of the run got, for its identity request, a reply that exits
    with 0, has the status 200 and a body that decodes to a document whose
    first user carries [fid]. *)
Definition confirmed (w : World) (fid : Z) : Prop :=
  exists n cp data,
    neynar (tick_at w n) = Ok cp /\ returncode cp = 0 /\ last3 (stdout cp) = "200" /\
    json_loads w (drop_last3 (stdout cp)) = Ok data /\
    Contract.identity_matches data fid = true.

End Identity.

(** ** The counters of bulk_update_1_to_100.py *)

Module Tallies.

(** The counters account for [n] keys: each key is counted once as
    successful, failed or not found; the profiles are counted among the
    successes; [results] holds one record for each counted profile, and
    every record has a true [hasProfile]. *)
Definition accounted (n : Z) (st : BulkUpdate1To100.Tally) : Prop :=
  BulkUpdate1To100.successful_updates st + BulkUpdate1To100.failed_updates st
    + BulkUpdate1To100.not_found st = n /\
  0 <= BulkUpdate1To100.failed_updates st /\
  0 <= BulkUpdate1To100.not_found st /\
  0 <= BulkUpdate1To100.with_profiles st <= BulkUpdate1To100.successful_updates st /\
  Z.of_nat (List.length (BulkUpdate1To100.results st)) = BulkUpdate1To100.with_profiles st /\
  List.filter BulkUpdate1To100.has_profile_flag (BulkUpdate1To100.results st)
    = BulkUpdate1To100.results st.

(** The pause after the pass for [fid]. *)
Definition pause (fid : Z) : Q := if fid mod 10 =? 0 then 2 else 1.

Fixpoint pauses (fids : list Z) : Q :=
  match fids with
  | [] => 0
  | fid :: rest => (pause fid + pauses rest)%Q
  end.

End Tallies.

(** ** Worlds that serve a given leaderboard *)

Module Boards.

(** [{success: true, data: {leaderboard: entries}}] *)
Definition reply (entries : list json) : json :=
  JObj [("success", JBool true); ("data", JObj [("leaderboard", JArr entries)])].

(** Every text decodes to the reply with [entries]; the leaderboard and the
    rebuild request are served; no score and no identity request is. *)
Definition serving (entries : list json) : World :=
  {| json_loads := fun _ => Ok (reply entries);
     tick_at := fun n => {| rand := 0; raw := n; neynar := Sample.timed_out;
                            score := Sample.timed_out |};
     refresh := Sample.completed "";
     leaderboard_fetch := Sample.completed "{}";
     sorted_by_score := fun l => Ok l |}.

(** The value of [data['data']['leaderboard']] in what a leaderboard request
    gave, when the request exits with 0 and its body decodes to an object
    with a truthy [success]; [None] when some step of that chain fails. *)
Definition served (w : World) (r : result CompletedProcess) : option json :=
  match r with
  | Ok cp =>
      if returncode cp =? 0 then
        match json_loads w (stdout cp) with
        | Ok (JObj fields) =>
            match dict_lookup "success" fields with
            | Some success =>
                if truthy success then
                  match dict_lookup "data" fields with
                  | Some (JObj payload) => dict_lookup "leaderboard" payload
                  | _ => None
                  end
                else None
            | None => None
            end
        | _ => None
        end
      else None
  | Raise _ => None
  end.

End Boards.

(** ** Reading the leaderboard: the rows and their keys *)

Module Rows.

(** [[entry['fid'] for entry in entries]] *)
Fixpoint fids_of (entries : list json) : result (list json) :=
  match entries with
  | [] => Ok []
  | entry :: rest =>
      let? fid := getitem entry "fid" in
      let? fids := fids_of rest in
      Ok (fid :: fids)
  end.

(** [bool(entry.get('username') or entry.get('displayName'))] on a row that
    is an object; false on any other value. *)
Definition enriched (entry : json) : bool :=
  match Leaderboard.has_profile entry with
  | Ok b => b
  | Raise _ => false
  end.

Definition is_object (v : json) : bool :=
  match v with JObj _ => true | _ => false end.

(** [enumerate(xs, start)] *)
Fixpoint enumerate {A : Type} (start : Z) (xs : list A) : list (Z * A) :=
  match xs with
  | [] => []
  | x :: rest => (start, x) :: enumerate (start + 1) rest
  end.

End Rows.

(** ** clean_leaderboard.py: [get_current_leaderboard] and
    [identify_entries_to_remove] *)

Module CleanLeaderboard.

Section Script.
Variable w : World.

(** [r] is what [subprocess.run] gives for this call; the empty list that
    the function returns when the [try] falls through is [JArr []]. *)
Definition get_current_leaderboard (r : result CompletedProcess) : prog json :=
  let* found :=
    try_catch
      (emit (Curl GetLeaderboard) >>
       let* result := lift r in
       if returncode result =? 0 then
         let* data := lift (json_loads w (stdout result)) in
         let* success := lift (get data "success") in
         if truthy success then
           let* payload := lift (getitem data "data") in
           let* leaderboard := lift (getitem payload "leaderboard") in
           ret (Some leaderboard)
         else ret None
       else ret None)
      (fun e =>
         emit (Printed "Error getting leaderboard" [JStr (str_exn e)]) >>
         ret None) in
  match found with
  | Some leaderboard => ret leaderboard
  | None => ret (JArr [])
  end.
End Script.

(** The loop of [identify_entries_to_remove], with its two lists. *)
Fixpoint sort_entries (entries entries_to_remove entries_with_profiles : list json)
  : result (list json * list json) :=
  match entries with
  | [] => Ok (entries_to_remove, entries_with_profiles)
  | entry :: rest =>
      let? has_profile := Leaderboard.has_profile entry in
      if has_profile then
        sort_entries rest entries_to_remove (entries_with_profiles ++ [entry])%list
      else
        sort_entries rest (entries_to_remove ++ [entry])%list entries_with_profiles
  end.

Definition identify_entries_to_remove (leaderboard : json)
  : result (list json * list json) :=
  let? entries := iter leaderboard in
  sort_entries entries [] [].

End CleanLeaderboard.

(** ** force_cache_refresh.py: [get_fids_without_profiles] *)

Module CacheRefresh.

(** The loop [for entry in ...: if not entry.get('username') and not
    entry.get('displayName'): fids_without_profiles.append(entry['fid'])].
    The condition reads the two fields in the order of
    [Leaderboard.has_profile] and is its negation. *)
Fixpoint collect (entries : list json) (fids_without_profiles : list json)
  : result (list json) :=
  match entries with
  | [] => Ok fids_without_profiles
  | entry :: rest =>
      let? has_profile := Leaderboard.has_profile entry in
      if has_profile then collect rest fids_without_profiles
      else
        let? fid := getitem entry "fid" in
        collect rest (fids_without_profiles ++ [fid])%list
  end.

Section Script.
Variable w : World.

Definition get_fids_without_profiles (r : result CompletedProcess) : prog (list json) :=
  let* found :=
    try_catch
      (emit (Curl GetLeaderboard) >>
       let* result := lift r in
       if returncode result =? 0 then
         let* data := lift (json_loads w (stdout result)) in
         let* success := lift (get data "success") in
         if truthy success then
           let* payload := lift (getitem data "data") in
           let* leaderboard := lift (getitem payload "leaderboard") in
           let* entries := lift (iter leaderboard) in
           let* fids_without_profiles := lift (collect entries []) in
           ret (Some fids_without_profiles)
         else ret None
       else ret None)
      (fun e =>
         emit (Printed "Error getting leaderboard" [JStr (str_exn e)]) >>
         ret None) in
  match found with
  | Some fids_without_profiles => ret fids_without_profiles
  | None => ret []
  end.
End Script.

End CacheRefresh.

(** ** refresh_top_creators.py: [get_top_creator_fids] *)

Module RefreshTopCreators.

(** The list returned when the [try] falls through. *)
Definition known_top_fids : list json :=
  List.map JInt [10; 2; 12; 88; 1626; 22; 70; 97; 367; 11].

Section Script.
Variable w : World.

Definition get_top_creator_fids (r : result CompletedProcess) : prog (list json) :=
  let* found :=
    try_catch
      (emit (Curl GetLeaderboard) >>
       let* result := lift r in
       if returncode result =? 0 then
         let* data := lift (json_loads w (stdout result)) in
         let* success := lift (get data "success") in
         if truthy success then
           let* payload := lift (getitem data "data") in
           let* leaderboard := lift (getitem payload "leaderboard") in
           let* top := lift (slice_to 10 leaderboard) in
           let* entries := lift (iter top) in
           let* fids := lift (Rows.fids_of entries) in
           ret (Some fids)
         else ret None
       else ret None)
      (fun e =>
         emit (Printed "Error getting leaderboard" [JStr (str_exn e)]) >>
         ret None) in
  match found with
  | Some fids => ret fids
  | None => ret known_top_fids
  end.
End Script.

End RefreshTopCreators.

(** ** update_all_profiles.py: the keys that [main] collects *)

Module ProfileKeys.

Definition get_additional_known_fids : list Z :=
  [ 1; 3; 5; 7; 8; 9; 13; 14; 15; 16; 18; 19; 20; 21; 23; 24; 25; 26; 27; 29;
    30; 31; 32; 33; 34; 35; 36; 37; 38; 39; 40; 41; 42; 43; 44; 45; 46; 47;
    48; 49; 50; 51; 52; 53; 54; 55; 57; 58; 59; 60; 61; 62; 63; 64; 65; 66;
    67; 68; 69; 71; 72; 74; 75; 76; 77; 78; 79; 80; 81; 82; 83; 84; 85; 86;
    87; 89; 90; 91; 92; 93; 94; 95; 96; 98; 99; 100; 194; 3621; 5650 ].

Section Script.
Variable w : World.

Definition get_all_fids_from_leaderboard (r : result CompletedProcess) : prog (list json) :=
  let* found :=
    try_catch
      (emit (Curl GetLeaderboard) >>
       let* result := lift r in
       if returncode result =? 0 then
         let* data := lift (json_loads w (stdout result)) in
         let* success := lift (get data "success") in
         if truthy success then
           let* payload := lift (getitem data "data") in
           let* leaderboard := lift (getitem payload "leaderboard") in
           let* entries := lift (iter leaderboard) in
           let* fids := lift (Rows.fids_of entries) in
           ret (Some fids)
         else ret None
       else ret None)
      (fun e =>
         emit (Printed "Error getting leaderboard FIDs" [JStr (str_exn e)]) >>
         ret None) in
  match found with
  | Some fids => ret fids
  | None => ret []
  end.

(** The loop of [main] over the keys, numbered from 1, and the totals it
    prints. *)
Definition update_all (all_fids : list Z) : prog (Z * Z) :=
  let* counts :=
    for_each (Rows.enumerate 1 all_fids)
      (fun item => UpdateAllProfiles.loop_body w (fst item) (snd item)) (0, 0) in
  emit (Printed "Successfully updated" [JInt (fst counts)]) >>
  emit (Printed "Failed updates" [JInt (snd counts)]) >>
  emit (Printed "Total processed" [JInt (Z.of_nat (List.length all_fids))]) >>
  ret counts.
End Script.

End ProfileKeys.

(** ** update_profiles.py *)

Module UpdateProfiles.

Definition get_existing_fids : list Z := [10; 2; 12; 88; 1626; 22; 70; 97; 367; 11].

Section Script.
Variable w : World.

Definition update_creator_score (fid : Z) (r : result CompletedProcess) : prog bool :=
  emit (Curl (GetScore fid false)) >>
  try_catch
    (let* result := lift r in
     if negb (returncode result =? 0) then ret false
     else
       let* data := lift (json_loads w (stdout result)) in
       let* success := lift (get data "success") in
       if truthy success then
         let* score_data := lift (getitem data "data") in
         let* username := lift (get_default score_data "username" (JStr "N/A")) in
         let* display_name := lift (get_default score_data "displayName" (JStr "N/A")) in
         let* pfp_url := lift (Leaderboard.pfp_status score_data) in
         let* overall := lift (get_default score_data "overallScore" (JStr "N/A")) in
         let* tier := lift (get_default score_data "tier" (JStr "N/A")) in
         emit (Printed "Updated" [JInt fid; username; display_name; overall; tier; pfp_url]) >>
         ret true
       else
         let* error := lift (get_default data "error" (JStr "Unknown error")) in
         emit (Printed "Error" [JInt fid; error]) >>
         ret false)
    (fun e =>
       emit (Printed "Exception" [JInt fid; JStr (str_exn e)]) >>
       ret false).

(** The body of [for fid in fids]; the state is [successful_updates]. *)
Definition loop_body (fid : Z) (successful_updates : Z) : prog Z :=
  let* updated := update_creator_score fid (score (tick_at w fid)) in
  let successful_updates :=
    if updated then successful_updates + 1 else successful_updates in
  emit (Slept 1) >>
  ret successful_updates.

(** One line of the [Top 3 with profile data] listing. *)
Definition print_entry (entry : json) (_ : unit) : prog unit :=
  let* username := lift (get_default entry "username" (JStr "N/A")) in
  let* display_name := lift (get_default entry "displayName" (JStr "N/A")) in
  let* pfp := lift (Leaderboard.pfp_status entry) in
  let* rank := lift (getitem entry "rank") in
  let* fid := lift (getitem entry "fid") in
  let* overall_score := lift (getitem entry "overallScore") in
  let* tier := lift (getitem entry "tier") in
  emit (Printed "Entry" [rank; fid; username; display_name; overall_score; tier; pfp]).

Definition leaderboard_test : prog unit :=
  emit (Printed "Testing updated leaderboard" []) >>
  try_catch
    (emit (Curl GetLeaderboard) >>
     let* result := lift (leaderboard_fetch w) in
     if returncode result =? 0 then
       let* data := lift (json_loads w (stdout result)) in
       let* success := lift (get data "success") in
       if truthy success then
         let* payload := lift (getitem data "data") in
         let* full := lift (getitem payload "leaderboard") in
         let* leaderboard := lift (slice_to 3 full) in
         emit (Printed "Top 3 with profile data" []) >>
         let* top_entries := lift (iter leaderboard) in
         for_each top_entries print_entry tt
       else emit (Printed "Leaderboard API error" [])
     else emit (Printed "Leaderboard request failed" []))
    (fun e => emit (Printed "Leaderboard test failed" [JStr (str_exn e)])).

Definition main : prog unit :=
  emit (Printed "Updating existing database entries with profile data" []) >>
  let fids := get_existing_fids in
  let* successful_updates := for_each fids loop_body 0 in
  emit (Printed "Updated" [JInt successful_updates; JInt (Z.of_nat (List.length fids))]) >>
  leaderboard_test.
End Script.

End UpdateProfiles.

(** ** populate_top_creators.py *)

Module PopulateTopCreators.

Definition get_fresh_high_scoring_creators : list Z :=
  [ 5650; 3621; 194; 99;
    1214; 602; 6131; 2433; 7094; 8152;
    15983; 16098; 1689; 3;
    6546; 7269;
    1102; 239; 2 ].

(** [v > n] for an integer [n]: numbers compare by value, a bool is the
    integer 0 or 1, and any other value raises [TypeError]. *)
Definition gt_int (v : json) (n : Z) : result bool :=
  match v with
  | JInt m => Ok (n <? m)
  | JFloat q => Ok (negb (Qle_bool q (inject_Z n)))
  | JBool b => Ok (n <? (if b then 1 else 0))
  | _ => raise TypeError "'>' not supported between these instances"
  end.

Section Script.
Variable w : World.
(** [sorted(..., key=lambda x: x['overallScore'], reverse=True)], which
    raises when two scores do not compare. *)
Variable sorted_by_overall_score : list json -> result (list json).

(** Returns the dict of the creator, or [JNull] for Python's [None]. *)
Definition test_creator_score (fid : Z) (r : result CompletedProcess) : prog json :=
  emit (Curl (GetScore fid false)) >>
  try_catch
    (let* result := lift r in
     if negb (returncode result =? 0) then ret JNull
     else
       let* data := lift (json_loads w (stdout result)) in
       let* success := lift (get data "success") in
       if truthy success then
         let* score_data := lift (getitem data "data") in
         let* username := lift (get score_data "username") in
         let* display_name := lift (get score_data "displayName") in
         let* pfp_url := lift (get score_data "pfpUrl") in
         let* overall := lift (get_default score_data "overallScore" (JInt 0)) in
         let* tier := lift (get_default score_data "tier" (JStr "D")) in
         ret (JObj [("fid", JInt fid); ("username", username);
                    ("displayName", display_name); ("pfpUrl", pfp_url);
                    ("overallScore", overall); ("tier", tier);
                    ("hasProfile", JBool (truthy (py_or username display_name)))])
       else ret JNull)
    (fun _ => ret JNull).

(** The body of [for i, fid in enumerate(potential_fids, 1)]; the state is
    [successful_creators]. *)
Definition loop_body (item : Z * Z) (successful_creators : list json) : prog (list json) :=
  let '(i, fid) := item in
  emit (Printed "Testing FID" [JInt i; JInt fid]) >>
  let* creator_data := test_creator_score fid (score (tick_at w fid)) in
  let* successful_creators :=
    (if truthy creator_data then
       let* has_profile := lift (getitem creator_data "hasProfile") in
       let* high :=
         (if truthy has_profile then
            let* overall := lift (getitem creator_data "overallScore") in
            lift (gt_int overall 60)
          else ret false) in
       if high then
         let* username := lift (getitem creator_data "username") in
         let* display_name := lift (getitem creator_data "displayName") in
         let* pfp_url := lift (getitem creator_data "pfpUrl") in
         let* overall := lift (getitem creator_data "overallScore") in
         let* tier := lift (getitem creator_data "tier") in
         emit (Printed "High score" [py_or username (JStr "N/A");
                                     py_or display_name (JStr "N/A"); overall; tier;
                                     JStr (if truthy pfp_url then "Yes" else "No")]) >>
         ret (successful_creators ++ [creator_data])%list
       else
         let* has_profile := lift (getitem creator_data "hasProfile") in
         if truthy has_profile then
           let* username := lift (getitem creator_data "username") in
           let* display_name := lift (getitem creator_data "displayName") in
           let* overall := lift (getitem creator_data "overallScore") in
           let* tier := lift (getitem creator_data "tier") in
           emit (Printed "Lower score" [py_or username (JStr "N/A");
                                        py_or display_name (JStr "N/A"); overall; tier]) >>
           ret successful_creators
         else
           let* overall := lift (getitem creator_data "overallScore") in
           let* tier := lift (getitem creator_data "tier") in
           emit (Printed "No profile data" [overall; tier]) >>
           ret successful_creators
     else
       emit (Printed "Failed to fetch" []) >>
       ret successful_creators) in
  emit (Slept 1) >>
  ret successful_creators.

(** One line of the listing of the high-scoring creators. *)
Definition print_creator (creator : json) (_ : unit) : prog unit :=
  let* username := lift (getitem creator "username") in
  let* display_name := lift (getitem creator "displayName") in
  let* pfp_url := lift (getitem creator "pfpUrl") in
  let* fid := lift (getitem creator "fid") in
  let* overall := lift (getitem creator "overallScore") in
  let* tier := lift (getitem creator "tier") in
  emit (Printed "Creator" [fid; py_or username (JStr "N/A");
                           py_or display_name (JStr "N/A"); overall; tier;
                           JStr (if truthy pfp_url then "Yes" else "No")]).

(** [if successful_creators: ...] *)
Definition high_scoring (successful_creators : list json) : prog unit :=
  match successful_creators with
  | [] => ret tt
  | _ =>
      emit (Printed "High-scoring creators with profile data" []) >>
      let* sorted_creators := lift (sorted_by_overall_score successful_creators) in
      for_each (firstn 10 sorted_creators) print_creator tt
  end.

Definition refresh_leaderboard : prog unit :=
  emit (Printed "Refreshing leaderboard cache" []) >>
  try_catch
    (emit (Curl PostRefresh) >>
     let* result := lift (refresh w) in
     if returncode result =? 0 then
       emit (Printed "Leaderboard cache refreshed" [])
     else emit (Printed "Failed to refresh leaderboard cache" []))
    (fun e => emit (Printed "Leaderboard refresh failed" [JStr (str_exn e)])).

(** The body of [for entry in leaderboard[:20]]; the state is [count]. *)
Definition print_entry (entry : json) (count : Z) : prog Z :=
  let* has_profile := lift (Leaderboard.has_profile entry) in
  if has_profile then
    let* username := lift (Leaderboard.get_or_na entry "username") in
    let* display_name := lift (Leaderboard.get_or_na entry "displayName") in
    let* pfp := lift (Leaderboard.pfp_status entry) in
    let* rank := lift (getitem entry "rank") in
    let* fid := lift (getitem entry "fid") in
    let* overall_score := lift (getitem entry "overallScore") in
    let* tier := lift (getitem entry "tier") in
    emit (Printed "Entry" [rank; fid; username; display_name; overall_score; tier; pfp]) >>
    ret (count + 1)
  else ret count.

Definition final_analysis : prog unit :=
  emit (Printed "Final leaderboard analysis" []) >>
  try_catch
    (emit (Curl GetLeaderboard) >>
     let* result := lift (leaderboard_fetch w) in
     if returncode result =? 0 then
       let* data := lift (json_loads w (stdout result)) in
       let* success := lift (get data "success") in
       if truthy success then
         let* payload := lift (getitem data "data") in
         let* leaderboard := lift (getitem payload "leaderboard") in
         let* entries := lift (iter leaderboard) in
         let* with_profiles := lift (Leaderboard.count_profiles entries) in
         let* total_entries := lift (len leaderboard) in
         emit (Printed "Profile coverage" [JInt with_profiles; JInt total_entries]) >>
         emit (Printed "Top 20 entries with profile data" []) >>
         let* top := lift (slice_to 20 leaderboard) in
         let* top_entries := lift (iter top) in
         let* count := for_each top_entries print_entry 0 in
         emit (Printed "of top 20 entries have profile data" [JInt count])
       else emit (Printed "Leaderboard API error" [])
     else emit (Printed "Leaderboard request failed" []))
    (fun e => emit (Printed "Leaderboard test failed" [JStr (str_exn e)])).

Definition main : prog unit :=
  emit (Printed "Testing high-profile creators for leaderboard enhancement" []) >>
  let potential_fids := get_fresh_high_scoring_creators in
  emit (Printed "Testing potential high-scoring creators"
          [JInt (Z.of_nat (List.length potential_fids))]) >>
  let* successful_creators :=
    for_each (Rows.enumerate 1 potential_fids) loop_body [] in
  emit (Printed "Found high-scoring creators with profiles"
          [JInt (Z.of_nat (List.length successful_creators))]) >>
  high_scoring successful_creators >>
  refresh_leaderboard >>
  final_analysis >>
  emit (Printed "Note" []).
End Script.

End PopulateTopCreators.

(** ** The creators that populate_top_creators.py keeps *)

Module Creators.

(** A record with a true [hasProfile] and an [overallScore] above 60. *)
Definition high_scoring_profile (creator : json) : Prop :=
  getitem creator "hasProfile" = Ok (JBool true) /\
  exists overall,
    getitem creator "overallScore" = Ok overall /\
    PopulateTopCreators.gt_int overall 60 = Ok true.

(** [{success: true, data: {username: "dwr", overallScore: overall}}] *)
Definition scored (overall : json) : json :=
  JObj [("success", JBool true);
        ("data", JObj [("username", JStr "dwr"); ("overallScore", overall)])].

End Creators.

(** * Properties *)

(** ** The program monad *)

Section ProgFacts.
Context {A B : Type}.

Lemma pbind_ok (m : prog A) (k : A -> prog B) tr tr1 a :
  m tr = (tr1, Ok a) -> pbind m k tr = k a tr1.
Proof. intros H. unfold pbind. now rewrite H. Qed.

Lemma pbind_raise (m : prog A) (k : A -> prog B) tr tr1 e :
  m tr = (tr1, Raise e) -> pbind m k tr = (tr1, Raise e).
Proof. intros H. unfold pbind. now rewrite H. Qed.

Lemma pbind_ok_inv (m : prog A) (k : A -> prog B) tr tr' b :
  pbind m k tr = (tr', Ok b) ->
  exists tr1 a, m tr = (tr1, Ok a) /\ k a tr1 = (tr', Ok b).
Proof.
  unfold pbind. destruct (m tr) as [tr1 [a|e]]; intros H.
  - now exists tr1, a.
  - discriminate.
Qed.
End ProgFacts.

(** ** The random source and the sampler *)

Lemma randint_bounds a b u k : randint a b u = Ok k -> a <= k <= b.
Proof.
  unfold randint. destruct (a <=? b) eqn:Hab; [|discriminate].
  apply Z.leb_le in Hab. intros [= <-].
  pose proof (Z.mod_pos_bound u (b - a + 1)). lia.
Qed.

Lemma randint_total a b u : a <= b -> exists k, randint a b u = Ok k.
Proof.
  intros Hab. unfold randint. apply Z.leb_le in Hab. rewrite Hab. eauto.
Qed.

(** Every integer of the closed range is drawn for some raw value. *)
Lemma randint_onto a b k : a <= k <= b -> randint a b (k - a) = Ok k.
Proof.
  intros Hk. unfold randint.
  destruct (a <=? b) eqn:Hab; [|apply Z.leb_gt in Hab; lia].
  rewrite Z.mod_small by lia. f_equal. lia.
Qed.

Lemma select_range_in ranges acc rand lo hi :
  Sampler.select_range ranges acc rand = Some (lo, hi) ->
  exists weight, In (lo, hi, weight) ranges.
Proof.
  revert acc. induction ranges as [|[[min_fid max_fid] weight] rest IH]; intros acc; simpl.
  - discriminate.
  - destruct (Qle_bool rand (acc + weight)).
    + intros [= <- <-]. exists weight. now left.
    + intros H. destruct (IH _ H) as [x Hx]. exists x. now right.
Qed.

(** The walk falls through exactly when [rand] is above every accumulated
    mass. *)
Lemma select_range_none ranges acc rand :
  Sampler.select_range ranges acc rand = None <->
  Forall (fun c => (c < rand)%Q) (Sampler.accumulate acc (List.map snd ranges)).
Proof.
  revert acc. induction ranges as [|[[min_fid max_fid] weight] rest IH]; intros acc; simpl.
  - split; [constructor | reflexivity].
  - destruct (Qle_bool rand (acc + weight)) eqn:Hle.
    + apply Qle_bool_iff in Hle. split; [discriminate|].
      intros H. inversion H as [|? ? Hlt _]; subst.
      exfalso. apply (Qlt_not_le _ _ Hlt Hle).
    + rewrite IH. split.
      * intros H. constructor; [|exact H].
        apply Qnot_le_lt. intros Hc. apply Qle_bool_iff in Hc. congruence.
      * intros H. now inversion H.
Qed.

Lemma weighted_fid_returns ranges fallback rand u :
  Forall (fun r => fst (fst r) <= snd (fst r)) ranges ->
  fst fallback <= snd fallback ->
  exists k, Sampler.weighted_fid ranges fallback rand u = Ok k.
Proof.
  intros Hranges Hfb. unfold Sampler.weighted_fid.
  destruct (Sampler.select_range ranges 0 rand) as [[lo hi]|] eqn:Hsel.
  - apply randint_total.
    destruct (select_range_in _ _ _ _ _ Hsel) as [weight Hin].
    rewrite List.Forall_forall in Hranges. apply (Hranges _ Hin).
  - now apply randint_total.
Qed.

Lemma bulk_ranges_well_formed :
  Forall (fun r => fst (fst r) <= snd (fst r)) BulkPopulate.FID_RANGES.
Proof. repeat constructor; simpl; lia. Qed.

Lemma simple_ranges_well_formed :
  Forall (fun r => fst (fst r) <= snd (fst r)) SimpleBulkPopulate.FID_RANGES.
Proof. repeat constructor; simpl; lia. Qed.

Lemma bulk_generate_returns rand u :
  exists fid, BulkPopulate.generate_weighted_fid rand u = Ok fid.
Proof.
  apply weighted_fid_returns; [apply bulk_ranges_well_formed | simpl; lia].
Qed.

Lemma simple_generate_returns rand u :
  exists fid, SimpleBulkPopulate.generate_weighted_fid rand u = Ok fid.
Proof.
  apply weighted_fid_returns; [apply simple_ranges_well_formed | simpl; lia].
Qed.

Lemma targeted_generate_returns rand u :
  exists fid, TargetedBulkPopulate.generate_likely_fid rand u = Ok fid.
Proof.
  unfold TargetedBulkPopulate.generate_likely_fid.
  apply randint_total.
  assert (Hall : Forall (fun r => fst r <= snd r)
                   ((8000, 25000) :: TargetedBulkPopulate.strategies))
    by (repeat constructor; simpl; lia).
  rewrite List.Forall_forall in Hall. apply Hall.
  destruct (nth_in_or_default (Sampler.choices_index TargetedBulkPopulate.weights rand)
              TargetedBulkPopulate.strategies (8000, 25000)) as [Hin | ->].
  - now right.
  - now left.
Qed.

(** With the shipped tables the masses add up to one, so for a draw of
    [random.random()], which lies in [0,1), some range always matches and the
    closing [return] is not reached. *)
Lemma shipped_tables_always_match rand :
  (rand <= 1)%Q ->
  Sampler.select_range BulkPopulate.FID_RANGES 0 rand <> None /\
  Sampler.select_range SimpleBulkPopulate.FID_RANGES 0 rand <> None.
Proof.
  intros Hr. split; intros Hnone; apply select_range_none in Hnone;
    simpl in Hnone; repeat match goal with H : Forall _ (_ :: _) |- _ => inversion H; clear H; subst end;
    match goal with H : (_ + (1 # 10) < rand)%Q |- _ =>
      apply (Qlt_not_le _ _ H); eapply Qle_trans; [exact Hr|]; unfold Qle; simpl; lia end.
Qed.




(** C6, as stated, fails: [random.randint] includes its upper bound, so the
    key drawn from the range (1, 1000) can be 1000 itself. *)
Lemma draw_reaches_upper_bound :
  Sampler.select_range BulkPopulate.FID_RANGES 0 (1 # 10) = Some (1, 1000) /\
  BulkPopulate.generate_weighted_fid (1 # 10) 999 = Ok 1000 /\
  ~ (1 <= 1000 < 1000).
Proof.
  split; [reflexivity | split; [reflexivity | lia]].
Qed.

(** C6 (amended): for every range table whose ranges (and closing fallback
    range) are non-empty, every draw returns a key [k] with
    [lowerBound <= k <= upperBound], both bounds inclusive, for the range
    selected by the walk, or for the fallback range when none is selected. *)
Theorem draw_within_closed_range ranges fallback rand u :
  Forall (fun r => fst (fst r) <= snd (fst r)) ranges ->
  fst fallback <= snd fallback ->
  exists k lo hi,
    Sampler.weighted_fid ranges fallback rand u = Ok k /\
    (lo, hi) = default fallback (Sampler.select_range ranges 0 rand) /\
    lo <= k <= hi.
Proof.
  intros Hranges Hfb.
  destruct (weighted_fid_returns ranges fallback rand u Hranges Hfb) as [k Hk].
  exists k. revert Hk. unfold Sampler.weighted_fid.
  destruct (Sampler.select_range ranges 0 rand) as [[lo hi]|]; simpl; intros Hk.
  - exists lo, hi. split; [exact Hk|]. split; [reflexivity|].
    now apply randint_bounds in Hk.
  - exists (fst fallback), (snd fallback). split; [exact Hk|].
    split; [now destruct fallback|]. now apply randint_bounds in Hk.
Qed.

Lemma draw_within_closed_range_witness :
  exists k lo hi,
    Sampler.weighted_fid BulkPopulate.FID_RANGES (20000, 50000) (1 # 10) 999 = Ok k /\
    (lo, hi) = default (20000, 50000) (Sampler.select_range BulkPopulate.FID_RANGES 0 (1 # 10)) /\
    lo <= k <= hi.
Proof.
  apply (draw_within_closed_range BulkPopulate.FID_RANGES (20000, 50000) (1 # 10) 999).
  - repeat constructor; simpl; lia.
  - simpl; lia.
Defined.

(** ** The sampling loops *)

Section WhileFacts.
Context {St : Type}.
Variable cond : St -> bool.
Variable body : St -> prog St.

Lemma while_stops fuel st tr :
  cond st = false -> while cond body fuel st tr = (tr, Ok (Some st)).
Proof. intros H. destruct fuel; simpl; now rewrite H. Qed.

(** Whatever the loop returns satisfies every invariant of its body and
    falsifies the loop condition. *)
Lemma while_invariant (Inv : St -> Prop) :
  (forall st tr tr' st',
      Inv st -> cond st = true -> body st tr = (tr', Ok st') -> Inv st') ->
  forall fuel st tr tr' st',
    Inv st -> while cond body fuel st tr = (tr', Ok (Some st')) ->
    Inv st' /\ cond st' = false.
Proof.
  intros Hbody. induction fuel as [|fuel IH]; intros st tr tr' st' Hinv; simpl.
  - destruct (cond st) eqn:Hc; unfold ret; intros [= <- <-]; auto.
  - destruct (cond st) eqn:Hc.
    + intros H. apply pbind_ok_inv in H as (tr1 & st1 & Hb & Hw).
      eapply IH; [|exact Hw]. eapply Hbody; eauto.
    + unfold ret. intros [= <- <-]. auto.
Qed.

(** A measure that is positive while the condition holds and that every
    completed pass decreases bounds the fuel needed: with that much fuel the
    loop stops or raises, it never runs out of fuel. *)
Lemma while_enough_fuel (measure : St -> nat) :
  (forall st, cond st = true -> (0 < measure st)%nat) ->
  (forall st tr tr' st',
      cond st = true -> body st tr = (tr', Ok st') -> (measure st' < measure st)%nat) ->
  forall fuel st tr tr',
    (measure st <= fuel)%nat -> while cond body fuel st tr <> (tr', Ok None).
Proof.
  intros Hpos Hbody. induction fuel as [|fuel IH]; intros st tr tr' Hm; simpl.
  - destruct (cond st) eqn:Hc; [|unfold ret; congruence].
    specialize (Hpos _ Hc). lia.
  - destruct (cond st) eqn:Hc; [|unfold ret; congruence].
    unfold pbind. destruct (body st tr) as [tr1 [st1|e]] eqn:Hb; [|congruence].
    apply IH. specialize (Hbody _ _ _ _ Hc Hb). lia.
Qed.

(** When the body returns under an invariant and decreases the measure, the
    loop reaches a state that falsifies its condition. *)
Lemma while_terminates (Inv : St -> Prop) (measure : St -> nat) :
  (forall st, cond st = true -> (0 < measure st)%nat) ->
  (forall st tr,
      Inv st -> cond st = true ->
      exists tr' st', body st tr = (tr', Ok st') /\ Inv st' /\ (measure st' < measure st)%nat) ->
  forall fuel st tr,
    Inv st -> (measure st <= fuel)%nat ->
    exists tr' st',
      while cond body fuel st tr = (tr', Ok (Some st')) /\ Inv st' /\ cond st' = false.
Proof.
  intros Hpos Hbody. induction fuel as [|fuel IH]; intros st tr Hinv Hm; simpl.
  - destruct (cond st) eqn:Hc.
    + specialize (Hpos _ Hc). lia.
    + exists tr, st. auto.
  - destruct (cond st) eqn:Hc.
    + destruct (Hbody st tr Hinv Hc) as (tr1 & st1 & Hb & Hinv1 & Hlt).
      rewrite (pbind_ok _ _ _ _ _ Hb). apply IH; [exact Hinv1 | lia].
    + exists tr, st. auto.
Qed.

(** Once the loop has stopped, more fuel changes nothing. *)
Lemma while_more_fuel fuel fuel' st tr tr' st' :
  while cond body fuel st tr = (tr', Ok (Some st')) -> (fuel <= fuel')%nat ->
  while cond body fuel' st tr = (tr', Ok (Some st')).
Proof.
  revert fuel' st tr. induction fuel as [|fuel IH]; intros fuel' st tr; simpl.
  - destruct (cond st) eqn:Hc; [unfold ret; congruence|].
    intros H _. now rewrite while_stops.
  - destruct (cond st) eqn:Hc.
    + intros H Hle. apply pbind_ok_inv in H as (tr1 & st1 & Hb & Hw).
      destruct fuel' as [|fuel']; [lia|]. simpl. rewrite Hc.
      rewrite (pbind_ok _ _ _ _ _ Hb). apply IH; [exact Hw | lia].
    + intros H _. now rewrite while_stops.
Qed.
End WhileFacts.

(** Case analysis over every branch of a loop body that returns. *)
Ltac step_cases :=
  unfold pbind, lift, ret, emit; intros; repeat case_match; simplify_eq; simpl.

(** Every completed pass of the three loops adds one to [attempts] and at
    most one to [successful_adds], whatever the draws and the replies. *)
Lemma bulk_pass T w st tr tr' st' :
  BulkPopulate.loop_body T w st tr = (tr', Ok st') -> Loop.pass_of st st'.
Proof. unfold BulkPopulate.loop_body, Loop.pass_of. step_cases; lia. Qed.

Lemma simple_pass T w st tr tr' st' :
  SimpleBulkPopulate.loop_body T w st tr = (tr', Ok st') -> Loop.pass_of st st'.
Proof. unfold SimpleBulkPopulate.loop_body, Loop.pass_of. step_cases; lia. Qed.

Lemma targeted_pass T w st tr tr' st' :
  TargetedBulkPopulate.loop_body T w st tr = (tr', Ok st') -> Loop.pass_of st st'.
Proof. unfold TargetedBulkPopulate.loop_body, Loop.pass_of. step_cases; lia. Qed.

(** The counters of a loop [while successful_adds < quota and attempts <
    budget] whose completed passes are as [Loop.pass_of] says. *)
Section Counters.
Variables quota budget : Z.
Variable body : RunState -> prog RunState.
Hypothesis body_pass :
  forall st tr tr' st', body st tr = (tr', Ok st') -> Loop.pass_of st st'.

Lemma counting_remaining st :
  Loop.counting quota budget st = true -> (0 < Loop.remaining budget st)%nat.
Proof.
  unfold Loop.counting, Loop.remaining. intros H.
  apply andb_true_iff in H as [_ H]. apply Z.ltb_lt in H. lia.
Qed.

Lemma pass_decreases st tr tr' st' :
  Loop.counting quota budget st = true -> body st tr = (tr', Ok st') ->
  (Loop.remaining budget st' < Loop.remaining budget st)%nat.
Proof.
  intros Hc Hb. apply body_pass in Hb as [Ha _].
  unfold Loop.counting in Hc. apply andb_true_iff in Hc as [_ Hc]. apply Z.ltb_lt in Hc.
  unfold Loop.remaining. lia.
Qed.

Lemma pass_within_budget st tr tr' st' :
  Loop.within_budget budget st -> Loop.counting quota budget st = true ->
  body st tr = (tr', Ok st') -> Loop.within_budget budget st'.
Proof.
  intros Hin Hc Hb. apply body_pass in Hb as [Ha Hs].
  unfold Loop.counting in Hc. apply andb_true_iff in Hc as [_ Hc]. apply Z.ltb_lt in Hc.
  unfold Loop.within_budget in *. lia.
Qed.

Lemma initial_within_budget : Loop.within_budget budget initial.
Proof. unfold Loop.within_budget, initial. simpl. lia. Qed.

Lemma counting_never_starves tr tr' :
  while (Loop.counting quota budget) body (Z.to_nat budget) initial tr <> (tr', Ok None).
Proof.
  apply (while_enough_fuel _ body (Loop.remaining budget)).
  - apply counting_remaining.
  - apply pass_decreases.
  - unfold Loop.remaining, initial. simpl. lia.
Qed.

Lemma counting_stops_within_budget fuel tr tr' st :
  while (Loop.counting quota budget) body fuel initial tr = (tr', Ok (Some st)) ->
  Loop.within_budget budget st /\ Loop.counting quota budget st = false.
Proof.
  apply (while_invariant _ body (Loop.within_budget budget)).
  - apply pass_within_budget.
  - apply initial_within_budget.
Qed.

Lemma counting_reaches_stopped :
  (forall st tr,
      Loop.within_budget budget st -> Loop.counting quota budget st = true ->
      exists tr' st', body st tr = (tr', Ok st')) ->
  Loop.reaches_stopped (Loop.counting quota budget) body budget.
Proof.
  intros Hreturns.
  destruct (while_terminates (Loop.counting quota budget) body
              (Loop.within_budget budget) (Loop.remaining budget)
              counting_remaining) with (fuel := Z.to_nat budget) (st := initial)
              (tr := @nil event)
    as (tr' & st' & Hrun & [_ Hin] & Hstop).
  - intros st tr Hin Hc. destruct (Hreturns st tr Hin Hc) as (tr' & st' & Hb).
    exists tr', st'. split; [exact Hb|]. split.
    + eapply pass_within_budget; eauto.
    + eapply pass_decreases; eauto.
  - apply initial_within_budget.
  - unfold Loop.remaining, initial. simpl. lia.
  - exists tr', st'. auto.
Qed.
End Counters.

Lemma truediv_ok a b : b <> 0 -> truediv a b = Ok (inject_Z a / inject_Z b)%Q.
Proof.
  intros Hb. unfold truediv. destruct (b =? 0) eqn:E; [apply Z.eqb_eq in E; lia | reflexivity].
Qed.

(** The shape of a reply that follows the contract of the scoring service. *)
Lemma score_response_shape j :
  Contract.score_response j = true ->
  exists fields, j = JObj fields /\
    ((dict_lookup "success" fields = Some (JBool true) /\
      exists d, dict_lookup "data" fields = Some (JObj d) /\
                Contract.optional_number (dict_lookup "overallScore" d) = true) \/
     (dict_lookup "success" fields = Some (JBool false) /\
      exists s, match dict_lookup "error" fields with Some x => x | None => JStr "Unknown error" end = JStr s)).
Proof.
  destruct j as [| | | | | |fields]; simpl; try discriminate.
  intros H. exists fields. split; [reflexivity|].
  destruct (dict_lookup "success" fields) as [[|[|]| | | | |]|]; try discriminate.
  - left. split; [reflexivity|].
    destruct (dict_lookup "data" fields) as [[| | | | | |d]|]; simpl in H; try discriminate.
    eauto.
  - right. split; [reflexivity|].
    destruct (dict_lookup "error" fields) as [[| | | |s| |]|]; try discriminate; eauto.
Qed.

Lemma simple_fetch_conforms w fid n tr :
  Contract.scoring_service_conforms w ->
  exists j,
    SimpleBulkPopulate.get_creator_score w fid (score (tick_at w n)) tr
      = (Curl (GetScore fid false) :: tr, Ok j) /\
    Contract.score_response j = true.
Proof.
  intros Hw. unfold SimpleBulkPopulate.get_creator_score, pbind, try_catch, emit, lift, ret.
  destruct (score (tick_at w n)) as [cp|e] eqn:Hcp; [|eauto].
  destruct (returncode cp =? 0) eqn:Hrc; simpl; [|eauto].
  apply Z.eqb_eq in Hrc.
  destruct (json_loads w (stdout cp)) as [j|e] eqn:Hj; [|eauto].
  exists j. split; [reflexivity|]. apply (Hw n cp j Hcp Hrc Hj).
Qed.

Lemma simple_pass_returns T w st tr :
  Contract.scoring_service_conforms w ->
  0 <= successful_adds st ->
  SimpleBulkPopulate.loop_condition T st = true ->
  exists tr' st', SimpleBulkPopulate.loop_body T w st tr = (tr', Ok st').
Proof.
  intros Hw Hs Hc.
  assert (HT : T <> 0).
  { unfold SimpleBulkPopulate.loop_condition in Hc.
    apply andb_true_iff in Hc as [Hc _]. apply Z.ltb_lt in Hc. lia. }
  unfold SimpleBulkPopulate.loop_body.
  destruct (simple_generate_returns (rand (tick_at w (attempts st + 1)))
              (raw (tick_at w (attempts st + 1)))) as [fid Hfid].
  unfold pbind at 1. unfold lift at 1. rewrite Hfid.
  destruct (decide (fid ∈ processed_fids st)); [unfold ret; eauto|].
  unfold pbind at 1. unfold emit at 1. unfold pbind at 1.
  destruct (simple_fetch_conforms w fid (attempts st + 1)
              (Printed "Testing FID" [JInt (attempts st + 1); JInt fid] :: tr) Hw)
    as (j & -> & Hj).
  apply score_response_shape in Hj as (fields & -> & [(Hsucc & d & Hdata & _) | (Hsucc & s & Herr)]).
  - unfold pbind, lift, emit, ret, get, get_default, getitem.
    rewrite Hsucc, Hdata. simpl.
    destruct (_ =? 0); [rewrite truediv_ok by exact HT|]; eauto.
  - unfold pbind, lift, emit, ret, get, get_default, getitem.
    rewrite Hsucc. simpl. rewrite Herr. simpl.
    destruct (_ || _); destruct (_ =? 0); try rewrite truediv_ok by exact HT; eauto.
Qed.

Lemma targeted_fetch_conforms w fid n tr :
  Contract.scoring_service_conforms w ->
  exists j,
    TargetedBulkPopulate.get_creator_score w fid (score (tick_at w n)) tr
      = (Curl (GetScore fid false) :: tr, Ok j) /\
    Contract.score_response j = true.
Proof.
  intros Hw. unfold TargetedBulkPopulate.get_creator_score, pbind, try_catch, emit, lift, ret.
  destruct (score (tick_at w n)) as [cp|e] eqn:Hcp; [|eauto].
  destruct (returncode cp =? 0) eqn:Hrc; simpl; [|eauto].
  apply Z.eqb_eq in Hrc.
  destruct (json_loads w (stdout cp)) as [j|e] eqn:Hj; [|eauto].
  exists j. split; [reflexivity|]. apply (Hw n cp j Hcp Hrc Hj).
Qed.

Lemma targeted_pass_returns T w st tr :
  Contract.scoring_service_conforms w ->
  0 <= attempts st ->
  exists tr' st', TargetedBulkPopulate.loop_body T w st tr = (tr', Ok st').
Proof.
  intros Hw Ha.
  assert (Hn : attempts st + 1 <> 0) by lia.
  unfold TargetedBulkPopulate.loop_body.
  destruct (targeted_generate_returns (rand (tick_at w (attempts st + 1)))
              (raw (tick_at w (attempts st + 1)))) as [fid Hfid].
  unfold pbind at 1. unfold lift at 1. rewrite Hfid.
  destruct (decide (fid ∈ processed_fids st)); [unfold ret; eauto|].
  unfold pbind at 1. unfold emit at 1. unfold pbind at 1.
  destruct (targeted_fetch_conforms w fid (attempts st + 1)
              (Printed "FID" [JInt (attempts st + 1); JInt fid] :: tr) Hw)
    as (j & -> & Hj).
  apply score_response_shape in Hj as (fields & -> & [(Hsucc & d & Hdata & Hnum) | (Hsucc & s & Herr)]).
  - unfold pbind, lift, emit, ret, get, get_default, getitem.
    rewrite Hsucc, Hdata. simpl.
    destruct (dict_lookup "overallScore" d) as [[| | | | | |]|]; simpl in *; try discriminate;
      (destruct (_ =? 0); [rewrite truediv_ok by exact Hn|]; eauto).
  - unfold pbind, lift, emit, ret, get, get_default, getitem.
    rewrite Hsucc. simpl.
    destruct (_ =? 0); [rewrite truediv_ok by exact Hn|]; eauto.
Qed.

Lemma check_neynar_returns w fid r tr :
  exists tr' found, BulkPopulate.check_neynar_user_exists w fid r tr = (tr', Ok found).
Proof.
  unfold BulkPopulate.check_neynar_user_exists, pbind, try_catch, try_catch_only, emit, lift, ret.
  repeat case_match; simplify_eq; eauto.
Qed.

Lemma bulk_fetch_conforms w fid n tr :
  Contract.scoring_service_conforms w ->
  exists tr' j,
    BulkPopulate.get_creator_score w fid (score (tick_at w n)) tr = (tr', Ok j) /\
    (j = JNull \/ exists d, j = JObj d).
Proof.
  intros Hw. unfold BulkPopulate.get_creator_score, pbind, try_catch, emit, lift, ret.
  destruct (score (tick_at w n)) as [cp|e] eqn:Hcp; [|eauto 6].
  destruct (returncode cp =? 0) eqn:Hrc; simpl; [|eauto 6].
  apply Z.eqb_eq in Hrc.
  destruct (json_loads w (stdout cp)) as [j|e] eqn:Hj; [|eauto 6].
  pose proof (Hw n cp j Hcp Hrc Hj) as Hshape.
  apply score_response_shape in Hshape
    as (fields & -> & [(Hsucc & d & Hdata & _) | (Hsucc & s & Herr)]).
  - unfold get, get_default, getitem. rewrite Hsucc, Hdata. simpl. eauto 8.
  - unfold get, get_default. rewrite Hsucc. simpl. eauto 8.
Qed.

Lemma bulk_pass_returns T w st tr :
  Contract.scoring_service_conforms w ->
  exists tr' st', BulkPopulate.loop_body T w st tr = (tr', Ok st').
Proof.
  intros Hw.
  unfold BulkPopulate.loop_body.
  destruct (bulk_generate_returns (rand (tick_at w (attempts st + 1)))
              (raw (tick_at w (attempts st + 1)))) as [fid Hfid].
  unfold pbind at 1. unfold lift at 1. rewrite Hfid.
  destruct (decide (fid ∈ processed_fids st)); [unfold ret; eauto|].
  unfold pbind at 1. unfold emit at 1. unfold pbind at 1.
  destruct (check_neynar_returns w fid (neynar (tick_at w (attempts st + 1)))
              (Printed "Testing FID" [JInt (attempts st + 1); JInt fid] :: tr))
    as (tr1 & found & ->).
  destruct found; simpl.
  - unfold pbind at 1. unfold emit at 1. unfold pbind at 1.
    destruct (bulk_fetch_conforms w fid (attempts st + 1) (Printed "Active" [] :: tr1) Hw)
      as (tr2 & j & -> & [-> | [d ->]]).
    + unfold pbind, emit, ret. simpl. eauto.
    + unfold pbind, lift, emit, ret, get_default. destruct d; simpl; eauto.
  - unfold pbind, emit, ret. eauto.
Qed.

(** C1, as stated, fails: in a run whose every pass draws the key 42, the
    second pass finds 42 in the seen-set, emits nothing, and still moves
    [attempts] from 1 to 2. *)
Lemma duplicate_key_consumes_attempt :
  SimpleBulkPopulate.loop_body 100 (Sample.repeating Sample.not_found_doc) initial [] =
    ([Slept (3 # 2); Printed "Invalid FID" []; Curl (GetScore 42 false);
      Printed "Testing FID" [JInt 1; JInt 42]],
     Ok Sample.seen_42) /\
  SimpleBulkPopulate.generate_weighted_fid 0 41 = Ok 42 /\
  42 ∈ processed_fids Sample.seen_42 /\
  SimpleBulkPopulate.loop_body 100 (Sample.repeating Sample.not_found_doc) Sample.seen_42 [] =
    ([], Ok {| successful_adds := 0; attempts := 2; processed_fids := {[42]} |}) /\
  attempts Sample.seen_42 = 1.
Proof.
  split; [|split; [|split; [|split]]].
  - vm_compute. reflexivity.
  - reflexivity.
  - unfold Sample.seen_42. simpl. set_solver.
  - vm_compute. reflexivity.
  - reflexivity.
Qed.

(** C1 (amended): in a pass whose drawn key is already in the seen-set the
    key is discarded and the loop goes back to sampling without sleeping,
    without any request and without printing, the seen-set and the successes
    unchanged; the pass still consumes one attempt-budget unit, because
    [attempts] is incremented at the top of every pass. *)
Theorem duplicate_key_pass T w st tr :
  (forall fid,
      BulkPopulate.generate_weighted_fid
        (rand (tick_at w (attempts st + 1))) (raw (tick_at w (attempts st + 1))) = Ok fid ->
      fid ∈ processed_fids st ->
      BulkPopulate.loop_body T w st tr = (tr, Ok (Loop.skipped st))) /\
  (forall fid,
      SimpleBulkPopulate.generate_weighted_fid
        (rand (tick_at w (attempts st + 1))) (raw (tick_at w (attempts st + 1))) = Ok fid ->
      fid ∈ processed_fids st ->
      SimpleBulkPopulate.loop_body T w st tr = (tr, Ok (Loop.skipped st))) /\
  (forall fid,
      TargetedBulkPopulate.generate_likely_fid
        (rand (tick_at w (attempts st + 1))) (raw (tick_at w (attempts st + 1))) = Ok fid ->
      fid ∈ processed_fids st ->
      TargetedBulkPopulate.loop_body T w st tr = (tr, Ok (Loop.skipped st))).
Proof.
  split; [|split]; intros fid Hfid Hseen.
  - unfold BulkPopulate.loop_body, pbind, lift. rewrite Hfid.
    destruct (decide (fid ∈ processed_fids st)); [reflexivity | contradiction].
  - unfold SimpleBulkPopulate.loop_body, pbind, lift. rewrite Hfid.
    destruct (decide (fid ∈ processed_fids st)); [reflexivity | contradiction].
  - unfold TargetedBulkPopulate.loop_body, pbind, lift. rewrite Hfid.
    destruct (decide (fid ∈ processed_fids st)); [reflexivity | contradiction].
Qed.

Lemma duplicate_key_pass_witness :
  SimpleBulkPopulate.loop_body 100 (Sample.repeating Sample.not_found_doc) Sample.seen_42 [] =
    ([], Ok (Loop.skipped Sample.seen_42)).
Proof.
  refine (proj1 (proj2 (duplicate_key_pass 100 (Sample.repeating Sample.not_found_doc)
                          Sample.seen_42 [])) 42 _ _).
  - reflexivity.
  - unfold Sample.seen_42. simpl. set_solver.
Defined.

(** C2 on simple_bulk_populate.py, evaluated: the key 42 is probed, the reply
    is [{success: true, data: {overallScore: null, tier: "D"}}], and the pass
    counts it as a success (successes 0 -> 1, attempts 0 -> 1). *)
Theorem simple_counts_null_score :
  SimpleBulkPopulate.loop_body 100 (Sample.repeating Sample.null_score_doc) initial [] =
    ([Slept (3 # 2); Printed "Score" [JNull; JStr "D"; JInt 1; JInt 100];
      Curl (GetScore 42 false); Printed "Testing FID" [JInt 1; JInt 42]],
     Ok {| successful_adds := 1; attempts := 1; processed_fids := {[42]} |}).
Proof. vm_compute. reflexivity. Qed.

Lemma targeted_fetch_decoded w fid cp j tr :
  returncode cp = 0 -> json_loads w (stdout cp) = Ok j ->
  TargetedBulkPopulate.get_creator_score w fid (Ok cp) tr = (Curl (GetScore fid false) :: tr, Ok j).
Proof.
  intros Hrc Hj.
  unfold TargetedBulkPopulate.get_creator_score, pbind, try_catch, emit, lift, ret.
  rewrite Hrc, Hj. reflexivity.
Qed.

(** The sibling loop of targeted_bulk_populate.py does what C2 says: a reply
    with [success] true whose [overallScore] is null or absent leaves the
    successes unchanged, prints [Inactive], and counts one attempt. *)
Lemma targeted_skips_null_score T w st tr fid cp fields d :
  0 <= attempts st ->
  TargetedBulkPopulate.generate_likely_fid
    (rand (tick_at w (attempts st + 1))) (raw (tick_at w (attempts st + 1))) = Ok fid ->
  fid ∉ processed_fids st ->
  score (tick_at w (attempts st + 1)) = Ok cp -> returncode cp = 0 ->
  json_loads w (stdout cp) = Ok (JObj fields) ->
  dict_lookup "success" fields = Some (JBool true) ->
  dict_lookup "data" fields = Some (JObj d) ->
  dict_lookup "overallScore" d = None \/ dict_lookup "overallScore" d = Some JNull ->
  exists tr',
    TargetedBulkPopulate.loop_body T w st tr =
      (tr', Ok {| successful_adds := successful_adds st;
                  attempts := attempts st + 1;
                  processed_fids := {[fid]} ∪ processed_fids st |}) /\
    In (Printed "Inactive" []) tr'.
Proof.
  intros Hatt Hfid Hnew Hcp Hrc Hj Hsucc Hdata Hscore.
  unfold TargetedBulkPopulate.loop_body.
  unfold pbind at 1. unfold lift at 1. rewrite Hfid.
  destruct (decide (fid ∈ processed_fids st)) as [|_]; [contradiction|].
  unfold pbind at 1. unfold emit at 1.
  unfold pbind at 1. rewrite Hcp, (targeted_fetch_decoded _ _ _ _ _ Hrc Hj).
  unfold pbind, lift, emit, ret, get, get_default, getitem.
  rewrite Hsucc, Hdata. simpl.
  assert (Hnone : is_not_none (match dict_lookup "overallScore" d with
                               | Some x => x | None => JNull end) = false)
    by (destruct Hscore as [-> | ->]; reflexivity).
  rewrite Hnone.
  destruct ((attempts st + 1) mod 25 =? 0).
  - rewrite truediv_ok by lia.
    eexists. split; [reflexivity|]. simpl. tauto.
  - eexists. split; [reflexivity|]. simpl. tauto.
Qed.

Lemma targeted_skips_null_score_example :
  TargetedBulkPopulate.loop_body 100 (Sample.repeating Sample.null_score_doc) initial [] =
    ([Slept 1; Printed "Inactive" []; Curl (GetScore 42 false);
      Printed "FID" [JInt 1; JInt 42]],
     Ok {| successful_adds := 0; attempts := 1; processed_fids := {[42]} |}).
Proof. vm_compute. reflexivity. Qed.



(** C4: at the state in which a sampling loop stops, successes <= attempts <=
    attemptBudget, for every non-negative quota [T] (the budget is [T * 3],
    or [T * 2] in simple_bulk_populate.py), every world and every amount of
    fuel. *)
Theorem counters_at_stopped T w :
  0 <= T ->
  forall fuel tr st,
    (while (BulkPopulate.loop_condition T) (BulkPopulate.loop_body T w) fuel initial []
       = (tr, Ok (Some st)) ->
     successful_adds st <= attempts st <= BulkPopulate.max_attempts T) /\
    (while (SimpleBulkPopulate.loop_condition T) (SimpleBulkPopulate.loop_body T w) fuel initial []
       = (tr, Ok (Some st)) ->
     successful_adds st <= attempts st <= SimpleBulkPopulate.max_attempts T) /\
    (while (TargetedBulkPopulate.loop_condition T) (TargetedBulkPopulate.loop_body T w) fuel initial []
       = (tr, Ok (Some st)) ->
     successful_adds st <= attempts st <= TargetedBulkPopulate.max_attempts T).
Proof.
  intros HT fuel tr st. split; [|split]; intros Hrun.
  - change (BulkPopulate.loop_condition T)
      with (Loop.counting T (BulkPopulate.max_attempts T)) in Hrun.
    apply (counting_stops_within_budget _ _ _ (bulk_pass T w)) in Hrun as [[Hs Ha] _].
    unfold BulkPopulate.max_attempts in *. lia.
  - change (SimpleBulkPopulate.loop_condition T)
      with (Loop.counting T (SimpleBulkPopulate.max_attempts T)) in Hrun.
    apply (counting_stops_within_budget _ _ _ (simple_pass T w)) in Hrun as [[Hs Ha] _].
    unfold SimpleBulkPopulate.max_attempts in *. lia.
  - change (TargetedBulkPopulate.loop_condition T)
      with (Loop.counting T (TargetedBulkPopulate.max_attempts T)) in Hrun.
    apply (counting_stops_within_budget _ _ _ (targeted_pass T w)) in Hrun as [[Hs Ha] _].
    unfold TargetedBulkPopulate.max_attempts in *. lia.
Qed.

Lemma counters_at_stopped_witness :
  exists tr st,
    while (SimpleBulkPopulate.loop_condition 1)
      (SimpleBulkPopulate.loop_body 1 Sample.silent) 2 initial [] = (tr, Ok (Some st)) /\
    successful_adds st <= attempts st <= SimpleBulkPopulate.max_attempts 1.
Proof.
  eexists _, _. split.
  - vm_compute. reflexivity.
  - refine (proj1 (proj2 (counters_at_stopped 1 Sample.silent _ 2 _ _)) _).
    + lia.
    + vm_compute. reflexivity.
Defined.

(** ** The existence check *)

Lemma identity_matches_intro data users first v fid :
  get_default data "users" (JArr []) = Ok users ->
  getitem0 users = Ok first ->
  get first "fid" = Ok v ->
  eq_int v fid = true ->
  Contract.identity_matches data fid = true.
Proof.
  destruct data as [| | | | | |fields]; simpl; try discriminate.
  intros [= <-].
  destruct (dict_lookup "users" fields) as [[| | | |s|items|]|]; simpl; try discriminate.
  - destruct s; simpl; [discriminate|]. intros [= <-]. discriminate.
  - destruct items as [|x rest]; simpl; [discriminate|]. intros [= ->].
    destruct first as [| | | | | |ffields]; simpl; try discriminate.
    unfold get, get_default. intros [= <-].
    destruct (dict_lookup "fid" ffields); simpl; [tauto | discriminate].
Qed.

Lemma check_neynar_true_inv w fid r tr tr' :
  BulkPopulate.check_neynar_user_exists w fid r tr = (tr', Ok true) ->
  exists cp data,
    r = Ok cp /\ returncode cp = 0 /\ last3 (stdout cp) = "200" /\
    json_loads w (drop_last3 (stdout cp)) = Ok data /\
    Contract.identity_matches data fid = true.
Proof.
  unfold BulkPopulate.check_neynar_user_exists, pbind, try_catch, try_catch_only, emit, lift, ret.
  intros H. repeat case_match; simplify_eq.
  match goal with
  | Hrc : negb (returncode ?cp =? 0) = false, Hst : negb (last3 _ =? "200")%string = false,
    Hj : json_loads _ _ = Ok ?data |- _ =>
      exists cp, data;
      apply negb_false_iff, Z.eqb_eq in Hrc;
      apply negb_false_iff, String.eqb_eq in Hst;
      repeat split; try assumption
  end.
  eapply identity_matches_intro; eassumption.
Qed.

Lemma check_neynar_true_intro w fid cp data tr :
  returncode cp = 0 -> last3 (stdout cp) = "200" ->
  json_loads w (drop_last3 (stdout cp)) = Ok data ->
  Contract.identity_matches data fid = true ->
  BulkPopulate.check_neynar_user_exists w fid (Ok cp) tr
    = (Curl (GetNeynarUser fid) :: tr, Ok true).
Proof.
  intros Hrc Hst Hj Hm.
  unfold BulkPopulate.check_neynar_user_exists, pbind, try_catch, try_catch_only, emit, lift, ret.
  rewrite Hrc, Hst, Hj. simpl.
  destruct data as [| | | | | |fields]; simpl in Hm; try discriminate.
  simpl.
  destruct (dict_lookup "users" fields) as [[| | | | |[|[| | | | | |first] rest]|]|];
    try discriminate.
  simpl. unfold get, get_default.
  destruct (dict_lookup "fid" first); [|discriminate].
  rewrite Hm.
  replace (0 <? Z.of_nat (S (List.length rest))) with true
    by (symmetry; apply Z.ltb_lt; lia).
  reflexivity.
Qed.

(** C7: the existence check never raises and fails closed.  It answers true
    exactly when the client exits with 0, the status is 200, the body decodes
    and the first element of its [users] array carries the requested fid; so
    it answers false on a raised exception or timeout, on a non-zero exit, on
    a status other than 200, on an undecodable body, on an empty [users]
    array and on a first user whose fid is not the requested key. *)
Theorem neynar_check_fails_closed w fid r tr :
  exists tr' found,
    BulkPopulate.check_neynar_user_exists w fid r tr = (tr', Ok found) /\
    (found = true <->
     exists cp data,
       r = Ok cp /\ returncode cp = 0 /\ last3 (stdout cp) = "200" /\
       json_loads w (drop_last3 (stdout cp)) = Ok data /\
       Contract.identity_matches data fid = true) /\
    (forall e, r = Raise e -> found = false) /\
    (forall cp, r = Ok cp -> returncode cp <> 0 -> found = false) /\
    (forall cp, r = Ok cp -> last3 (stdout cp) <> "200" -> found = false) /\
    (forall cp e, r = Ok cp -> json_loads w (drop_last3 (stdout cp)) = Raise e -> found = false) /\
    (forall cp fields,
        r = Ok cp -> json_loads w (drop_last3 (stdout cp)) = Ok (JObj fields) ->
        dict_lookup "users" fields = Some (JArr []) -> found = false) /\
    (forall cp data,
        r = Ok cp -> json_loads w (drop_last3 (stdout cp)) = Ok data ->
        Contract.identity_matches data fid = false -> found = false).
Proof.
  destruct (check_neynar_returns w fid r tr) as (tr' & found & Hrun).
  exists tr', found. split; [exact Hrun|].
  assert (Hiff : found = true <->
     exists cp data,
       r = Ok cp /\ returncode cp = 0 /\ last3 (stdout cp) = "200" /\
       json_loads w (drop_last3 (stdout cp)) = Ok data /\
       Contract.identity_matches data fid = true).
  { split.
    - intros ->. eapply check_neynar_true_inv; eassumption.
    - intros (cp & data & -> & Hrc & Hst & Hj & Hm).
      rewrite (check_neynar_true_intro w fid cp data tr Hrc Hst Hj Hm) in Hrun.
      now inversion Hrun. }
  split; [exact Hiff|].
  repeat split.
  - intros e ->. destruct found; [|reflexivity].
    destruct (proj1 Hiff eq_refl) as (cp & data & Hr & _). discriminate.
  - intros cp -> Hrc. destruct found; [|reflexivity].
    destruct (proj1 Hiff eq_refl) as (cp' & data & [= <-] & Hrc' & _). contradiction.
  - intros cp -> Hst. destruct found; [|reflexivity].
    destruct (proj1 Hiff eq_refl) as (cp' & data & [= <-] & _ & Hst' & _). contradiction.
  - intros cp e -> Hj. destruct found; [|reflexivity].
    destruct (proj1 Hiff eq_refl) as (cp' & data & [= <-] & _ & _ & Hj' & _). congruence.
  - intros cp fields -> Hj Hu. destruct found; [|reflexivity].
    destruct (proj1 Hiff eq_refl) as (cp' & data & [= <-] & _ & _ & Hj' & Hm).
    rewrite Hj in Hj'. injection Hj' as <-. simpl in Hm. rewrite Hu in Hm. discriminate.
  - intros cp data -> Hj Hm. destruct found; [|reflexivity].
    destruct (proj1 Hiff eq_refl) as (cp' & data' & [= <-] & _ & _ & Hj' & Hm').
    congruence.
Qed.

Lemma neynar_check_fails_closed_witness :
  exists tr' found,
    BulkPopulate.check_neynar_user_exists (Sample.answering Sample.user_3_doc) 3
      (Sample.completed "{}200") [] = (tr', Ok found) /\
    found = true.
Proof.
  destruct (neynar_check_fails_closed (Sample.answering Sample.user_3_doc) 3
              (Sample.completed "{}200") []) as (tr' & found & Hrun & Hiff & _).
  exists tr', found. split; [exact Hrun|].
  apply Hiff. eexists _, _. repeat split; reflexivity.
Defined.

Ltac probe_not_found :=
  eexists _, _, _; repeat split; try reflexivity;
  first [discriminate | intros [? ?]; discriminate].

(** The inline probe of test_neynar.py takes the same decision: it prints
    [Found] exactly when the existence check answers true. *)
Lemma probe_agrees w fid tr :
  exists tr1 found tr2,
    BulkPopulate.check_neynar_user_exists w fid (neynar (tick_at w fid)) tr = (tr1, Ok found) /\
    TestNeynar.probe w fid tt tr = (tr2, Ok tt) /\
    (found = true <-> exists username, head tr2 = Some (Printed "Found" [username])).
Proof.
  unfold BulkPopulate.check_neynar_user_exists, TestNeynar.probe,
    pbind, try_catch, try_catch_only, emit, lift, ret.
  destruct (neynar (tick_at w fid)) as [cp|e]; simpl.
  2:{ probe_not_found. }
  destruct (returncode cp =? 0); simpl.
  2:{ probe_not_found. }
  destruct (last3 (stdout cp) =? "200")%string eqn:Hst; simpl.
  2:{ repeat case_match; simplify_eq; probe_not_found. }
  destruct (json_loads w (drop_last3 (stdout cp))) as [data|e]; simpl.
  2:{ destruct (exn_kind_eqb (exn_class e) JSONDecodeError); probe_not_found. }
  destruct (get_default data "users" (JArr [])) as [users|e]; simpl.
  2:{ destruct (exn_kind_eqb (exn_class e) JSONDecodeError); probe_not_found. }
  destruct (len users) as [n|e]; simpl.
  2:{ destruct (exn_kind_eqb (exn_class e) JSONDecodeError); probe_not_found. }
  destruct (0 <? n); simpl.
  2:{ probe_not_found. }
  destruct (getitem0 users) as [first|e]; simpl.
  2:{ destruct (exn_kind_eqb (exn_class e) JSONDecodeError); probe_not_found. }
  destruct (get first "fid") as [v|e] eqn:Hfid; simpl.
  2:{ destruct (exn_kind_eqb (exn_class e) JSONDecodeError); probe_not_found. }
  destruct (eq_int v fid); simpl.
  2:{ probe_not_found. }
  destruct first as [| | | | | |ffields]; try discriminate. simpl.
  eexists _, _, _. repeat split; try reflexivity. intros _. eexists. reflexivity.
Qed.

(** ** Classification of the error text *)

Lemma lower_append a b : lower (String.append a b) = String.append (lower a) (lower b).
Proof. induction a as [|c a IH]; simpl; [reflexivity | now rewrite IH]. Qed.

Lemma startswith_append p rest : startswith p (String.append p rest) = true.
Proof.
  induction p as [|c p IH]; simpl; [reflexivity|].
  now rewrite Ascii.eqb_refl, IH.
Qed.

Lemma contains_unfold needle hay :
  contains needle hay =
  (startswith needle hay ||
   match hay with
   | EmptyString => false
   | String _ rest => contains needle rest
   end).
Proof. destruct hay; reflexivity. Qed.

Lemma contains_append needle pre post :
  contains needle (String.append pre (String.append needle post)) = true.
Proof.
  induction pre as [|c pre IH].
  - change (contains needle (String.append needle post) = true).
    rewrite contains_unfold, startswith_append. reflexivity.
  - change (contains needle (String c (String.append pre (String.append needle post))) = true).
    rewrite contains_unfold, IH. apply orb_true_r.
Qed.

(** A text that mentions [needle] in any letter case passes the test
    [needle in text.lower()]. *)
Lemma mentions_contains needle s :
  Contract.mentions needle s -> contains needle (lower s) = true.
Proof.
  intros (pre & mid & post & -> & Hmid).
  rewrite !lower_append, Hmid. apply contains_append.
Qed.

Lemma not_found_test error :
  Contract.mentions "not found" error \/ Contract.mentions "invalid" error ->
  contains "not found" (lower error) || contains "invalid" (lower error) = true.
Proof.
  intros [H | H]; apply mentions_contains in H; rewrite H;
    [reflexivity | apply orb_true_r].
Qed.

Lemma simple_fetch_decoded w fid cp j tr :
  returncode cp = 0 -> json_loads w (stdout cp) = Ok j ->
  SimpleBulkPopulate.get_creator_score w fid (Ok cp) tr = (Curl (GetScore fid false) :: tr, Ok j).
Proof.
  intros Hrc Hj.
  unfold SimpleBulkPopulate.get_creator_score, pbind, try_catch, emit, lift, ret.
  rewrite Hrc, Hj. reflexivity.
Qed.

(** C8: a reply with [success] false whose error text mentions "not found"
    or "invalid", in any letter case, is classified as not found: the simple
    loop prints [Invalid FID] (not the error line of the other failures),
    [force_profile_update] prints [Not found/invalid] and the 1-to-100 loop
    counts it under [not_found].  In each loop the pass completes without
    raising, the successes are unchanged, and the loop goes on. *)
Theorem not_found_reply_classified w cp fields error tr :
  Contract.mentions "not found" error \/ Contract.mentions "invalid" error ->
  returncode cp = 0 ->
  json_loads w (stdout cp) = Ok (JObj fields) ->
  dict_lookup "success" fields = Some (JBool false) ->
  dict_lookup "error" fields = Some (JStr error) ->
  (forall T st fid,
      SimpleBulkPopulate.generate_weighted_fid
        (rand (tick_at w (attempts st + 1))) (raw (tick_at w (attempts st + 1))) = Ok fid ->
      fid ∉ processed_fids st ->
      score (tick_at w (attempts st + 1)) = Ok cp ->
      T <> 0 ->
      exists progress,
        SimpleBulkPopulate.loop_body T w st tr =
          ((progress ++
             [Slept SimpleBulkPopulate.REQUEST_DELAY; Printed "Invalid FID" [];
              Curl (GetScore fid false);
              Printed "Testing FID" [JInt (attempts st + 1); JInt fid]] ++ tr)%list,
           Ok {| successful_adds := successful_adds st;
                 attempts := attempts st + 1;
                 processed_fids := {[fid]} ∪ processed_fids st |}) /\
        (progress = [] \/ exists values, progress = [Printed "Progress" values])) /\
  (forall fid,
      UpdateAllProfiles.force_profile_update w fid (Ok cp) tr =
        (Printed "Not found/invalid" [JInt fid] :: Curl (GetScore fid true) :: tr, Ok false)) /\
  (forall i fid successes failures,
      score (tick_at w fid) = Ok cp ->
      exists tr',
        UpdateAllProfiles.loop_body w i fid (successes, failures) tr =
          (tr', Ok (successes, failures + 1))) /\
  (forall fid st,
      score (tick_at w fid) = Ok cp ->
      exists tr',
        BulkUpdate1To100.loop_body w fid st tr =
          (tr', Ok {| BulkUpdate1To100.successful_updates := BulkUpdate1To100.successful_updates st;
                      BulkUpdate1To100.failed_updates := BulkUpdate1To100.failed_updates st;
                      BulkUpdate1To100.not_found := BulkUpdate1To100.not_found st + 1;
                      BulkUpdate1To100.with_profiles := BulkUpdate1To100.with_profiles st;
                      BulkUpdate1To100.results := BulkUpdate1To100.results st |})).
Proof.
  intros Hmentions Hrc Hj Hsucc Herr.
  apply not_found_test in Hmentions.
  assert (Hforce : forall fid tr0,
      UpdateAllProfiles.force_profile_update w fid (Ok cp) tr0 =
        (Printed "Not found/invalid" [JInt fid] :: Curl (GetScore fid true) :: tr0, Ok false)).
  { intros fid tr0.
    unfold UpdateAllProfiles.force_profile_update, pbind, try_catch, emit, lift, ret,
      get, get_default, lower_of.
    rewrite Hrc, Hj. simpl. rewrite Hsucc. simpl. rewrite Herr. simpl.
    rewrite Hmentions. reflexivity. }
  split; [|split; [|split]].
  - intros T st fid Hfid Hnew Hcp HT.
    unfold SimpleBulkPopulate.loop_body.
    unfold pbind at 1. unfold lift at 1. rewrite Hfid.
    destruct (decide (fid ∈ processed_fids st)) as [|_]; [contradiction|].
    unfold pbind at 1. unfold emit at 1.
    unfold pbind at 1. rewrite Hcp, (simple_fetch_decoded _ _ _ _ _ Hrc Hj).
    unfold pbind, lift, emit, ret, get, get_default, lower_of.
    rewrite Hsucc. simpl. rewrite Herr. simpl. rewrite Hmentions.
    destruct ((attempts st + 1) mod 20 =? 0).
    + rewrite truediv_ok by exact HT.
      eexists [_]. split; [reflexivity|]. right. eexists. reflexivity.
    + exists []. split; [reflexivity|]. now left.
  - intros fid. apply Hforce.
  - intros i fid successes failures Hcp.
    unfold UpdateAllProfiles.loop_body.
    unfold pbind at 1. unfold emit at 1.
    unfold pbind at 1. rewrite Hcp, Hforce.
    unfold pbind, emit, ret. destruct (i mod 10 =? 0); eexists; reflexivity.
  - intros fid st Hcp.
    unfold BulkUpdate1To100.loop_body.
    unfold pbind at 1. unfold emit at 1.
    unfold pbind at 1. rewrite Hcp.
    unfold BulkUpdate1To100.update_fid_with_profile, pbind, try_catch, emit, lift, ret,
      get, get_default, lower_of.
    rewrite Hrc, Hj. simpl. rewrite Hsucc. simpl. rewrite Herr. simpl.
    rewrite Hmentions. destruct (fid mod 10 =? 0); eexists; reflexivity.
Qed.

Lemma not_found_reply_classified_witness :
  UpdateAllProfiles.force_profile_update (Sample.repeating Sample.not_found_doc) 7
    (Sample.completed "{}") [] =
    ([Printed "Not found/invalid" [JInt 7]; Curl (GetScore 7 true)], Ok false).
Proof.
  refine (proj1 (proj2 (not_found_reply_classified (Sample.repeating Sample.not_found_doc)
                          {| returncode := 0; stdout := "{}" |}
                          [("success", JBool false); ("error", JStr "FID not found")]
                          "FID not found" [] _ _ _ _ _)) 7).
  - left. exists "FID ", "not found", "". split; reflexivity.
  - reflexivity.
  - reflexivity.
  - reflexivity.
  - reflexivity.
Defined.

(** ** The coverage audit *)

(** On an entry of the leaderboard the truthiness test of the scripts is the
    enrichment predicate of the data model. *)
Lemma has_profile_enrichment entry :
  Contract.aggregate_entry entry = true ->
  Leaderboard.has_profile entry = Ok (Contract.has_enrichment entry).
Proof.
  destruct entry as [| | | | | |fields]; simpl; try discriminate.
  intros H. do 4 (apply andb_true_iff in H as [H _]).
  apply andb_true_iff in H as [Hu Hd].
  unfold Leaderboard.has_profile, Py.bind, get, get_default.
  destruct (dict_lookup "username" fields) as [[| | | |u| |]|]; try discriminate;
    destruct (dict_lookup "displayName" fields) as [[| | | |d| |]|]; try discriminate;
    simpl; try reflexivity;
    destruct (negb (u =? "")%string); reflexivity.
Qed.

Lemma count_profiles_enriched entries :
  Forall (fun e => Contract.aggregate_entry e = true) entries ->
  Leaderboard.count_profiles entries =
    Ok (Z.of_nat (List.length (List.filter Contract.has_enrichment entries))).
Proof.
  induction 1 as [|entry rest Hentry _ IH]; [reflexivity|].
  cbn [Leaderboard.count_profiles List.filter].
  rewrite (has_profile_enrichment _ Hentry), IH. unfold Py.bind.
  destruct (Contract.has_enrichment entry); [|reflexivity].
  cbn [List.length]. f_equal. lia.
Qed.

Lemma aggregate_entry_fields entry :
  Contract.aggregate_entry entry = true ->
  exists fields rank fid overall tier,
    entry = JObj fields /\
    dict_lookup "rank" fields = Some rank /\ dict_lookup "fid" fields = Some fid /\
    dict_lookup "overallScore" fields = Some overall /\ dict_lookup "tier" fields = Some tier.
Proof.
  destruct entry as [| | | | | |fields]; simpl; try discriminate.
  intros H. repeat (apply andb_true_iff in H as [H ?]).
  repeat match goal with
         | Hb : bool_decide _ = true |- _ => apply bool_decide_eq_true in Hb as [? ?]
         end.
  eauto 10.
Qed.

Section Listing.
Variable print : json -> unit -> prog unit.
Hypothesis print_returns :
  forall entry tr,
    Contract.aggregate_entry entry = true ->
    exists line, print entry tt tr = (line :: tr, Ok tt).

Lemma listing_returns entries tr :
  Forall (fun e => Contract.aggregate_entry e = true) entries ->
  exists listing,
    for_each entries print tt tr = ((listing ++ tr)%list, Ok tt).
Proof.
  intros H. revert tr. induction H as [|entry rest Hentry _ IH]; intros tr.
  - exists []. reflexivity.
  - destruct (print_returns entry tr Hentry) as [line Hline].
    destruct (IH (line :: tr)) as [listing Hrest].
    exists (listing ++ [line])%list. simpl.
    rewrite (pbind_ok _ _ _ _ _ Hline), Hrest.
    now rewrite <- app_assoc.
Qed.
End Listing.

Lemma force_print_entry_returns entry tr :
  Contract.aggregate_entry entry = true ->
  exists line, ForceCacheRefresh.print_entry entry tt tr = (line :: tr, Ok tt).
Proof.
  intros H.
  unfold ForceCacheRefresh.print_entry, pbind, lift, emit.
  rewrite (has_profile_enrichment _ H).
  apply aggregate_entry_fields in H as (fields & rank & fid & overall & tier & -> & Hr & Hf & Ho & Ht).
  unfold Leaderboard.get_or_na, Leaderboard.pfp_status, Py.bind, get, get_default, getitem.
  rewrite Hr, Hf, Ho, Ht. simpl. eauto.
Qed.

Lemma update_print_entry_returns entry tr :
  Contract.aggregate_entry entry = true ->
  exists line, UpdateAllProfiles.print_entry entry tt tr = (line :: tr, Ok tt).
Proof.
  intros H.
  unfold UpdateAllProfiles.print_entry, pbind, lift, emit.
  apply aggregate_entry_fields in H as (fields & rank & fid & overall & tier & -> & Hr & Hf & Ho & Ht).
  unfold Leaderboard.get_or_na, Leaderboard.pfp_status, Py.bind, get, get_default, getitem.
  rewrite Hr, Hf, Ho, Ht. simpl. eauto.
Qed.

Lemma Forall_firstn {A} (P : A -> Prop) n (l : list A) :
  Forall P l -> Forall P (firstn n l).
Proof.
  intros H. revert n. induction H; intros [|n]; simpl; constructor; auto.
Qed.



(** ** bulk_update_1_to_100.py: the coverage line *)

(** [update_fid_with_profile] never raises, records one request, and its
    answer does not depend on the trace. *)
Lemma update_outcome w fid tr :
  BulkUpdate1To100.update_fid_with_profile w fid (score (tick_at w fid)) tr =
    (Curl (GetScore fid true) :: tr, Contract.outcome w fid).
Proof.
  unfold Contract.outcome, BulkUpdate1To100.update_fid_with_profile,
    pbind, try_catch, emit, lift, ret.
  repeat case_match; simplify_eq; first [reflexivity | congruence].
Qed.

Lemma for_each_trace {A St : Type} (P : list event -> Prop) (body : A -> St -> prog St) :
  (forall x st tr tr' r, body x st tr = (tr', r) -> P tr -> P tr') ->
  forall xs st tr tr' r, for_each xs body st tr = (tr', r) -> P tr -> P tr'.
Proof.
  intros Hbody. induction xs as [|x xs IH]; intros st tr tr' r; simpl.
  - unfold ret. intros [= <- <-]. auto.
  - unfold pbind. destruct (body x st tr) as [tr1 [st1|e]] eqn:Hb.
    + intros Hrest Htr. eapply IH; [exact Hrest|]. eapply Hbody; eauto.
    + intros [= <- <-] Htr. eapply Hbody; eauto.
Qed.

Ltac before_summary_events :=
  repeat (apply Forall_cons; split;
          [split; [discriminate | intros ?; discriminate]|]);
  assumption.

(** A pass of the loop emits neither the rebuild request nor the coverage
    line. *)
Lemma update_pass_before_summary w fid st tr tr' r :
  BulkUpdate1To100.loop_body w fid st tr = (tr', r) ->
  Forall Contract.before_summary tr -> Forall Contract.before_summary tr'.
Proof.
  unfold BulkUpdate1To100.loop_body.
  unfold pbind at 1. unfold emit at 1. unfold pbind at 1. rewrite update_outcome.
  unfold pbind, lift, emit, ret. intros H Htr.
  repeat case_match; simplify_eq; before_summary_events.
Qed.

(** A pass whose fetch failed completes and leaves the successes, the
    profile count and the results as they were. *)
Lemma update_pass_failed w fid st tr :
  Contract.update_failed (Contract.outcome w fid) = true ->
  exists tr' st',
    BulkUpdate1To100.loop_body w fid st tr = (tr', Ok st') /\
    BulkUpdate1To100.successful_updates st' = BulkUpdate1To100.successful_updates st /\
    BulkUpdate1To100.with_profiles st' = BulkUpdate1To100.with_profiles st.
Proof.
  intros Hfail. unfold BulkUpdate1To100.loop_body.
  unfold pbind at 1. unfold emit at 1. unfold pbind at 1. rewrite update_outcome.
  destruct (Contract.outcome w fid) as [[| [| | | |error| |] |error]|e]; try discriminate;
    unfold pbind, lift, emit, ret; simpl;
    repeat case_match; simplify_eq; eauto.
Qed.

(** A completed pass adds to the successes only when the fetch succeeded. *)
Lemma update_pass_counts w fid st tr tr' st' :
  BulkUpdate1To100.loop_body w fid st tr = (tr', Ok st') ->
  BulkUpdate1To100.successful_updates st' = BulkUpdate1To100.successful_updates st \/
  Contract.update_succeeded (Contract.outcome w fid) = true.
Proof.
  unfold BulkUpdate1To100.loop_body.
  unfold pbind at 1. unfold emit at 1. unfold pbind at 1. rewrite update_outcome.
  unfold pbind, lift, emit, ret. intros H.
  repeat case_match; simplify_eq; simpl; auto.
Qed.

Lemma updates_all_failed w xs :
  (forall fid, In fid xs -> Contract.update_failed (Contract.outcome w fid) = true) ->
  forall st tr,
  exists tr' st',
    for_each xs (BulkUpdate1To100.loop_body w) st tr = (tr', Ok st') /\
    BulkUpdate1To100.successful_updates st' = BulkUpdate1To100.successful_updates st /\
    BulkUpdate1To100.with_profiles st' = BulkUpdate1To100.with_profiles st.
Proof.
  induction xs as [|fid xs IH]; intros Hall st tr; simpl.
  - exists tr, st. auto.
  - destruct (update_pass_failed w fid st tr (Hall fid (or_introl eq_refl)))
      as (tr1 & st1 & Hpass & Hs1 & Hp1).
    destruct (IH (fun f Hf => Hall f (or_intror Hf)) st1 tr1) as (tr2 & st2 & Hrest & Hs2 & Hp2).
    exists tr2, st2. rewrite (pbind_ok _ _ _ _ _ Hpass). repeat split; congruence.
Qed.

Lemma updates_count w xs :
  forall st tr tr' st',
    for_each xs (BulkUpdate1To100.loop_body w) st tr = (tr', Ok st') ->
    BulkUpdate1To100.successful_updates st' = BulkUpdate1To100.successful_updates st \/
    exists fid, In fid xs /\ Contract.update_succeeded (Contract.outcome w fid) = true.
Proof.
  induction xs as [|fid xs IH]; intros st tr tr' st'; simpl.
  - unfold ret. intros [= <- <-]. now left.
  - intros H. apply pbind_ok_inv in H as (tr1 & st1 & Hpass & Hrest).
    destruct (IH _ _ _ _ Hrest) as [Hsame | (f & Hf & Hsucc)].
    + destruct (update_pass_counts _ _ _ _ _ _ Hpass) as [Hsame1 | Hsucc].
      * left. congruence.
      * right. exists fid. auto.
    + right. exists f. auto.
Qed.

Lemma fids_range fid : In fid BulkUpdate1To100.fids <-> 1 <= fid <= 100.
Proof.
  unfold BulkUpdate1To100.fids. rewrite in_map_iff. split.
  - intros (n & <- & Hn). apply in_seq in Hn. lia.
  - intros H. exists (Z.to_nat fid). split; [lia|]. apply in_seq. lia.
Qed.

(** The final results, when no update succeeded: the counters are printed,
    then the division raises. *)
Lemma final_results_raises st tr :
  BulkUpdate1To100.successful_updates st = 0 ->
  BulkUpdate1To100.final_results st tr =
    (Printed "Not found:" [JInt (BulkUpdate1To100.not_found st)] ::
     Printed "Failed updates:" [JInt (BulkUpdate1To100.failed_updates st)] ::
     Printed "With profile data:" [JInt (BulkUpdate1To100.with_profiles st)] ::
     Printed "Successful updates:" [JInt 0] ::
     Printed "FINAL RESULTS" [] :: tr,
     Raise (Exn ZeroDivisionError "division by zero")).
Proof.
  intros H. unfold BulkUpdate1To100.final_results, pbind, emit, lift, truediv.
  rewrite H. reflexivity.
Qed.



(** When the updates succeed the coverage line is printed and the rebuild
    request is sent. *)
Lemma coverage_printed_example :
  let tr := fst (BulkUpdate1To100.main (Sample.answering Sample.null_score_doc) []) in
  existsb (fun ev => match ev with
                     | Printed text _ => String.eqb text "Profile coverage:"
                     | _ => false
                     end) tr = true /\
  existsb (fun ev => match ev with Curl PostRefresh => true | _ => false end) tr = true.
Proof. vm_compute. split; reflexivity. Qed.

(** ** The shipped entry points *)

(** bulk_populate.py counts a null score too: any non-empty [data] object of
    a confirmed key is a success. *)
Lemma bulk_counts_null_score :
  BulkPopulate.loop_body 100 (Sample.confirming Sample.null_score_doc) initial [] =
    ([Slept 2; Printed "Score" [JNull; JStr "D"; JInt 1; JInt 100];
      Curl (GetScore 42 false); Printed "Active" []; Curl (GetNeynarUser 42);
      Printed "Testing FID" [JInt 1; JInt 42]],
     Ok {| successful_adds := 1; attempts := 1; processed_fids := {[42]} |}).
Proof. vm_compute. reflexivity. Qed.

(** With the shipped quota of 100, a loop that has stopped has counted at
    least one attempt, so the success rate of the summary is defined. *)
Lemma stopped_after_an_attempt budget st :
  100 <= budget ->
  Loop.within_budget budget st -> Loop.counting 100 budget st = false ->
  attempts st <> 0.
Proof.
  intros Hb [[Hs Ha] Hmax]. unfold Loop.counting. intros Hc.
  apply andb_false_iff in Hc as [Hc | Hc]; apply Z.ltb_ge in Hc; lia.
Qed.

(** For a scoring service that follows its contract, [main] of each populate
    script stops and prints its summary. *)
Lemma mains_return w :
  Contract.scoring_service_conforms w ->
  (exists tr st, BulkPopulate.main w [] = (tr, Ok (Some st))) /\
  (exists tr st, SimpleBulkPopulate.main w [] = (tr, Ok (Some st))) /\
  (exists tr st, TargetedBulkPopulate.main w [] = (tr, Ok (Some st))).
Proof.
  intros Hw. split; [|split].
  - destruct (counting_reaches_stopped 100 (BulkPopulate.max_attempts 100) _
                (bulk_pass 100 w)) as (tr & st & Hrun & Hstop & _).
    { intros st tr _ _. now apply bulk_pass_returns. }
    pose proof (counting_stops_within_budget _ _ _ (bulk_pass 100 w) _ _ _ _ Hrun) as [Hin _].
    assert (Hne : attempts st <> 0).
    { apply (stopped_after_an_attempt (BulkPopulate.max_attempts 100) st); [|exact Hin|exact Hstop].
      unfold BulkPopulate.max_attempts. lia. }
    unfold BulkPopulate.main, BulkPopulate.run.
    change (BulkPopulate.loop_condition BulkPopulate.TARGET_USERS)
      with (Loop.counting 100 (BulkPopulate.max_attempts 100)).
    change (BulkPopulate.max_attempts BulkPopulate.TARGET_USERS)
      with (BulkPopulate.max_attempts 100).
    rewrite (pbind_ok _ _ _ _ _ Hrun).
    unfold BulkPopulate.summary, pbind, emit, lift, ret.
    rewrite truediv_ok by exact Hne.
    destruct (successful_adds st <? BulkPopulate.TARGET_USERS); eauto.
  - destruct (counting_reaches_stopped 100 (SimpleBulkPopulate.max_attempts 100) _
                (simple_pass 100 w)) as (tr & st & Hrun & Hstop & _).
    { intros st tr [[Hs _] _] Hc. now apply simple_pass_returns. }
    pose proof (counting_stops_within_budget _ _ _ (simple_pass 100 w) _ _ _ _ Hrun) as [Hin _].
    assert (Hne : attempts st <> 0).
    { apply (stopped_after_an_attempt (SimpleBulkPopulate.max_attempts 100) st); [|exact Hin|exact Hstop].
      unfold SimpleBulkPopulate.max_attempts. lia. }
    unfold SimpleBulkPopulate.main, SimpleBulkPopulate.run.
    change (SimpleBulkPopulate.loop_condition SimpleBulkPopulate.TARGET_USERS)
      with (Loop.counting 100 (SimpleBulkPopulate.max_attempts 100)).
    change (SimpleBulkPopulate.max_attempts SimpleBulkPopulate.TARGET_USERS)
      with (SimpleBulkPopulate.max_attempts 100).
    rewrite (pbind_ok _ _ _ _ _ Hrun).
    unfold SimpleBulkPopulate.summary, pbind, emit, lift, ret.
    rewrite truediv_ok by exact Hne.
    destruct (successful_adds st <? SimpleBulkPopulate.TARGET_USERS); eauto.
  - destruct (counting_reaches_stopped 100 (TargetedBulkPopulate.max_attempts 100) _
                (targeted_pass 100 w)) as (tr & st & Hrun & Hstop & _).
    { intros st tr [[Hs Ha] _] _. apply targeted_pass_returns; [exact Hw | lia]. }
    pose proof (counting_stops_within_budget _ _ _ (targeted_pass 100 w) _ _ _ _ Hrun) as [Hin _].
    assert (Hne : attempts st <> 0).
    { apply (stopped_after_an_attempt (TargetedBulkPopulate.max_attempts 100) st); [|exact Hin|exact Hstop].
      unfold TargetedBulkPopulate.max_attempts. lia. }
    unfold TargetedBulkPopulate.main, TargetedBulkPopulate.run.
    change (TargetedBulkPopulate.loop_condition TargetedBulkPopulate.TARGET_USERS)
      with (Loop.counting 100 (TargetedBulkPopulate.max_attempts 100)).
    change (TargetedBulkPopulate.max_attempts TargetedBulkPopulate.TARGET_USERS)
      with (TargetedBulkPopulate.max_attempts 100).
    rewrite (pbind_ok _ _ _ _ _ Hrun).
    unfold TargetedBulkPopulate.summary, pbind, emit, lift, ret.
    rewrite truediv_ok by exact Hne. eauto.
Qed.

(** * Further properties of the scripts *)

(** ** Keys are probed once *)

Section WhileTrace.
Context {St : Type}.
Variable cond : St -> bool.
Variable body : St -> prog St.
Variable Inv : St -> list event -> Prop.
Variable P : list event -> Prop.
Hypothesis Inv_P : forall st tr, Inv st tr -> P tr.
Hypothesis body_keeps :
  forall st tr tr' r,
    Inv st tr -> cond st = true -> body st tr = (tr', r) ->
    match r with
    | Ok st' => Inv st' tr'
    | Raise _ => P tr'
    end.

(** A property of the trace that the invariant of the passes implies holds
    however the loop ends: stopped, out of fuel, or by an exception. *)
Lemma while_trace fuel st tr tr' r :
  Inv st tr -> while cond body fuel st tr = (tr', r) -> P tr'.
Proof.
  revert st tr. induction fuel as [|fuel IH]; intros st tr Hinv; simpl.
  - destruct (cond st); unfold ret; intros [= <- <-]; eauto.
  - destruct (cond st) eqn:Hc; [|unfold ret; intros [= <- <-]; eauto].
    unfold pbind. destruct (body st tr) as [tr1 [st1|e]] eqn:Hb.
    + intros Hw. eapply IH; [|exact Hw]. apply (body_keeps _ _ _ _ Hinv Hc Hb).
    + intros [= <- <-]. apply (body_keeps _ _ _ _ Hinv Hc Hb).
Qed.

(** The invariant itself holds of the state and trace at which the loop
    stops. *)
Lemma while_state_trace fuel st tr tr' st' :
  Inv st tr -> while cond body fuel st tr = (tr', Ok (Some st')) -> Inv st' tr'.
Proof.
  revert st tr. induction fuel as [|fuel IH]; intros st tr Hinv; simpl.
  - destruct (cond st); unfold ret; intros [= <- <-]; eauto.
  - destruct (cond st) eqn:Hc; [|unfold ret; intros [= <- <-]; eauto].
    unfold pbind. destruct (body st tr) as [tr1 [st1|e]] eqn:Hb; [|discriminate].
    intros Hw. eapply IH; [|exact Hw]. apply (body_keeps _ _ _ _ Hinv Hc Hb).
Qed.
End WhileTrace.

Lemma simple_fetch_returns w fid r tr :
  exists j,
    SimpleBulkPopulate.get_creator_score w fid r tr = (Curl (GetScore fid false) :: tr, Ok j).
Proof.
  unfold SimpleBulkPopulate.get_creator_score, pbind, try_catch, emit, lift, ret.
  repeat case_match; simplify_eq; eauto.
Qed.

Lemma targeted_fetch_returns w fid r tr :
  exists j,
    TargetedBulkPopulate.get_creator_score w fid r tr = (Curl (GetScore fid false) :: tr, Ok j).
Proof.
  unfold TargetedBulkPopulate.get_creator_score, pbind, try_catch, emit, lift, ret.
  repeat case_match; simplify_eq; eauto.
Qed.

#[local] Set Warnings "-clear-no-such-hyp".

(** What a pass of simple_bulk_populate.py does to the requests and to the
    seen-set. *)
Lemma simple_pass_probes T w st tr tr' r :
  SimpleBulkPopulate.loop_body T w st tr = (tr', r) -> Pass.probes st tr tr' r.
Proof.
  unfold SimpleBulkPopulate.loop_body, Pass.probes.
  unfold pbind at 1. unfold lift at 1.
  destruct (SimpleBulkPopulate.generate_weighted_fid _ _) as [fid|e].
  2:{ intros [= <- <-]. left. split; [reflexivity | discriminate]. }
  destruct (decide (fid ∈ processed_fids st)) as [|Hnew].
  { unfold ret. intros [= <- <-]. left. split; [reflexivity|]. now intros st' [= <-]. }
  unfold pbind at 1. unfold emit at 1. unfold pbind at 1.
  destruct (simple_fetch_returns w fid (score (tick_at w (attempts st + 1)))
              (Printed "Testing FID" [JInt (attempts st + 1); JInt fid] :: tr)) as [j ->].
  intros H. right. exists fid. split; [exact Hnew|].
  revert H. unfold pbind, lift, emit, ret. intros H.
  repeat case_match; simplify_eq; simpl; (split; [right; reflexivity|]);
    intros st' Hst'; simplify_eq; reflexivity.
Qed.

Lemma targeted_pass_probes T w st tr tr' r :
  TargetedBulkPopulate.loop_body T w st tr = (tr', r) -> Pass.probes st tr tr' r.
Proof.
  unfold TargetedBulkPopulate.loop_body, Pass.probes.
  unfold pbind at 1. unfold lift at 1.
  destruct (TargetedBulkPopulate.generate_likely_fid _ _) as [fid|e].
  2:{ intros [= <- <-]. left. split; [reflexivity | discriminate]. }
  destruct (decide (fid ∈ processed_fids st)) as [|Hnew].
  { unfold ret. intros [= <- <-]. left. split; [reflexivity|]. now intros st' [= <-]. }
  unfold pbind at 1. unfold emit at 1. unfold pbind at 1.
  destruct (targeted_fetch_returns w fid (score (tick_at w (attempts st + 1)))
              (Printed "FID" [JInt (attempts st + 1); JInt fid] :: tr)) as [j ->].
  intros H. right. exists fid. split; [exact Hnew|].
  revert H. unfold pbind, lift, emit, ret. intros H.
  repeat case_match; simplify_eq; simpl; (split; [right; reflexivity|]);
    intros st' Hst'; simplify_eq; reflexivity.
Qed.

Lemma check_neynar_requests w fid r tr :
  exists tr' found,
    BulkPopulate.check_neynar_user_exists w fid r tr = (tr', Ok found) /\
    Trace.identity_requests tr' = fid :: Trace.identity_requests tr /\
    Trace.score_requests tr' = Trace.score_requests tr /\
    Trace.slept tr' = Trace.slept tr.
Proof.
  unfold BulkPopulate.check_neynar_user_exists, pbind, try_catch, try_catch_only, emit, lift, ret.
  repeat case_match; simplify_eq; eauto 7.
Qed.

Lemma bulk_fetch_requests w fid r tr :
  exists tr' j,
    BulkPopulate.get_creator_score w fid r tr = (tr', Ok j) /\
    Trace.identity_requests tr' = Trace.identity_requests tr /\
    Trace.score_requests tr' = fid :: Trace.score_requests tr /\
    Trace.slept tr' = Trace.slept tr.
Proof.
  unfold BulkPopulate.get_creator_score, pbind, try_catch, emit, lift, ret.
  repeat case_match; simplify_eq; eauto 7.
Qed.

(** A pass of bulk_populate.py that handles a key sends it to the identity
    service, and requests its score or leaves the successes as they were. *)
Lemma bulk_pass_requests T w st tr tr' r :
  BulkPopulate.loop_body T w st tr = (tr', r) ->
  (tr' = tr /\ forall st', r = Ok st' -> st' = Loop.skipped st) \/
  (exists fid, (fid ∉ processed_fids st) /\
     Trace.identity_requests tr' = fid :: Trace.identity_requests tr /\
     ((Trace.score_requests tr' = Trace.score_requests tr /\
       forall st', r = Ok st' -> successful_adds st' = successful_adds st) \/
      Trace.score_requests tr' = fid :: Trace.score_requests tr) /\
     forall st', r = Ok st' -> processed_fids st' = {[fid]} ∪ processed_fids st).
Proof.
  unfold BulkPopulate.loop_body.
  unfold pbind at 1. unfold lift at 1.
  destruct (BulkPopulate.generate_weighted_fid _ _) as [fid|e].
  2:{ intros [= <- <-]. left. split; [reflexivity | discriminate]. }
  destruct (decide (fid ∈ processed_fids st)) as [|Hnew].
  { unfold ret. intros [= <- <-]. left. split; [reflexivity|]. now intros st' [= <-]. }
  unfold pbind at 1. unfold emit at 1. unfold pbind at 1.
  destruct (check_neynar_requests w fid (neynar (tick_at w (attempts st + 1)))
              (Printed "Testing FID" [JInt (attempts st + 1); JInt fid] :: tr))
    as (tr1 & found & -> & Hid1 & Hsc1 & _).
  simpl in Hid1, Hsc1.
  intros H. right. exists fid. split; [exact Hnew|].
  destruct found; simpl in H.
  - revert H. unfold pbind at 1. unfold emit at 1. unfold pbind at 1.
    destruct (bulk_fetch_requests w fid (score (tick_at w (attempts st + 1)))
                (Printed "Active" [] :: tr1)) as (tr2 & j & -> & Hid2 & Hsc2 & _).
    simpl in Hid2, Hsc2.
    unfold pbind, lift, emit, ret. intros H.
    repeat case_match; simplify_eq; simpl;
      (split; [congruence | split; [right; congruence|]]);
      intros st' Hst'; simplify_eq; reflexivity.
  - revert H. unfold pbind, emit, ret. intros [= <- <-]. simpl.
    split; [exact Hid1 | split; [left; split; [exact Hsc1|]|]];
      intros st' [= <-]; reflexivity.
Qed.

Lemma bulk_pass_probes T w st tr tr' r :
  BulkPopulate.loop_body T w st tr = (tr', r) -> Pass.probes st tr tr' r.
Proof.
  intros H. destruct (bulk_pass_requests _ _ _ _ _ _ H)
    as [Hskip | (fid & Hnew & _ & Hscore & Hseen)].
  - now left.
  - right. exists fid. auto.
Qed.

Lemma size_seen (fid : Z) (seen : gset Z) :
  fid ∉ seen -> size ({[fid]} ∪ seen) = S (size seen).
Proof.
  intros Hnew. rewrite size_union by set_solver. now rewrite size_singleton.
Qed.

(** Loops whose passes are [Pass.probes] steps. *)
Section Probing.
Variable cond : RunState -> bool.
Variable body : RunState -> prog RunState.
Hypothesis body_probes : forall st tr tr' r, body st tr = (tr', r) -> Pass.probes st tr tr' r.

Lemma loop_requests_once fuel tr r :
  while cond body fuel initial [] = (tr, r) -> NoDup (Trace.score_requests tr).
Proof.
  apply (while_trace cond body
           (fun st tr => NoDup (Trace.score_requests tr) /\
                         forall fid, fid ∈ Trace.score_requests tr -> fid ∈ processed_fids st)
           (fun tr => NoDup (Trace.score_requests tr))).
  - now intros st0 tr0 [H _].
  - intros st0 tr0 tr1 r1 [Hnd Hin] _ Hb.
    destruct (body_probes _ _ _ _ Hb) as [[-> Hst] | (fid & Hnew & Hscore & Hst)].
    + destruct r1 as [st1|e]; [|exact Hnd].
      rewrite (Hst st1 eq_refl). now split.
    + assert (Hnd1 : NoDup (Trace.score_requests tr1)).
      { destruct Hscore as [[-> _] | ->]; [exact Hnd|].
        apply NoDup_cons. split; [|exact Hnd]. intros Hf. auto. }
      destruct r1 as [st1|e]; [|exact Hnd1].
      split; [exact Hnd1|]. intros f. rewrite (Hst st1 eq_refl).
      destruct Hscore as [[-> _] | ->].
      * intros Hf. specialize (Hin f Hf). set_solver.
      * rewrite elem_of_cons. intros [-> | Hf]; [set_solver|].
        specialize (Hin f Hf). set_solver.
  - split; [constructor | intros fid Hf; inversion Hf].
Qed.

Hypothesis body_pass : forall st tr tr' st', body st tr = (tr', Ok st') -> Loop.pass_of st st'.

Lemma loop_tallied fuel tr st :
  while cond body fuel initial [] = (tr, Ok (Some st)) -> Pass.tallied st tr.
Proof.
  apply (while_state_trace cond body Pass.tallied (fun _ => True)).
  - intros st0 tr0 tr1 r1 (Hs & Hl & Ha) _ Hb.
    destruct r1 as [st1|e]; [|trivial].
    pose proof (body_pass _ _ _ _ Hb) as [Hatt Hsucc].
    destruct (body_probes _ _ _ _ Hb) as [[-> Hst] | (fid & Hnew & Hscore & Hst)].
    + rewrite (Hst st1 eq_refl). unfold Pass.tallied, Loop.skipped. simpl. lia.
    + unfold Pass.tallied. rewrite (Hst st1 eq_refl), (size_seen _ _ Hnew).
      destruct Hscore as [[-> Hsame] | ->].
      * rewrite (Hsame st1 eq_refl). lia.
      * simpl List.length. lia.
  - unfold Pass.tallied. change (processed_fids initial) with (∅ : gset Z).
    rewrite size_empty. simpl. lia.
Qed.
End Probing.

(** X1: in every run of a sampling loop, however it ends, no key is
    requested twice from the scoring service; in bulk_populate.py no key is
    sent twice to the identity service either, and a score is requested only
    for keys that were sent to the identity service. *)
Theorem keys_probed_once T w fuel tr r :
  (while (SimpleBulkPopulate.loop_condition T) (SimpleBulkPopulate.loop_body T w)
     fuel initial [] = (tr, r) ->
   NoDup (Trace.score_requests tr)) /\
  (while (TargetedBulkPopulate.loop_condition T) (TargetedBulkPopulate.loop_body T w)
     fuel initial [] = (tr, r) ->
   NoDup (Trace.score_requests tr)) /\
  (while (BulkPopulate.loop_condition T) (BulkPopulate.loop_body T w)
     fuel initial [] = (tr, r) ->
   NoDup (Trace.identity_requests tr) /\ NoDup (Trace.score_requests tr) /\
   Trace.score_requests tr ⊆ Trace.identity_requests tr).
Proof.
  split; [|split].
  - exact (loop_requests_once (SimpleBulkPopulate.loop_condition T) _ (simple_pass_probes T w) fuel tr r).
  - exact (loop_requests_once (TargetedBulkPopulate.loop_condition T) _ (targeted_pass_probes T w) fuel tr r).
  - intros Hrun. split; [|split].
    + revert Hrun.
      apply (while_trace _ _
               (fun st tr => NoDup (Trace.identity_requests tr) /\
                  forall fid, fid ∈ Trace.identity_requests tr -> fid ∈ processed_fids st)
               (fun tr => NoDup (Trace.identity_requests tr))).
      * now intros st0 tr0 [H _].
      * intros st0 tr0 tr1 r1 [Hnd Hin] _ Hb.
        destruct (bulk_pass_requests _ _ _ _ _ _ Hb)
          as [[-> Hst] | (fid & Hnew & Hreq & _ & Hst)].
        -- destruct r1 as [st1|e]; [|exact Hnd].
           rewrite (Hst st1 eq_refl). now split.
        -- assert (Hnd1 : NoDup (Trace.identity_requests tr1)).
           { rewrite Hreq. apply NoDup_cons. split; [|exact Hnd]. intros Hf. auto. }
           destruct r1 as [st1|e]; [|exact Hnd1].
           split; [exact Hnd1|]. intros f. rewrite Hreq, (Hst st1 eq_refl).
           rewrite elem_of_cons. intros [-> | Hf]; [set_solver|].
           specialize (Hin f Hf). set_solver.
      * split; [constructor | intros fid Hf; inversion Hf].
    + revert Hrun. exact (loop_requests_once (BulkPopulate.loop_condition T) _ (bulk_pass_probes T w) fuel tr r).
    + revert Hrun.
      apply (while_trace _ _
               (fun _ tr => Trace.score_requests tr ⊆ Trace.identity_requests tr)
               (fun tr => Trace.score_requests tr ⊆ Trace.identity_requests tr)).
      * auto.
      * intros st0 tr0 tr1 r1 Hsub _ Hb.
        assert (Hsub1 : Trace.score_requests tr1 ⊆ Trace.identity_requests tr1).
        { destruct (bulk_pass_requests _ _ _ _ _ _ Hb)
            as [[-> _] | (fid & _ & Hreq & Hscore & _)]; [exact Hsub|].
          rewrite Hreq. destruct Hscore as [[-> _] | ->]; set_solver. }
        now destruct r1.
      * set_solver.
Qed.

Lemma keys_probed_once_witness :
  exists tr r,
    while (SimpleBulkPopulate.loop_condition 2)
      (SimpleBulkPopulate.loop_body 2 (Sample.repeating Sample.not_found_doc))
      4 initial [] = (tr, r) /\
    NoDup (Trace.score_requests tr).
Proof.
  eexists _, _. split.
  - vm_compute. reflexivity.
  - refine (proj1 (keys_probed_once 2 (Sample.repeating Sample.not_found_doc) 4 _ _) _).
    vm_compute. reflexivity.
Defined.

(** X2: when a sampling loop stops, the successes are at most the number of
    score requests, which is at most the number of distinct keys seen, which
    is at most the number of attempts. *)
Theorem successes_are_distinct_keys T w fuel tr st :
  (while (SimpleBulkPopulate.loop_condition T) (SimpleBulkPopulate.loop_body T w)
     fuel initial [] = (tr, Ok (Some st)) -> Pass.tallied st tr) /\
  (while (TargetedBulkPopulate.loop_condition T) (TargetedBulkPopulate.loop_body T w)
     fuel initial [] = (tr, Ok (Some st)) -> Pass.tallied st tr) /\
  (while (BulkPopulate.loop_condition T) (BulkPopulate.loop_body T w)
     fuel initial [] = (tr, Ok (Some st)) -> Pass.tallied st tr).
Proof.
  split; [|split].
  - exact (loop_tallied (SimpleBulkPopulate.loop_condition T) _ (simple_pass_probes T w) (simple_pass T w) fuel tr st).
  - exact (loop_tallied (TargetedBulkPopulate.loop_condition T) _ (targeted_pass_probes T w) (targeted_pass T w) fuel tr st).
  - exact (loop_tallied (BulkPopulate.loop_condition T) _ (bulk_pass_probes T w) (bulk_pass T w) fuel tr st).
Qed.

Lemma successes_are_distinct_keys_witness :
  exists tr st,
    while (SimpleBulkPopulate.loop_condition 2)
      (SimpleBulkPopulate.loop_body 2 (Sample.repeating Sample.null_score_doc))
      4 initial [] = (tr, Ok (Some st)) /\
    Pass.tallied st tr.
Proof.
  eexists _, _. split.
  - vm_compute. reflexivity.
  - refine (proj1 (successes_are_distinct_keys 2 (Sample.repeating Sample.null_score_doc) 4 _ _) _).
    vm_compute. reflexivity.
Defined.

(** Loops [while successful_adds < quota and attempts < budget] over passes
    that are [Loop.pass_of] steps: the quota is not overshot. *)
Lemma counting_stops_at_quota quota budget body fuel tr tr' st :
  (forall st tr tr' st', body st tr = (tr', Ok st') -> Loop.pass_of st st') ->
  0 <= quota ->
  while (Loop.counting quota budget) body fuel initial tr = (tr', Ok (Some st)) ->
  successful_adds st <= quota /\
  (successful_adds st = quota \/ attempts st = Z.max 0 budget).
Proof.
  intros Hpass Hq Hrun.
  pose proof (counting_stops_within_budget quota budget body Hpass _ _ _ _ Hrun)
    as [[Hpos Hmax] Hstop].
  assert (Hle : successful_adds st <= quota).
  { refine (proj1 (while_invariant (Loop.counting quota budget) body
                     (fun st => successful_adds st <= quota) _ _ _ _ _ _ _ Hrun)).
    - intros st0 tr0 tr1 st1 _ Hc Hb. apply Hpass in Hb as [_ Hs].
      unfold Loop.counting in Hc. apply andb_true_iff in Hc as [Hc _].
      apply Z.ltb_lt in Hc. lia.
    - simpl. lia. }
  split; [exact Hle|].
  unfold Loop.counting in Hstop.
  apply andb_false_iff in Hstop as [Hc | Hc]; apply Z.ltb_ge in Hc; lia.
Qed.

(** X3: a sampling loop never overshoots its quota, and it stops for one of
    two reasons only: the quota is met, or the attempt budget is used up. *)
Theorem quota_met_or_budget_spent T w fuel tr st :
  0 <= T ->
  (while (BulkPopulate.loop_condition T) (BulkPopulate.loop_body T w) fuel initial []
     = (tr, Ok (Some st)) ->
   successful_adds st <= T /\
   (successful_adds st = T \/ attempts st = BulkPopulate.max_attempts T)) /\
  (while (SimpleBulkPopulate.loop_condition T) (SimpleBulkPopulate.loop_body T w) fuel initial []
     = (tr, Ok (Some st)) ->
   successful_adds st <= T /\
   (successful_adds st = T \/ attempts st = SimpleBulkPopulate.max_attempts T)) /\
  (while (TargetedBulkPopulate.loop_condition T) (TargetedBulkPopulate.loop_body T w) fuel initial []
     = (tr, Ok (Some st)) ->
   successful_adds st <= T /\
   (successful_adds st = T \/ attempts st = TargetedBulkPopulate.max_attempts T)).
Proof.
  intros HT. split; [|split]; intros Hrun.
  - change (BulkPopulate.loop_condition T)
      with (Loop.counting T (BulkPopulate.max_attempts T)) in Hrun.
    apply (counting_stops_at_quota _ _ _ _ _ _ _ (bulk_pass T w) HT) in Hrun.
    unfold BulkPopulate.max_attempts in *. lia.
  - change (SimpleBulkPopulate.loop_condition T)
      with (Loop.counting T (SimpleBulkPopulate.max_attempts T)) in Hrun.
    apply (counting_stops_at_quota _ _ _ _ _ _ _ (simple_pass T w) HT) in Hrun.
    unfold SimpleBulkPopulate.max_attempts in *. lia.
  - change (TargetedBulkPopulate.loop_condition T)
      with (Loop.counting T (TargetedBulkPopulate.max_attempts T)) in Hrun.
    apply (counting_stops_at_quota _ _ _ _ _ _ _ (targeted_pass T w) HT) in Hrun.
    unfold TargetedBulkPopulate.max_attempts in *. lia.
Qed.

Lemma quota_met_or_budget_spent_witness :
  exists tr st,
    while (BulkPopulate.loop_condition 1)
      (BulkPopulate.loop_body 1 (Sample.confirming Sample.null_score_doc)) 3 initial []
      = (tr, Ok (Some st)) /\
    successful_adds st <= 1 /\
    (successful_adds st = 1 \/ attempts st = BulkPopulate.max_attempts 1).
Proof.
  eexists _, _. split.
  - vm_compute. reflexivity.
  - refine (proj1 (quota_met_or_budget_spent 1 (Sample.confirming Sample.null_score_doc) 3 _ _ _) _).
    + lia.
    + vm_compute. reflexivity.
Defined.

(** ** Replies that are not what the scripts expect *)

Lemma get_needs_object j k :
  (forall fields, j <> JObj fields) ->
  get j k = Raise (Exn AttributeError "object has no attribute 'get'").
Proof. destruct j; intros H; try reflexivity. now destruct (H fields). Qed.

(** X4: simple_bulk_populate.py and targeted_bulk_populate.py abort on a
    reply that decodes to something else than an object: for a fresh key
    whose score request exits with 0 and whose body decodes to such a value,
    the pass raises AttributeError after the request, and so does the loop;
    no summary follows. *)
Theorem non_object_reply_aborts T w st tr cp j fuel :
  score (tick_at w (attempts st + 1)) = Ok cp ->
  returncode cp = 0 ->
  json_loads w (stdout cp) = Ok j ->
  (forall fields, j <> JObj fields) ->
  (forall fid,
     SimpleBulkPopulate.generate_weighted_fid
       (rand (tick_at w (attempts st + 1))) (raw (tick_at w (attempts st + 1))) = Ok fid ->
     fid ∉ processed_fids st ->
     SimpleBulkPopulate.loop_condition T st = true ->
     exists msg,
       while (SimpleBulkPopulate.loop_condition T) (SimpleBulkPopulate.loop_body T w)
         (S fuel) st tr
       = (Curl (GetScore fid false)
            :: Printed "Testing FID" [JInt (attempts st + 1); JInt fid] :: tr,
          Raise (Exn AttributeError msg))) /\
  (forall fid,
     TargetedBulkPopulate.generate_likely_fid
       (rand (tick_at w (attempts st + 1))) (raw (tick_at w (attempts st + 1))) = Ok fid ->
     fid ∉ processed_fids st ->
     TargetedBulkPopulate.loop_condition T st = true ->
     exists msg,
       while (TargetedBulkPopulate.loop_condition T) (TargetedBulkPopulate.loop_body T w)
         (S fuel) st tr
       = (Curl (GetScore fid false)
            :: Printed "FID" [JInt (attempts st + 1); JInt fid] :: tr,
          Raise (Exn AttributeError msg))).
Proof.
  intros Hcp Hrc Hj Hobj. split; intros fid Hfid Hnew Hc; simpl; rewrite Hc.
  - unfold SimpleBulkPopulate.loop_body, SimpleBulkPopulate.get_creator_score.
    unfold pbind, try_catch, lift, emit, ret.
    rewrite Hfid, Hcp, Hrc, Hj. destruct (decide (fid ∈ processed_fids st)); [tauto|].
    simpl. rewrite (get_needs_object _ _ Hobj). eauto.
  - unfold TargetedBulkPopulate.loop_body, TargetedBulkPopulate.get_creator_score.
    unfold pbind, try_catch, lift, emit, ret.
    rewrite Hfid, Hcp, Hrc, Hj. destruct (decide (fid ∈ processed_fids st)); [tauto|].
    simpl. rewrite (get_needs_object _ _ Hobj). eauto.
Qed.

Lemma non_object_reply_aborts_witness :
  exists msg,
    while (SimpleBulkPopulate.loop_condition 1)
      (SimpleBulkPopulate.loop_body 1 (Sample.answering (JArr []))) 2 initial []
    = ([Curl (GetScore 2 false); Printed "Testing FID" [JInt 1; JInt 2]],
       Raise (Exn AttributeError msg)).
Proof.
  refine (proj1 (non_object_reply_aborts 1 (Sample.answering (JArr [])) initial []
                   {| returncode := 0; stdout := "{}" |} (JArr []) 1 _ _ _ _) 2 _ _ _).
  - reflexivity.
  - reflexivity.
  - reflexivity.
  - discriminate.
  - vm_compute. reflexivity.
  - vm_compute. set_solver.
  - reflexivity.
Defined.

(** What [get_creator_score] of bulk_populate.py returns: [None], or the
    [data] field of a reply that arrived, decoded to an object and has a
    truthy [success]. *)
Lemma bulk_fetch_result w fid r tr :
  exists tr' j,
    BulkPopulate.get_creator_score w fid r tr = (tr', Ok j) /\
    (j = JNull \/
     exists cp fields,
       r = Ok cp /\ returncode cp = 0 /\ json_loads w (stdout cp) = Ok (JObj fields) /\
       dict_lookup "data" fields = Some j).
Proof.
  unfold BulkPopulate.get_creator_score, pbind, try_catch, emit, lift, ret.
  destruct r as [cp|e]; [|eauto 8].
  destruct (returncode cp =? 0) eqn:Hrc; simpl; [|eauto 8].
  apply Z.eqb_eq in Hrc.
  destruct (json_loads w (stdout cp)) as [j|e] eqn:Hj; [|eauto 8].
  destruct j as [| | | | | |fields]; simpl; eauto 8.
  destruct (truthy _); simpl; [|eauto 8].
  destruct (dict_lookup "data" fields) as [d|] eqn:Hd; simpl; [|eauto 8].
  exists (Curl (GetScore fid false) :: tr), d. split; [reflexivity|]. right. eauto 8.
Qed.



(** ** Verify, then score *)

Lemma bulk_pass_confirmed T w st tr tr' r :
  BulkPopulate.loop_body T w st tr = (tr', r) ->
  Trace.score_requests tr' = Trace.score_requests tr \/
  exists fid, Trace.score_requests tr' = fid :: Trace.score_requests tr /\
              Identity.confirmed w fid.
Proof.
  unfold BulkPopulate.loop_body.
  unfold pbind at 1. unfold lift at 1.
  destruct (BulkPopulate.generate_weighted_fid _ _) as [fid|e].
  2:{ intros [= <- <-]. now left. }
  destruct (decide (fid ∈ processed_fids st)) as [|Hnew].
  { unfold ret. intros [= <- <-]. now left. }
  unfold pbind at 1. unfold emit at 1. unfold pbind at 1.
  destruct (check_neynar_requests w fid (neynar (tick_at w (attempts st + 1)))
              (Printed "Testing FID" [JInt (attempts st + 1); JInt fid] :: tr))
    as (tr1 & found & Hcheck & _ & Hsc1 & _).
  rewrite Hcheck. simpl in Hsc1.
  destruct found; simpl.
  - apply check_neynar_true_inv in Hcheck as (cp & data & Hcp & Hrc & Hst & Hj & Hm).
    unfold pbind at 1. unfold emit at 1. unfold pbind at 1.
    destruct (bulk_fetch_requests w fid (score (tick_at w (attempts st + 1)))
                (Printed "Active" [] :: tr1)) as (tr2 & j & -> & _ & Hsc2 & _).
    simpl in Hsc2. intros H. right. exists fid. split.
    + revert H. unfold pbind, lift, emit, ret. intros H.
      repeat case_match; simplify_eq; simpl; congruence.
    + exists (attempts st + 1), cp, data. auto.
  - unfold pbind, emit, ret. intros [= <- <-]. left. exact Hsc1.
Qed.

(** X6: bulk_populate.py asks the scoring service only about keys that the
    identity service confirmed: every score request of a run, however the run
    ends, is for a key for which some pass got an identity reply with exit
    code 0, status 200 and a body whose first user carries that key. *)
Theorem scores_only_confirmed_keys T w fuel tr r :
  while (BulkPopulate.loop_condition T) (BulkPopulate.loop_body T w) fuel initial [] = (tr, r) ->
  forall fid, In fid (Trace.score_requests tr) -> Identity.confirmed w fid.
Proof.
  apply (while_trace _ _
           (fun _ tr => forall fid, In fid (Trace.score_requests tr) -> Identity.confirmed w fid)
           (fun tr => forall fid, In fid (Trace.score_requests tr) -> Identity.confirmed w fid)).
  - auto.
  - intros st0 tr0 tr1 r1 Hinv _ Hb.
    assert (H1 : forall fid, In fid (Trace.score_requests tr1) -> Identity.confirmed w fid).
    { destruct (bulk_pass_confirmed _ _ _ _ _ _ Hb) as [-> | (fid & -> & Hfid)]; [exact Hinv|].
      intros f [<- | Hf]; auto. }
    now destruct r1.
  - intros fid [].
Qed.

Lemma scores_only_confirmed_keys_witness :
  Identity.confirmed (Sample.confirming Sample.null_score_doc) 42.
Proof.
  refine (scores_only_confirmed_keys 1 (Sample.confirming Sample.null_score_doc) 3 _ _ _ 42 _).
  - vm_compute. reflexivity.
  - simpl. left. reflexivity.
Defined.

(** ** The success rate of the summary *)

Lemma stopped_attempts quota budget st :
  0 < budget ->
  Loop.within_budget budget st -> Loop.counting quota budget st = false ->
  0 < quota -> attempts st <> 0.
Proof.
  intros Hb [[Hs Ha] Hmax] Hc. unfold Loop.counting in Hc.
  apply andb_false_iff in Hc as [Hc | Hc]; apply Z.ltb_ge in Hc; lia.
Qed.

Lemma zero_quota_stops quota budget body fuel tr :
  quota <= 0 ->
  while (Loop.counting quota budget) body fuel initial tr = (tr, Ok (Some initial)).
Proof.
  intros Hq. apply while_stops. unfold Loop.counting, initial. simpl.
  replace (0 <? quota) with false by (symmetry; apply Z.ltb_ge; lia). reflexivity.
Qed.

(** X7: the summary divides the successes by the attempts without a guard.
    With a quota of zero or less the loop makes no pass and every populate
    script ends in ZeroDivisionError at the success-rate line; with a
    positive quota a loop that has stopped has counted an attempt, and the
    summary is printed to its end. *)
Theorem summary_rate T w fuel tr st :
  (while (BulkPopulate.loop_condition T) (BulkPopulate.loop_body T w) fuel initial []
     = (tr, Ok (Some st)) ->
   exists tr',
     BulkPopulate.run T w fuel [] =
       (tr', if T <=? 0 then Raise (Exn ZeroDivisionError "division by zero")
             else Ok (Some st))) /\
  (while (SimpleBulkPopulate.loop_condition T) (SimpleBulkPopulate.loop_body T w) fuel initial []
     = (tr, Ok (Some st)) ->
   exists tr',
     SimpleBulkPopulate.run T w fuel [] =
       (tr', if T <=? 0 then Raise (Exn ZeroDivisionError "division by zero")
             else Ok (Some st))) /\
  (while (TargetedBulkPopulate.loop_condition T) (TargetedBulkPopulate.loop_body T w) fuel initial []
     = (tr, Ok (Some st)) ->
   exists tr',
     TargetedBulkPopulate.run T w fuel [] =
       (tr', if T <=? 0 then Raise (Exn ZeroDivisionError "division by zero")
             else Ok (Some st))).
Proof.
  split; [|split]; intros Hrun.
  - unfold BulkPopulate.run.
    change (BulkPopulate.loop_condition T)
      with (Loop.counting T (BulkPopulate.max_attempts T)) in *.
    destruct (T <=? 0) eqn:HT.
    + apply Z.leb_le in HT.
      rewrite (pbind_ok _ _ _ _ _ (zero_quota_stops T _ _ fuel [] HT)).
      unfold BulkPopulate.summary, pbind, emit, lift, ret. simpl. eauto.
    + apply Z.leb_gt in HT.
      pose proof (counting_stops_within_budget _ _ _ (bulk_pass T w) _ _ _ _ Hrun) as [Hin Hstop].
      apply stopped_attempts in Hstop as Hne;
        [|unfold BulkPopulate.max_attempts; lia|exact Hin|lia].
      rewrite (pbind_ok _ _ _ _ _ Hrun).
      unfold BulkPopulate.summary, pbind, emit, lift, ret.
      rewrite truediv_ok by exact Hne.
      destruct (successful_adds st <? T); eauto.
  - unfold SimpleBulkPopulate.run.
    change (SimpleBulkPopulate.loop_condition T)
      with (Loop.counting T (SimpleBulkPopulate.max_attempts T)) in *.
    destruct (T <=? 0) eqn:HT.
    + apply Z.leb_le in HT.
      rewrite (pbind_ok _ _ _ _ _ (zero_quota_stops T _ _ fuel [] HT)).
      unfold SimpleBulkPopulate.summary, pbind, emit, lift, ret. simpl. eauto.
    + apply Z.leb_gt in HT.
      pose proof (counting_stops_within_budget _ _ _ (simple_pass T w) _ _ _ _ Hrun) as [Hin Hstop].
      apply stopped_attempts in Hstop as Hne;
        [|unfold SimpleBulkPopulate.max_attempts; lia|exact Hin|lia].
      rewrite (pbind_ok _ _ _ _ _ Hrun).
      unfold SimpleBulkPopulate.summary, pbind, emit, lift, ret.
      rewrite truediv_ok by exact Hne.
      destruct (successful_adds st <? T); eauto.
  - unfold TargetedBulkPopulate.run.
    change (TargetedBulkPopulate.loop_condition T)
      with (Loop.counting T (TargetedBulkPopulate.max_attempts T)) in *.
    destruct (T <=? 0) eqn:HT.
    + apply Z.leb_le in HT.
      rewrite (pbind_ok _ _ _ _ _ (zero_quota_stops T _ _ fuel [] HT)).
      unfold TargetedBulkPopulate.summary, pbind, emit, lift, ret. simpl. eauto.
    + apply Z.leb_gt in HT.
      pose proof (counting_stops_within_budget _ _ _ (targeted_pass T w) _ _ _ _ Hrun) as [Hin Hstop].
      apply stopped_attempts in Hstop as Hne;
        [|unfold TargetedBulkPopulate.max_attempts; lia|exact Hin|lia].
      rewrite (pbind_ok _ _ _ _ _ Hrun).
      unfold TargetedBulkPopulate.summary, pbind, emit, lift, ret.
      rewrite truediv_ok by exact Hne. eauto.
Qed.

Lemma summary_rate_witness :
  exists tr',
    TargetedBulkPopulate.run 0 Sample.silent 0 [] =
      (tr', Raise (Exn ZeroDivisionError "division by zero")).
Proof.
  refine (proj2 (proj2 (summary_rate 0 Sample.silent 0 [] initial)) _).
  vm_compute. reflexivity.
Defined.

(** ** The keys that are drawn *)

Lemma weighted_fid_within ranges fallback lo hi rand u :
  Forall (fun r => lo <= fst (fst r) /\ fst (fst r) <= snd (fst r) /\ snd (fst r) <= hi) ranges ->
  lo <= fst fallback /\ fst fallback <= snd fallback /\ snd fallback <= hi ->
  exists fid, Sampler.weighted_fid ranges fallback rand u = Ok fid /\ lo <= fid <= hi.
Proof.
  intros Hranges Hfb. unfold Sampler.weighted_fid.
  destruct (Sampler.select_range ranges 0 rand) as [[a b]|] eqn:Hsel.
  - destruct (select_range_in _ _ _ _ _ Hsel) as [weight Hin].
    rewrite List.Forall_forall in Hranges. specialize (Hranges _ Hin). simpl in Hranges.
    destruct (randint_total a b u) as [fid Hfid]; [lia|].
    exists fid. split; [exact Hfid|]. apply randint_bounds in Hfid. lia.
  - destruct (randint_total (fst fallback) (snd fallback) u) as [fid Hfid]; [lia|].
    exists fid. split; [exact Hfid|]. apply randint_bounds in Hfid. lia.
Qed.

(** X8: whatever [random.random()] and the raw draw are, the samplers return
    a key and never raise: bulk_populate.py draws from 1..50000,
    simple_bulk_populate.py from 1..30000 and targeted_bulk_populate.py from
    1..25000. *)
Theorem generated_keys_in_range rand u :
  (exists fid, BulkPopulate.generate_weighted_fid rand u = Ok fid /\ 1 <= fid <= 50000) /\
  (exists fid, SimpleBulkPopulate.generate_weighted_fid rand u = Ok fid /\ 1 <= fid <= 30000) /\
  (exists fid, TargetedBulkPopulate.generate_likely_fid rand u = Ok fid /\ 1 <= fid <= 25000).
Proof.
  split; [|split].
  - apply weighted_fid_within; [repeat constructor; simpl; lia | simpl; lia].
  - apply weighted_fid_within; [repeat constructor; simpl; lia | simpl; lia].
  - unfold TargetedBulkPopulate.generate_likely_fid.
    assert (Hall : Forall (fun r => 1 <= fst r /\ fst r <= snd r /\ snd r <= 25000)
                     ((8000, 25000) :: TargetedBulkPopulate.strategies))
      by (repeat constructor; simpl; lia).
    rewrite List.Forall_forall in Hall.
    assert (Hin : In (List.nth (Sampler.choices_index TargetedBulkPopulate.weights rand)
                        TargetedBulkPopulate.strategies (8000, 25000))
                    ((8000, 25000) :: TargetedBulkPopulate.strategies)).
    { destruct (nth_in_or_default (Sampler.choices_index TargetedBulkPopulate.weights rand)
                  TargetedBulkPopulate.strategies (8000, 25000)) as [H | ->];
        [now right | now left]. }
    apply Hall in Hin.
    destruct (randint_total _ _ u (proj1 (proj2 Hin))) as [fid Hfid].
    exists fid. split; [exact Hfid|]. apply randint_bounds in Hfid. lia.
Qed.

(** ** Rate limiting *)

Lemma simple_pass_sleeps T w st tr tr' st' :
  SimpleBulkPopulate.loop_body T w st tr = (tr', Ok st') ->
  tr' = tr \/
  exists fid, Trace.score_requests tr' = fid :: Trace.score_requests tr /\
              Trace.slept tr' = (SimpleBulkPopulate.REQUEST_DELAY + Trace.slept tr)%Q.
Proof.
  unfold SimpleBulkPopulate.loop_body.
  unfold pbind at 1. unfold lift at 1.
  destruct (SimpleBulkPopulate.generate_weighted_fid _ _) as [fid|e]; [|discriminate].
  destruct (decide (fid ∈ processed_fids st)) as [|Hnew].
  { unfold ret. intros [= <- <-]. now left. }
  unfold pbind at 1. unfold emit at 1. unfold pbind at 1.
  destruct (simple_fetch_returns w fid (score (tick_at w (attempts st + 1)))
              (Printed "Testing FID" [JInt (attempts st + 1); JInt fid] :: tr)) as [j ->].
  intros H. right. exists fid.
  revert H. unfold pbind, lift, emit, ret. intros H.
  repeat case_match; simplify_eq; simpl; split; reflexivity.
Qed.

Lemma targeted_pass_sleeps T w st tr tr' st' :
  TargetedBulkPopulate.loop_body T w st tr = (tr', Ok st') ->
  tr' = tr \/
  exists fid, Trace.score_requests tr' = fid :: Trace.score_requests tr /\
              Trace.slept tr' = (TargetedBulkPopulate.REQUEST_DELAY + Trace.slept tr)%Q.
Proof.
  unfold TargetedBulkPopulate.loop_body.
  unfold pbind at 1. unfold lift at 1.
  destruct (TargetedBulkPopulate.generate_likely_fid _ _) as [fid|e]; [|discriminate].
  destruct (decide (fid ∈ processed_fids st)) as [|Hnew].
  { unfold ret. intros [= <- <-]. now left. }
  unfold pbind at 1. unfold emit at 1. unfold pbind at 1.
  destruct (targeted_fetch_returns w fid (score (tick_at w (attempts st + 1)))
              (Printed "FID" [JInt (attempts st + 1); JInt fid] :: tr)) as [j ->].
  intros H. right. exists fid.
  revert H. unfold pbind, lift, emit, ret. intros H.
  repeat case_match; simplify_eq; simpl; split; reflexivity.
Qed.

(** A completed pass of bulk_populate.py sleeps half a second after an
    identity request that did not confirm the key, and [REQUEST_DELAY] after
    a score request. *)
Lemma bulk_pass_sleeps T w st tr tr' st' :
  BulkPopulate.loop_body T w st tr = (tr', Ok st') ->
  tr' = tr \/
  exists fid,
    Trace.identity_requests tr' = fid :: Trace.identity_requests tr /\
    ((Trace.score_requests tr' = Trace.score_requests tr /\
      Trace.slept tr' = ((1 # 2) + Trace.slept tr)%Q) \/
     (Trace.score_requests tr' = fid :: Trace.score_requests tr /\
      Trace.slept tr' = (BulkPopulate.REQUEST_DELAY + Trace.slept tr)%Q)).
Proof.
  unfold BulkPopulate.loop_body.
  unfold pbind at 1. unfold lift at 1.
  destruct (BulkPopulate.generate_weighted_fid _ _) as [fid|e]; [|discriminate].
  destruct (decide (fid ∈ processed_fids st)) as [|Hnew].
  { unfold ret. intros [= <- <-]. now left. }
  unfold pbind at 1. unfold emit at 1. unfold pbind at 1.
  destruct (check_neynar_requests w fid (neynar (tick_at w (attempts st + 1)))
              (Printed "Testing FID" [JInt (attempts st + 1); JInt fid] :: tr))
    as (tr1 & found & -> & Hid1 & Hsc1 & Hsl1).
  simpl in Hid1, Hsc1, Hsl1.
  intros H. right. exists fid.
  destruct found; simpl in H.
  - revert H. unfold pbind at 1. unfold emit at 1. unfold pbind at 1.
    destruct (bulk_fetch_requests w fid (score (tick_at w (attempts st + 1)))
                (Printed "Active" [] :: tr1)) as (tr2 & j & -> & Hid2 & Hsc2 & Hsl2).
    simpl in Hid2, Hsc2, Hsl2.
    unfold pbind, lift, emit, ret. intros H.
    repeat case_match; simplify_eq; simpl;
      (split; [congruence | right; split; congruence]).
  - revert H. unfold pbind, emit, ret. intros [= <- <-]. simpl.
    split; [exact Hid1 | left; split; congruence].
Qed.

Lemma of_nat_succ_Q (n : nat) :
  (inject_Z (Z.of_nat (S n)) == 1 + inject_Z (Z.of_nat n))%Q.
Proof. rewrite Nat2Z.inj_succ. unfold Z.succ. rewrite inject_Z_plus. ring. Qed.

(** Loops that sleep [delay] with every score request. *)
Section Sleeping.
Variable delay : Q.
Variable cond : RunState -> bool.
Variable body : RunState -> prog RunState.
Hypothesis body_sleeps :
  forall st tr tr' st',
    body st tr = (tr', Ok st') ->
    tr' = tr \/
    exists fid, Trace.score_requests tr' = fid :: Trace.score_requests tr /\
                Trace.slept tr' = (delay + Trace.slept tr)%Q.

Lemma loop_sleeps fuel tr st :
  while cond body fuel initial [] = (tr, Ok (Some st)) ->
  (Trace.slept tr == delay * inject_Z (Z.of_nat (List.length (Trace.score_requests tr))))%Q.
Proof.
  apply (while_state_trace cond body
           (fun _ tr => (Trace.slept tr ==
              delay * inject_Z (Z.of_nat (List.length (Trace.score_requests tr))))%Q)
           (fun _ => True)).
  - intros st0 tr0 tr1 r1 Hinv _ Hb. destruct r1 as [st1|e]; [|trivial].
    destruct (body_sleeps _ _ _ _ Hb) as [-> | (fid & Hsc & Hsl)]; [exact Hinv|].
    rewrite Hsc, Hsl. simpl List.length. rewrite of_nat_succ_Q, Hinv. ring.
  - simpl. ring.
Qed.
End Sleeping.

(** X9: the loops pace their requests.  In a run that stops, the script has
    slept [REQUEST_DELAY] seconds for every score request (1.5 s in
    simple_bulk_populate.py, 1 s in targeted_bulk_populate.py, 2 s in
    bulk_populate.py), and bulk_populate.py half a second more for every
    identity request that was not followed by a score request. *)
Theorem requests_are_paced T w fuel tr st :
  (while (SimpleBulkPopulate.loop_condition T) (SimpleBulkPopulate.loop_body T w) fuel initial []
     = (tr, Ok (Some st)) ->
   (Trace.slept tr ==
      (3 # 2) * inject_Z (Z.of_nat (List.length (Trace.score_requests tr))))%Q) /\
  (while (TargetedBulkPopulate.loop_condition T) (TargetedBulkPopulate.loop_body T w) fuel initial []
     = (tr, Ok (Some st)) ->
   (Trace.slept tr ==
      1 * inject_Z (Z.of_nat (List.length (Trace.score_requests tr))))%Q) /\
  (while (BulkPopulate.loop_condition T) (BulkPopulate.loop_body T w) fuel initial []
     = (tr, Ok (Some st)) ->
   (Trace.slept tr ==
      2 * inject_Z (Z.of_nat (List.length (Trace.score_requests tr))) +
      (1 # 2) * (inject_Z (Z.of_nat (List.length (Trace.identity_requests tr))) -
                 inject_Z (Z.of_nat (List.length (Trace.score_requests tr)))))%Q).
Proof.
  split; [|split].
  - exact (loop_sleeps _ (SimpleBulkPopulate.loop_condition T) _
             (simple_pass_sleeps T w) fuel tr st).
  - exact (loop_sleeps _ (TargetedBulkPopulate.loop_condition T) _
             (targeted_pass_sleeps T w) fuel tr st).
  - apply (while_state_trace _ _
             (fun _ tr => (Trace.slept tr ==
                2 * inject_Z (Z.of_nat (List.length (Trace.score_requests tr))) +
                (1 # 2) * (inject_Z (Z.of_nat (List.length (Trace.identity_requests tr))) -
                           inject_Z (Z.of_nat (List.length (Trace.score_requests tr)))))%Q)
             (fun _ => True)).
    + intros st0 tr0 tr1 r1 Hinv _ Hb. destruct r1 as [st1|e]; [|trivial].
      destruct (bulk_pass_sleeps _ _ _ _ _ _ Hb)
        as [-> | (fid & Hid & [[Hsc Hsl] | [Hsc Hsl]])]; [exact Hinv| |].
      * rewrite Hid, Hsc, Hsl. simpl List.length. rewrite of_nat_succ_Q, Hinv. ring.
      * rewrite Hid, Hsc, Hsl. simpl List.length. rewrite !of_nat_succ_Q, Hinv.
        unfold BulkPopulate.REQUEST_DELAY. ring.
    + simpl. ring.
Qed.

Lemma requests_are_paced_witness :
  exists tr st,
    while (BulkPopulate.loop_condition 1)
      (BulkPopulate.loop_body 1 (Sample.confirming Sample.not_found_doc)) 3 initial []
      = (tr, Ok (Some st)) /\
    (Trace.slept tr ==
       2 * inject_Z (Z.of_nat (List.length (Trace.score_requests tr))) +
       (1 # 2) * (inject_Z (Z.of_nat (List.length (Trace.identity_requests tr))) -
                  inject_Z (Z.of_nat (List.length (Trace.score_requests tr)))))%Q.
Proof.
  eexists _, _. split.
  - vm_compute. reflexivity.
  - refine (proj2 (proj2 (requests_are_paced 1 (Sample.confirming Sample.not_found_doc) 3 _ _)) _).
    vm_compute. reflexivity.
Defined.

(** ** test_neynar.py *)

Lemma probe_requests w fid tr :
  exists tr',
    TestNeynar.probe w fid tt tr = (tr', Ok tt) /\
    Trace.identity_requests tr' = fid :: Trace.identity_requests tr /\
    Trace.score_requests tr' = Trace.score_requests tr /\
    Trace.slept tr' = Trace.slept tr.
Proof.
  unfold TestNeynar.probe, pbind, try_catch, try_catch_only, emit, lift, ret.
  repeat case_match; simplify_eq; repeat match goal with u : unit |- _ => destruct u end;
    eexists; repeat split; reflexivity.
Qed.

Lemma probes_request w xs tr :
  exists tr',
    for_each xs (TestNeynar.probe w) tt tr = (tr', Ok tt) /\
    Trace.identity_requests tr' = (rev xs ++ Trace.identity_requests tr)%list /\
    Trace.score_requests tr' = Trace.score_requests tr /\
    Trace.slept tr' = Trace.slept tr.
Proof.
  revert tr. induction xs as [|fid xs IH]; intros tr; simpl.
  - exists tr. repeat split; reflexivity.
  - destruct (probe_requests w fid tr) as (tr1 & Hp & Hid & Hsc & Hsl).
    rewrite (pbind_ok _ _ _ _ _ Hp).
    destruct (IH tr1) as (tr2 & Hrun & Hid2 & Hsc2 & Hsl2).
    exists tr2. split; [exact Hrun|].
    rewrite Hid2, Hsc2, Hsl2, Hid, Hsc, Hsl, <- app_assoc. repeat split; reflexivity.
Qed.

(** X10: test_neynar.py cannot be stopped by any reply: whatever the identity
    service does, the script sends one identity request for each of its
    twelve keys, in the order of the list, requests no score, never sleeps
    between the requests, and ends with its closing line. *)
Theorem neynar_test_completes w :
  exists tr,
    TestNeynar.run w [] = (Printed "Neynar API test complete" [] :: tr, Ok tt) /\
    Trace.identity_requests tr = rev TestNeynar.test_fids /\
    Trace.score_requests tr = [] /\
    Trace.slept tr = 0%Q.
Proof.
  destruct (probes_request w TestNeynar.test_fids []) as (tr & Hrun & Hid & Hsc & Hsl).
  exists tr. unfold TestNeynar.run. rewrite (pbind_ok _ _ _ _ _ Hrun).
  rewrite app_nil_r in Hid. auto.
Qed.

(** ** update_all_profiles.py: [force_profile_update] *)


(** ** An error text that is not a string *)

Lemma for_each_raises {A St : Type} (body : A -> St -> prog St) (P : exn -> Prop) x :
  (forall st tr, exists tr' e, body x st tr = (tr', Raise e) /\ P e) ->
  (forall y st tr tr' e, body y st tr = (tr', Raise e) -> P e) ->
  forall xs, In x xs ->
  forall st tr, exists tr' e, for_each xs body st tr = (tr', Raise e) /\ P e.
Proof.
  intros Hx Hall. induction xs as [|y xs IH]; intros Hin st tr; [destruct Hin|].
  simpl. unfold pbind. destruct (body y st tr) as [tr1 [st1|e]] eqn:Hb.
  - destruct Hin as [-> | Hin].
    + destruct (Hx st tr) as (tr' & e & Hraise & _). congruence.
    + apply (IH Hin).
  - exists tr1, e. split; [reflexivity|]. apply (Hall _ _ _ _ _ Hb).
Qed.

Lemma lower_needs_string e :
  (forall t, e <> JStr t) ->
  lower_of e = Raise (Exn AttributeError "object has no attribute 'lower'").
Proof. destruct e; intros H; try reflexivity. now destruct (H s). Qed.

Lemma outcome_returns w fid : exists u, Contract.outcome w fid = Ok u.
Proof.
  unfold Contract.outcome, BulkUpdate1To100.update_fid_with_profile,
    pbind, try_catch, emit, lift, ret.
  repeat case_match; simplify_eq; simpl; eauto.
Qed.

Lemma update_pass_raises w fid st tr tr' e :
  BulkUpdate1To100.loop_body w fid st tr = (tr', Raise e) ->
  exists msg, e = Exn AttributeError msg.
Proof.
  unfold BulkUpdate1To100.loop_body.
  unfold pbind at 1. unfold emit at 1. unfold pbind at 1. rewrite update_outcome.
  destruct (outcome_returns w fid) as [u ->].
  unfold pbind, lift, emit, ret, lower_of, raise. intros H.
  repeat case_match; simplify_eq; eauto.
Qed.



(** ** The counters of bulk_update_1_to_100.py *)

Lemma update_pass_accounted w fid st tr tr' st' n :
  BulkUpdate1To100.loop_body w fid st tr = (tr', Ok st') ->
  Tallies.accounted n st ->
  Tallies.accounted (n + 1) st' /\
  Trace.score_requests tr' = fid :: Trace.score_requests tr /\
  Trace.slept tr' = (Tallies.pause fid + Trace.slept tr)%Q.
Proof.
  unfold BulkUpdate1To100.loop_body.
  unfold pbind at 1. unfold emit at 1. unfold pbind at 1. rewrite update_outcome.
  unfold pbind, lift, emit, ret, Tallies.accounted, Tallies.pause.
  intros H (Hsum & Hf & Hn & Hp & Hlen & Hfilter).
  repeat case_match; simplify_eq; simpl;
    (split; [|split; reflexivity]);
    rewrite ?length_app, ?List.filter_app, ?Hfilter; simpl;
    repeat split; try reflexivity; lia.
Qed.

Lemma updates_accounted w xs :
  forall st tr tr' st' n,
    for_each xs (BulkUpdate1To100.loop_body w) st tr = (tr', Ok st') ->
    Tallies.accounted n st ->
    Tallies.accounted (n + Z.of_nat (List.length xs)) st' /\
    Trace.score_requests tr' = (rev xs ++ Trace.score_requests tr)%list /\
    (Trace.slept tr' == Tallies.pauses xs + Trace.slept tr)%Q.
Proof.
  induction xs as [|fid xs IH]; intros st tr tr' st' n; simpl.
  - unfold ret. intros [= <- <-] Hacc. rewrite Z.add_0_r.
    split; [exact Hacc|]. split; [reflexivity | ring].
  - intros H Hacc. apply pbind_ok_inv in H as (tr1 & st1 & Hpass & Hrest).
    destruct (update_pass_accounted _ _ _ _ _ _ _ Hpass Hacc) as (Hacc1 & Hsc1 & Hsl1).
    destruct (IH _ _ _ _ _ Hrest Hacc1) as (Hacc2 & Hsc2 & Hsl2).
    replace (n + Z.of_nat (S (List.length xs)))
      with (n + 1 + Z.of_nat (List.length xs)) by lia.
    split; [exact Hacc2|]. split.
    + rewrite Hsc2, Hsc1, <- app_assoc. reflexivity.
    + rewrite Hsl2, Hsl1. ring.
Qed.

(** X13: when the loop over the keys 1 to 100 completes, its counters
    account for the hundred keys: successful + failed + not found = 100, the
    profiles are counted among the successes, [results] holds exactly one
    record for each counted profile and each record has a true [hasProfile]
    (the later filter on that flag removes nothing).  The loop has sent one
    cache-busting score request for each key from 1 to 100, in ascending
    order, and has slept 110 seconds. *)
Theorem hundred_keys_accounted w tr st :
  for_each BulkUpdate1To100.fids (BulkUpdate1To100.loop_body w)
    BulkUpdate1To100.no_updates [] = (tr, Ok st) ->
  Tallies.accounted 100 st /\
  Trace.score_requests tr = rev BulkUpdate1To100.fids /\
  (Trace.slept tr == 110)%Q.
Proof.
  intros Hrun.
  destruct (updates_accounted w _ _ _ _ _ 0 Hrun) as (Hacc & Hsc & Hsl).
  { unfold Tallies.accounted. simpl. repeat split; lia. }
  split; [exact Hacc|]. split.
  - rewrite Hsc. apply app_nil_r.
  - rewrite Hsl. vm_compute. reflexivity.
Qed.

Lemma hundred_keys_accounted_witness :
  exists tr st,
    for_each BulkUpdate1To100.fids (BulkUpdate1To100.loop_body Sample.silent)
      BulkUpdate1To100.no_updates [] = (tr, Ok st) /\
    Tallies.accounted 100 st.
Proof.
  eexists _, _. split.
  - vm_compute. reflexivity.
  - refine (proj1 (hundred_keys_accounted Sample.silent _ _ _)).
    vm_compute. reflexivity.
Defined.

(** ** The closing blocks *)

(** [try: body except Exception as e: print(...)] returns. *)
Lemma guarded_returns (body : prog unit) (text : string) tr :
  exists tr',
    try_catch body (fun e => emit (Printed text [JStr (str_exn e)])) tr = (tr', Ok tt).
Proof.
  unfold try_catch, emit. destruct (body tr) as [tr' [[]|e]]; eauto.
Qed.

(** X14: the closing blocks of the maintenance scripts cannot abort them.
    Whatever the rebuild request and the leaderboard read give (an exception,
    a non-zero exit, an undecodable body, rows that lack fields or have
    values that cannot be formatted), the refresh block and the final
    analysis of bulk_update_1_to_100.py, the final check of
    force_cache_refresh.py and the leaderboard test of update_all_profiles.py
    return; and once the final results and the top-creators listing of
    bulk_update_1_to_100.py are printed, its [main] runs to its last line. *)
Theorem closing_blocks_return w tr :
  (exists tr', BulkUpdate1To100.refresh_leaderboard w tr = (tr', Ok tt)) /\
  (exists tr', BulkUpdate1To100.final_analysis w tr = (tr', Ok tt)) /\
  (exists tr', ForceCacheRefresh.final_leaderboard_check w tr = (tr', Ok tt)) /\
  (exists tr', UpdateAllProfiles.leaderboard_test w tr = (tr', Ok tt)) /\
  (forall tr1 st tr2 tr3,
     for_each BulkUpdate1To100.fids (BulkUpdate1To100.loop_body w)
       BulkUpdate1To100.no_updates [] = (tr1, Ok st) ->
     BulkUpdate1To100.final_results st tr1 = (tr2, Ok tt) ->
     BulkUpdate1To100.top_creators w st tr2 = (tr3, Ok tt) ->
     exists tr4,
       BulkUpdate1To100.main w [] =
         (Printed "Comprehensive update complete" [] :: tr4, Ok tt)).
Proof.
  split; [|split; [|split; [|split]]].
  - unfold BulkUpdate1To100.refresh_leaderboard, pbind at 1, emit at 1. apply guarded_returns.
  - unfold BulkUpdate1To100.final_analysis, pbind at 1, emit at 1. apply guarded_returns.
  - unfold ForceCacheRefresh.final_leaderboard_check, pbind at 1, emit at 1.
    apply guarded_returns.
  - unfold UpdateAllProfiles.leaderboard_test, pbind at 1, emit at 1. apply guarded_returns.
  - intros tr1 st tr2 tr3 Hloop Hresults Htop. unfold BulkUpdate1To100.main.
    rewrite (pbind_ok _ _ _ _ _ Hloop), (pbind_ok _ _ _ _ _ Hresults),
      (pbind_ok _ _ _ _ _ Htop).
    destruct (guarded_returns
                (emit (Curl PostRefresh) >>
                 let* result := lift (refresh w) in
                 if returncode result =? 0 then
                   emit (Printed "Leaderboard cache refreshed successfully" [])
                 else emit (Printed "Failed to refresh leaderboard cache" []))
                "Leaderboard refresh failed"
                (Printed "Refreshing leaderboard cache" [] :: tr3)) as [tr4 H4].
    assert (Hrefresh : BulkUpdate1To100.refresh_leaderboard w tr3 = (tr4, Ok tt)) by exact H4.
    rewrite (pbind_ok _ _ _ _ _ Hrefresh).
    assert (Hfinal : exists tr5, BulkUpdate1To100.final_analysis w tr4 = (tr5, Ok tt)).
    { unfold BulkUpdate1To100.final_analysis, pbind at 1, emit at 1. apply guarded_returns. }
    destruct Hfinal as [tr5 Hfinal].
    rewrite (pbind_ok _ _ _ _ _ Hfinal). unfold emit. eauto.
Qed.

Lemma closing_blocks_return_witness :
  exists tr4,
    BulkUpdate1To100.main (Sample.answering Sample.null_score_doc) [] =
      (Printed "Comprehensive update complete" [] :: tr4, Ok tt).
Proof.
  refine (proj2 (proj2 (proj2 (proj2
            (closing_blocks_return (Sample.answering Sample.null_score_doc) []))))
            _ _ _ _ _ _ _).
  - vm_compute. reflexivity.
  - vm_compute. reflexivity.
  - vm_compute. reflexivity.
Defined.

(** X15: an empty leaderboard.  When the leaderboard is served with no rows,
    the final analysis of bulk_update_1_to_100.py divides by the number of
    rows: the division by zero is caught by the block's [except] and
    reported as a failed analysis, and no coverage line is printed.  The
    final check of force_cache_refresh.py and the leaderboard test of
    update_all_profiles.py do not divide: they print a coverage of 0 out of
    0 and an empty listing. *)
Theorem empty_leaderboard w cp fields success payload tr :
  leaderboard_fetch w = Ok cp ->
  returncode cp = 0 ->
  json_loads w (stdout cp) = Ok (JObj fields) ->
  get (JObj fields) "success" = Ok success ->
  truthy success = true ->
  dict_lookup "data" fields = Some (JObj payload) ->
  dict_lookup "leaderboard" payload = Some (JArr []) ->
  BulkUpdate1To100.final_analysis w tr =
    (Printed "Leaderboard analysis failed" [JStr "division by zero"] ::
     Curl GetLeaderboard ::
     Printed "Final leaderboard profile coverage analysis" [] :: tr, Ok tt) /\
  ForceCacheRefresh.final_leaderboard_check w tr =
    (Printed "Top 5 entries" [] ::
     Printed "Final profile coverage" [JInt 0; JInt 0] ::
     Curl GetLeaderboard ::
     Printed "Final leaderboard check" [] :: tr, Ok tt) /\
  UpdateAllProfiles.leaderboard_test w tr =
    (Printed "Leaderboard profile coverage" [JInt 0; JInt 0] ::
     Printed "Top 5 with profile data" [] ::
     Curl GetLeaderboard ::
     Printed "Testing updated leaderboard with profile data" [] :: tr, Ok tt).
Proof.
  intros Hfetch Hrc Hj Hsucc Htruthy Hdata Hboard. split; [|split].
  - unfold BulkUpdate1To100.final_analysis, pbind, try_catch, emit, lift, getitem.
    rewrite Hfetch, Hrc. simpl. rewrite Hj, Hsucc, Htruthy, Hdata, Hboard. reflexivity.
  - unfold ForceCacheRefresh.final_leaderboard_check, pbind, try_catch, emit, lift, getitem.
    rewrite Hfetch, Hrc. simpl. rewrite Hj, Hsucc, Htruthy, Hdata, Hboard. reflexivity.
  - unfold UpdateAllProfiles.leaderboard_test, pbind, try_catch, emit, lift, getitem.
    rewrite Hfetch, Hrc. simpl. rewrite Hj, Hsucc, Htruthy, Hdata, Hboard. reflexivity.
Qed.

Lemma empty_leaderboard_witness :
  BulkUpdate1To100.final_analysis (Boards.serving []) [] =
    ([Printed "Leaderboard analysis failed" [JStr "division by zero"];
      Curl GetLeaderboard;
      Printed "Final leaderboard profile coverage analysis" []], Ok tt).
Proof.
  refine (proj1 (empty_leaderboard (Boards.serving []) {| returncode := 0; stdout := "{}" |}
                   [("success", JBool true); ("data", JObj [("leaderboard", JArr [])])]
                   (JBool true) [("leaderboard", JArr [])] [] _ _ _ _ _ _ _));
    reflexivity.
Defined.

(** ** The rows without a profile *)

Lemma has_profile_object entry :
  Rows.is_object entry = true ->
  Leaderboard.has_profile entry = Ok (Rows.enriched entry).
Proof.
  destruct entry as [| | | | | |fields]; try discriminate. intros _.
  unfold Rows.enriched, Leaderboard.has_profile, Py.bind, get, get_default.
  destruct (truthy _); reflexivity.
Qed.

Lemma has_profile_returns entry b :
  Leaderboard.has_profile entry = Ok b -> Rows.is_object entry = true /\ Rows.enriched entry = b.
Proof.
  intros H. unfold Rows.enriched. rewrite H. split; [|reflexivity].
  destruct entry; try reflexivity; discriminate.
Qed.

Lemma sort_entries_filters entries :
  forall rm kp,
    Forall (fun e => Rows.is_object e = true) entries ->
    CleanLeaderboard.sort_entries entries rm kp =
      Ok ((rm ++ List.filter (fun e => negb (Rows.enriched e)) entries)%list,
          (kp ++ List.filter Rows.enriched entries)%list).
Proof.
  induction entries as [|entry rest IH]; intros rm kp Hall; simpl.
  - now rewrite !app_nil_r.
  - inversion Hall as [|? ? Hentry Hrest]; subst.
    rewrite (has_profile_object _ Hentry). simpl.
    destruct (Rows.enriched entry); simpl; rewrite (IH _ _ Hrest), <- ?app_assoc; reflexivity.
Qed.

Lemma sort_entries_objects entries :
  forall rm kp out,
    CleanLeaderboard.sort_entries entries rm kp = Ok out ->
    Forall (fun e => Rows.is_object e = true) entries.
Proof.
  induction entries as [|entry rest IH]; intros rm kp out; simpl; [constructor|].
  destruct (Leaderboard.has_profile entry) as [b|e] eqn:Hentry; simpl; [|discriminate].
  apply has_profile_returns in Hentry as [Hobj _].
  destruct b; intros H; constructor; eauto.
Qed.

Lemma count_profiles_filter entries :
  Forall (fun e => Rows.is_object e = true) entries ->
  Leaderboard.count_profiles entries =
    Ok (Z.of_nat (List.length (List.filter Rows.enriched entries))).
Proof.
  induction 1 as [|entry rest Hentry _ IH]; [reflexivity|].
  cbn [Leaderboard.count_profiles List.filter].
  rewrite (has_profile_object _ Hentry), IH. unfold Py.bind.
  destruct (Rows.enriched entry); [|reflexivity].
  cbn [List.length]. f_equal. lia.
Qed.

Lemma collect_fids entries :
  forall acc,
    Forall (fun e => Rows.is_object e = true) entries ->
    CacheRefresh.collect entries acc =
      let? fids := Rows.fids_of (List.filter (fun e => negb (Rows.enriched e)) entries) in
      Ok (acc ++ fids)%list.
Proof.
  induction entries as [|entry rest IH]; intros acc Hall; simpl.
  - now rewrite app_nil_r.
  - inversion Hall as [|? ? Hentry Hrest]; subst.
    rewrite (has_profile_object _ Hentry). simpl.
    destruct (Rows.enriched entry); simpl; [apply (IH _ Hrest)|].
    destruct (getitem entry "fid") as [fid|e]; simpl; [|reflexivity].
    rewrite (IH _ Hrest).
    destruct (Rows.fids_of _) as [fids|e]; simpl; [|reflexivity].
    now rewrite <- app_assoc.
Qed.

(** X16: [identify_entries_to_remove] of clean_leaderboard.py returns
    exactly when every row is an object.  It then splits the rows, in their
    order, into those with a truthy [username] or [displayName] and the
    others; no row is lost or duplicated.  The number of rows it keeps is the
    coverage that the audits count, and the rows it marks for removal are
    the rows whose keys [get_fids_without_profiles] of force_cache_refresh.py
    collects. *)
Theorem rows_split_by_profile entries :
  (Forall (fun e => Rows.is_object e = true) entries <->
   exists out, CleanLeaderboard.identify_entries_to_remove (JArr entries) = Ok out) /\
  (forall entries_to_remove entries_with_profiles,
     CleanLeaderboard.identify_entries_to_remove (JArr entries)
       = Ok (entries_to_remove, entries_with_profiles) ->
     entries_with_profiles = List.filter Rows.enriched entries /\
     entries_to_remove = List.filter (fun e => negb (Rows.enriched e)) entries /\
     (List.length entries_to_remove + List.length entries_with_profiles
        = List.length entries)%nat /\
     Leaderboard.count_profiles entries
       = Ok (Z.of_nat (List.length entries_with_profiles)) /\
     CacheRefresh.collect entries [] = Rows.fids_of entries_to_remove).
Proof.
  unfold CleanLeaderboard.identify_entries_to_remove. simpl. split.
  - split.
    + intros Hall. rewrite (sort_entries_filters _ _ _ Hall). eauto.
    + intros [out Hout]. apply (sort_entries_objects _ _ _ _ Hout).
  - intros rm kp Hout.
    pose proof (sort_entries_objects _ _ _ _ Hout) as Hall.
    rewrite (sort_entries_filters _ _ _ Hall) in Hout. simpl in Hout.
    injection Hout as <- <-. split; [reflexivity|]. split; [reflexivity|]. split; [|split].
    + clear Hall. induction entries as [|e rest IH]; [reflexivity|]. simpl.
      destruct (Rows.enriched e); simpl; lia.
    + apply (count_profiles_filter _ Hall).
    + rewrite (collect_fids _ _ Hall).
      destruct (Rows.fids_of _); reflexivity.
Qed.

Lemma rows_split_by_profile_witness :
  exists out, CleanLeaderboard.identify_entries_to_remove (JArr Sample.five_rows) = Ok out.
Proof.
  refine (proj1 (proj1 (rows_split_by_profile Sample.five_rows)) _).
  repeat constructor.
Defined.

(** ** Reading the leaderboard *)

Lemma current_leaderboard_served w r tr :
  exists tr',
    CleanLeaderboard.get_current_leaderboard w r tr =
      (tr', Ok (match Boards.served w r with Some board => board | None => JArr [] end)) /\
    Trace.requests tr' = GetLeaderboard :: Trace.requests tr.
Proof.
  unfold CleanLeaderboard.get_current_leaderboard.
  unfold Boards.served, pbind, try_catch, emit, lift, ret, get, get_default, getitem, raise.
  destruct r as [cp|e]; simpl; [|eauto].
  destruct (returncode cp =? 0); simpl; [|eauto].
  destruct (json_loads w (stdout cp)) as [[| | | | | |fields]|e]; simpl; eauto.
  destruct (dict_lookup "success" fields) as [success|]; simpl; [|eauto].
  destruct (truthy success); simpl; [|eauto].
  destruct (dict_lookup "data" fields) as [[| | | | | |payload]|]; simpl; eauto.
  destruct (dict_lookup "leaderboard" payload) as [board|]; simpl; eauto.
Qed.

Lemma top_creator_fids_served w r tr :
  exists tr',
    RefreshTopCreators.get_top_creator_fids w r tr =
      (tr', Ok (match Boards.served w r with
                | Some board =>
                    match (let? top := slice_to 10 board in
                           let? entries := iter top in
                           Rows.fids_of entries) with
                    | Ok fids => fids
                    | Raise _ => RefreshTopCreators.known_top_fids
                    end
                | None => RefreshTopCreators.known_top_fids
                end)) /\
    Trace.requests tr' = GetLeaderboard :: Trace.requests tr.
Proof.
  unfold RefreshTopCreators.get_top_creator_fids.
  unfold Boards.served, pbind, try_catch, emit, lift, ret, get, get_default, getitem, raise.
  destruct r as [cp|e]; simpl; [|eauto].
  destruct (returncode cp =? 0); simpl; [|eauto].
  destruct (json_loads w (stdout cp)) as [[| | | | | |fields]|e]; simpl; eauto.
  destruct (dict_lookup "success" fields) as [success|]; simpl; [|eauto].
  destruct (truthy success); simpl; [|eauto].
  destruct (dict_lookup "data" fields) as [[| | | | | |payload]|]; simpl; eauto.
  destruct (dict_lookup "leaderboard" payload) as [board|]; simpl; [|eauto].
  destruct (slice_to 10 board) as [top|e]; simpl; [|eauto].
  destruct (iter top) as [entries|e]; simpl; [|eauto].
  destruct (Rows.fids_of entries) as [fids|e]; simpl; eauto.
Qed.

Lemma all_fids_served w r tr :
  exists tr',
    ProfileKeys.get_all_fids_from_leaderboard w r tr =
      (tr', Ok (match Boards.served w r with
                | Some board =>
                    match (let? entries := iter board in Rows.fids_of entries) with
                    | Ok fids => fids
                    | Raise _ => []
                    end
                | None => []
                end)) /\
    Trace.requests tr' = GetLeaderboard :: Trace.requests tr.
Proof.
  unfold ProfileKeys.get_all_fids_from_leaderboard.
  unfold Boards.served, pbind, try_catch, emit, lift, ret, get, get_default, getitem, raise.
  destruct r as [cp|e]; simpl; [|eauto].
  destruct (returncode cp =? 0); simpl; [|eauto].
  destruct (json_loads w (stdout cp)) as [[| | | | | |fields]|e]; simpl; eauto.
  destruct (dict_lookup "success" fields) as [success|]; simpl; [|eauto].
  destruct (truthy success); simpl; [|eauto].
  destruct (dict_lookup "data" fields) as [[| | | | | |payload]|]; simpl; eauto.
  destruct (dict_lookup "leaderboard" payload) as [board|]; simpl; [|eauto].
  destruct (iter board) as [entries|e]; simpl; [|eauto].
  destruct (Rows.fids_of entries) as [fids|e]; simpl; eauto.
Qed.

Lemma fids_without_profiles_served w r tr :
  exists tr',
    CacheRefresh.get_fids_without_profiles w r tr =
      (tr', Ok (match Boards.served w r with
                | Some board =>
                    match (let? entries := iter board in CacheRefresh.collect entries []) with
                    | Ok fids => fids
                    | Raise _ => []
                    end
                | None => []
                end)) /\
    Trace.requests tr' = GetLeaderboard :: Trace.requests tr.
Proof.
  unfold CacheRefresh.get_fids_without_profiles.
  unfold Boards.served, pbind, try_catch, emit, lift, ret, get, get_default, getitem, raise.
  destruct r as [cp|e]; simpl; [|eauto].
  destruct (returncode cp =? 0); simpl; [|eauto].
  destruct (json_loads w (stdout cp)) as [[| | | | | |fields]|e]; simpl; eauto.
  destruct (dict_lookup "success" fields) as [success|]; simpl; [|eauto].
  destruct (truthy success); simpl; [|eauto].
  destruct (dict_lookup "data" fields) as [[| | | | | |payload]|]; simpl; eauto.
  destruct (dict_lookup "leaderboard" payload) as [board|]; simpl; [|eauto].
  destruct (iter board) as [entries|e]; simpl; [|eauto].
  destruct (CacheRefresh.collect entries []) as [fids|e]; simpl; eauto.
Qed.

Lemma fids_of_all entries fids :
  Forall2 (fun e fid => getitem e "fid" = Ok fid) entries fids ->
  Rows.fids_of entries = Ok fids.
Proof.
  induction 1 as [|e fid rest fids He _ IH]; [reflexivity|].
  simpl. rewrite He, IH. reflexivity.
Qed.

Lemma fids_of_some_missing entries :
  Exists (fun e => forall fid, getitem e "fid" <> Ok fid) entries ->
  exists e, Rows.fids_of entries = Raise e.
Proof.
  induction 1 as [entry rest Hentry | entry rest _ [e IH]]; simpl.
  - destruct (getitem entry "fid") as [fid|e]; [now destruct (Hentry fid) | eauto].
  - destruct (getitem entry "fid") as [fid|e0]; simpl; [|eauto].
    rewrite IH. simpl. eauto.
Qed.

(** X17: when the leaderboard cannot be read (the request raises or times
    out, exits with a non-zero code, its body does not decode, the reply is
    not an object, [success] is missing or falsy, or [data] or its
    [leaderboard] is missing), none of the four readers raises.  Each has
    sent exactly one leaderboard request; [get_current_leaderboard],
    [get_fids_without_profiles] and [get_all_fids_from_leaderboard] return
    an empty list, and [get_top_creator_fids] returns its ten built-in
    keys. *)
Theorem unread_leaderboard_falls_back w r tr :
  Boards.served w r = None ->
  (exists tr',
     CleanLeaderboard.get_current_leaderboard w r tr = (tr', Ok (JArr [])) /\
     Trace.requests tr' = GetLeaderboard :: Trace.requests tr) /\
  (exists tr',
     CacheRefresh.get_fids_without_profiles w r tr = (tr', Ok []) /\
     Trace.requests tr' = GetLeaderboard :: Trace.requests tr) /\
  (exists tr',
     ProfileKeys.get_all_fids_from_leaderboard w r tr = (tr', Ok []) /\
     Trace.requests tr' = GetLeaderboard :: Trace.requests tr) /\
  (exists tr',
     RefreshTopCreators.get_top_creator_fids w r tr
       = (tr', Ok RefreshTopCreators.known_top_fids) /\
     Trace.requests tr' = GetLeaderboard :: Trace.requests tr).
Proof.
  intros Hnone. split; [|split; [|split]].
  - destruct (current_leaderboard_served w r tr) as [tr' H]. rewrite Hnone in H. eauto.
  - destruct (fids_without_profiles_served w r tr) as [tr' H]. rewrite Hnone in H. eauto.
  - destruct (all_fids_served w r tr) as [tr' H]. rewrite Hnone in H. eauto.
  - destruct (top_creator_fids_served w r tr) as [tr' H]. rewrite Hnone in H. eauto.
Qed.

Lemma unread_leaderboard_falls_back_witness :
  exists tr',
    RefreshTopCreators.get_top_creator_fids Sample.silent Sample.timed_out []
      = (tr', Ok RefreshTopCreators.known_top_fids) /\
    Trace.requests tr' = GetLeaderboard :: Trace.requests [].
Proof.
  refine (proj2 (proj2 (proj2
            (unread_leaderboard_falls_back Sample.silent Sample.timed_out [] _)))).
  reflexivity.
Defined.

(** X18: the keys read from a served leaderboard are all or nothing.
    [get_top_creator_fids] returns the [fid] of the first ten rows, so no
    key at all for an empty leaderboard, and [get_all_fids_from_leaderboard]
    the [fid] of every row; but if one of those rows has no [fid], the
    exception is swallowed and every row is dropped: the first returns its
    ten built-in keys, the second an empty list. *)
Theorem keys_all_or_nothing w r tr entries :
  Boards.served w r = Some (JArr entries) ->
  (forall fids,
     Forall2 (fun e fid => getitem e "fid" = Ok fid) (firstn 10 entries) fids ->
     exists tr', RefreshTopCreators.get_top_creator_fids w r tr = (tr', Ok fids)) /\
  (Exists (fun e => forall fid, getitem e "fid" <> Ok fid) (firstn 10 entries) ->
   exists tr',
     RefreshTopCreators.get_top_creator_fids w r tr
       = (tr', Ok RefreshTopCreators.known_top_fids)) /\
  (forall fids,
     Forall2 (fun e fid => getitem e "fid" = Ok fid) entries fids ->
     exists tr', ProfileKeys.get_all_fids_from_leaderboard w r tr = (tr', Ok fids)) /\
  (Exists (fun e => forall fid, getitem e "fid" <> Ok fid) entries ->
   exists tr', ProfileKeys.get_all_fids_from_leaderboard w r tr = (tr', Ok [])).
Proof.
  intros Hserved. split; [|split; [|split]].
  - intros fids Hfids. destruct (top_creator_fids_served w r tr) as [tr' [H _]].
    rewrite Hserved in H. simpl in H. rewrite (fids_of_all _ _ Hfids) in H. eauto.
  - intros Hmissing. destruct (top_creator_fids_served w r tr) as [tr' [H _]].
    rewrite Hserved in H. simpl in H.
    destruct (fids_of_some_missing _ Hmissing) as [e He]. rewrite He in H. eauto.
  - intros fids Hfids. destruct (all_fids_served w r tr) as [tr' [H _]].
    rewrite Hserved in H. simpl in H. rewrite (fids_of_all _ _ Hfids) in H. eauto.
  - intros Hmissing. destruct (all_fids_served w r tr) as [tr' [H _]].
    rewrite Hserved in H. simpl in H.
    destruct (fids_of_some_missing _ Hmissing) as [e He]. rewrite He in H. eauto.
Qed.

Lemma keys_all_or_nothing_witness :
  exists tr',
    RefreshTopCreators.get_top_creator_fids (Boards.serving Sample.five_rows)
      (Sample.completed "{}") []
    = (tr', Ok [JInt 3; JInt 8; JInt 2; JInt 9; JInt 7]).
Proof.
  refine (proj1 (keys_all_or_nothing (Boards.serving Sample.five_rows)
                   (Sample.completed "{}") [] Sample.five_rows _) _ _).
  - reflexivity.
  - repeat constructor.
Defined.

(** ** update_profiles.py *)

Lemma update_creator_score_requests w fid r tr :
  exists tr' updated,
    UpdateProfiles.update_creator_score w fid r tr = (tr', Ok updated) /\
    Trace.requests tr' = GetScore fid false :: Trace.requests tr /\
    Trace.slept tr' = Trace.slept tr.
Proof.
  unfold UpdateProfiles.update_creator_score, Leaderboard.pfp_status, Py.bind,
    pbind, try_catch, emit, lift, ret.
  repeat case_match; simplify_eq; eauto.
Qed.

Lemma update_profiles_loop w xs :
  forall n tr,
  exists tr' n',
    for_each xs (UpdateProfiles.loop_body w) n tr = (tr', Ok n') /\
    n <= n' <= n + Z.of_nat (List.length xs) /\
    Trace.requests tr' =
      (rev (List.map (fun fid => GetScore fid false) xs) ++ Trace.requests tr)%list /\
    (Trace.slept tr' == inject_Z (Z.of_nat (List.length xs)) + Trace.slept tr)%Q.
Proof.
  induction xs as [|fid xs IH]; intros n tr.
  - exists tr, n. simpl. repeat split; try lia. ring.
  - destruct (update_creator_score_requests w fid (score (tick_at w fid)) tr)
      as (tr1 & updated & Hup & Hreq1 & Hsl1).
    destruct (IH (if updated then n + 1 else n) (Slept 1 :: tr1))
      as (tr2 & n2 & Hrest & Hn & Hreq2 & Hsl2).
    exists tr2, n2. split.
    + cbn [for_each]. unfold UpdateProfiles.loop_body at 1.
      unfold pbind at 1. unfold pbind at 1. rewrite Hup.
      unfold pbind at 1. unfold emit at 1. unfold ret. exact Hrest.
    + split; [destruct updated; cbn [List.length]; lia|]. split.
      * rewrite Hreq2. simpl. rewrite Hreq1, <- app_assoc. reflexivity.
      * rewrite Hsl2. cbn [Trace.slept List.length]. rewrite Hsl1, of_nat_succ_Q. ring.
Qed.

(** A listing of rows sends no request and does not sleep, however it
    ends. *)
Lemma listing_is_quiet {St : Type} (print : json -> St -> prog St) :
  (forall entry st tr tr' r,
      print entry st tr = (tr', r) ->
      Trace.requests tr' = Trace.requests tr /\ Trace.slept tr' = Trace.slept tr) ->
  forall entries st tr tr' r,
    for_each entries print st tr = (tr', r) ->
    Trace.requests tr' = Trace.requests tr /\ Trace.slept tr' = Trace.slept tr.
Proof.
  intros Hprint entries st tr tr' r Hrun.
  apply (for_each_trace
           (fun t => Trace.requests t = Trace.requests tr /\ Trace.slept t = Trace.slept tr)
           print) with (xs := entries) (st := st) (tr := tr) (r := r); [|exact Hrun|auto].
  intros x st0 tr0 tr1 r0 Hb [Hr Hs].
  destruct (Hprint _ _ _ _ _ Hb) as [Hr1 Hs1]. split; congruence.
Qed.

Lemma update_profiles_print_quiet entry st tr tr' r :
  UpdateProfiles.print_entry entry st tr = (tr', r) ->
  Trace.requests tr' = Trace.requests tr /\ Trace.slept tr' = Trace.slept tr.
Proof.
  unfold UpdateProfiles.print_entry, pbind, lift, emit. intros H.
  repeat case_match; simplify_eq; simpl; auto.
Qed.

Ltac block_ends := unfold emit; eexists; split; [reflexivity | split; reflexivity].

Lemma update_profiles_test w tr :
  exists tr',
    UpdateProfiles.leaderboard_test w tr = (tr', Ok tt) /\
    Trace.requests tr' = GetLeaderboard :: Trace.requests tr /\
    Trace.slept tr' = Trace.slept tr.
Proof.
  unfold UpdateProfiles.leaderboard_test.
  unfold pbind at 1. unfold emit at 1. unfold try_catch.
  unfold pbind at 1. unfold emit at 1.
  unfold pbind at 1. unfold lift at 1.
  destruct (leaderboard_fetch w) as [cp|e]; [|block_ends].
  destruct (returncode cp =? 0); [|block_ends].
  unfold pbind at 1. unfold lift at 1.
  destruct (json_loads w (stdout cp)) as [data|e]; [|block_ends].
  unfold pbind at 1. unfold lift at 1.
  destruct (get data "success") as [success|e]; [|block_ends].
  destruct (truthy success); [|block_ends].
  unfold pbind at 1. unfold lift at 1.
  destruct (getitem data "data") as [payload|e]; [|block_ends].
  unfold pbind at 1. unfold lift at 1.
  destruct (getitem payload "leaderboard") as [full|e]; [|block_ends].
  unfold pbind at 1. unfold lift at 1.
  destruct (slice_to 3 full) as [leaderboard|e]; [|block_ends].
  unfold pbind at 1. unfold emit at 1.
  unfold pbind at 1. unfold lift at 1.
  destruct (iter leaderboard) as [top_entries|e]; [|block_ends].
  destruct (for_each top_entries UpdateProfiles.print_entry tt _) as [tr2 r2] eqn:Hlist.
  destruct (listing_is_quiet _ update_profiles_print_quiet _ _ _ _ _ Hlist) as [Hr Hs].
  simpl in Hr, Hs.
  destruct r2 as [[]|e]; unfold emit; (eexists; split; [reflexivity|]); simpl; rewrite ?Hr, ?Hs; split; reflexivity.
Qed.

(** X19: update_profiles.py cannot be stopped by any reply.  Whatever the
    scoring service and the leaderboard give, [main] returns; it has sent
    one plain score request for each of its ten keys, in the order of the
    list, then one leaderboard request, and it never asks for a rebuild of
    the leaderboard; it has slept ten seconds. *)
Theorem update_profiles_completes w :
  exists tr,
    UpdateProfiles.main w [] = (tr, Ok tt) /\
    Trace.requests tr =
      GetLeaderboard ::
      rev (List.map (fun fid => GetScore fid false) UpdateProfiles.get_existing_fids) /\
    (Trace.slept tr == 10)%Q.
Proof.
  unfold UpdateProfiles.main.
  unfold pbind at 1. unfold emit at 1.
  destruct (update_profiles_loop w UpdateProfiles.get_existing_fids 0
              [Printed "Updating existing database entries with profile data" []])
    as (tr1 & n & Hloop & _ & Hreq1 & Hsl1).
  rewrite (pbind_ok _ _ _ _ _ Hloop).
  unfold pbind at 1. unfold emit at 1.
  destruct (update_profiles_test w
              (Printed "Updated" [JInt n;
                 JInt (Z.of_nat (List.length UpdateProfiles.get_existing_fids))] :: tr1))
    as (tr2 & Htest & Hreq2 & Hsl2).
  exists tr2. split; [exact Htest|]. split.
  - rewrite Hreq2. cbn [Trace.requests]. rewrite Hreq1. cbn [Trace.requests].
    now rewrite app_nil_r.
  - rewrite Hsl2. cbn [Trace.slept]. rewrite Hsl1. vm_compute. reflexivity.
Qed.

(** ** populate_top_creators.py *)

Lemma for_each_state {A St : Type} (Inv : St -> Prop) (body : A -> St -> prog St) :
  (forall x st tr tr' st', body x st tr = (tr', Ok st') -> Inv st -> Inv st') ->
  forall xs st tr tr' st', for_each xs body st tr = (tr', Ok st') -> Inv st -> Inv st'.
Proof.
  intros Hbody. induction xs as [|x xs IH]; intros st tr tr' st'; simpl.
  - unfold ret. intros [= <- <-]. auto.
  - intros H Hinv. apply pbind_ok_inv in H as (tr1 & st1 & Hb & Hrest).
    eapply IH; [exact Hrest|]. eapply Hbody; eauto.
Qed.

(** [test_creator_score] never raises: it answers [None] or a record with
    the seven fields. *)
Lemma test_creator_score_result w fid r tr :
  exists creator,
    PopulateTopCreators.test_creator_score w fid r tr
      = (Curl (GetScore fid false) :: tr, Ok creator) /\
    (creator = JNull \/
     exists username display_name pfp_url overall tier,
       creator = JObj [("fid", JInt fid); ("username", username);
                       ("displayName", display_name); ("pfpUrl", pfp_url);
                       ("overallScore", overall); ("tier", tier);
                       ("hasProfile", JBool (truthy (py_or username display_name)))]).
Proof.
  unfold PopulateTopCreators.test_creator_score, pbind, try_catch, emit, lift, ret.
  repeat case_match; simplify_eq; eexists; (split; [reflexivity|]); eauto 10.
Qed.

Lemma populate_pass_raises w item st tr tr' e :
  PopulateTopCreators.loop_body w item st tr = (tr', Raise e) ->
  exists msg, e = Exn TypeError msg.
Proof.
  destruct item as [i fid]. unfold PopulateTopCreators.loop_body.
  unfold pbind at 1. unfold emit at 1. unfold pbind at 1.
  destruct (test_creator_score_result w fid (score (tick_at w fid))
              (Printed "Testing FID" [JInt i; JInt fid] :: tr))
    as (creator & -> & [-> | (username & display_name & pfp_url & overall & tier & ->)]).
  - unfold pbind, emit, ret. simpl. discriminate.
  - unfold pbind, lift, emit, ret, PopulateTopCreators.gt_int, raise. simpl.
    intros H. repeat case_match; simplify_eq; eauto.
Qed.

Lemma populate_pass_keeps w item st tr tr' st' :
  PopulateTopCreators.loop_body w item st tr = (tr', Ok st') ->
  Forall Creators.high_scoring_profile st -> Forall Creators.high_scoring_profile st'.
Proof.
  destruct item as [i fid]. unfold PopulateTopCreators.loop_body.
  unfold pbind at 1. unfold emit at 1. unfold pbind at 1.
  destruct (test_creator_score_result w fid (score (tick_at w fid))
              (Printed "Testing FID" [JInt i; JInt fid] :: tr))
    as (creator & -> & [-> | (username & display_name & pfp_url & overall & tier & ->)]).
  - unfold pbind, emit, ret. simpl. intros [= <- <-]. auto.
  - unfold pbind, lift, emit, ret. simpl.
    destruct (truthy (py_or username display_name)) eqn:Hprofile; simpl.
    + destruct (PopulateTopCreators.gt_int overall 60) as [[|]|e] eqn:Hgt; simpl;
        intros [= <- <-]; auto.
      intros Hall. apply Forall_app. split; [exact Hall|].
      constructor; [|constructor]. split; [reflexivity|].
      exists overall. auto.
    + intros [= <- <-]. auto.
Qed.

Lemma populate_pass_requests w item st tr tr' r :
  PopulateTopCreators.loop_body w item st tr = (tr', r) ->
  Trace.requests tr' = GetScore (snd item) false :: Trace.requests tr /\
  forall st', r = Ok st' ->
    (List.length st' <= S (List.length st))%nat /\
    Trace.slept tr' = (1 + Trace.slept tr)%Q.
Proof.
  destruct item as [i fid]. unfold PopulateTopCreators.loop_body.
  unfold pbind at 1. unfold emit at 1. unfold pbind at 1.
  destruct (test_creator_score_result w fid (score (tick_at w fid))
              (Printed "Testing FID" [JInt i; JInt fid] :: tr))
    as (creator & -> & [-> | (username & display_name & pfp_url & overall & tier & ->)]).
  - unfold pbind, emit, ret. simpl. intros [= <- <-]. split; [reflexivity|].
    intros st' [= <-]. split; [lia | reflexivity].
  - unfold pbind, lift, emit, ret. simpl. intros H.
    repeat case_match; simplify_eq; simpl; (split; [reflexivity|]);
      intros st' Hst'; simplify_eq; rewrite ?length_app; simpl; split; try reflexivity; lia.
Qed.

Lemma enumerate_in {A : Type} (x : A) xs :
  In x xs -> forall start, exists i, In (i, x) (Rows.enumerate start xs).
Proof.
  induction xs as [|y xs IH]; intros Hin start; [destruct Hin|].
  destruct Hin as [-> | Hin].
  - exists start. now left.
  - destruct (IH Hin (start + 1)) as [i Hi]. exists i. now right.
Qed.

Lemma populate_loop_requests w xs :
  forall st tr tr' r,
    for_each xs (PopulateTopCreators.loop_body w) st tr = (tr', r) ->
    ~ In PostRefresh (Trace.requests tr) -> ~ In PostRefresh (Trace.requests tr').
Proof.
  intros st tr tr' r.
  apply (for_each_trace (fun t => ~ In PostRefresh (Trace.requests t))).
  intros x st0 tr0 tr1 r0 Hb Hno.
  destruct (populate_pass_requests _ _ _ _ _ _ Hb) as [-> _].
  intros [H | H]; [discriminate | auto].
Qed.

Lemma profile_flag d :
  Rows.enriched (JObj d) =
    truthy (py_or match dict_lookup "username" d with Some x => x | None => JNull end
                  match dict_lookup "displayName" d with Some x => x | None => JNull end).
Proof.
  unfold Rows.enriched, Leaderboard.has_profile, Py.bind, get, get_default, py_or.
  destruct (truthy match dict_lookup "username" d with Some x => x | None => JNull end) eqn:E;
    simpl; rewrite ?E; reflexivity.
Qed.



(** X21: populate_top_creators.py keeps a creator only with a profile and a
    score above 60.  When the loop over its nineteen keys completes, every
    record of [successful_creators] has a true [hasProfile] and an
    [overallScore] that compares above 60, there are at most nineteen of
    them, and the loop has sent one plain score request per key, in the
    order of the list, and slept a second after each. *)
Theorem only_high_scoring_profiles_kept w tr successful_creators :
  for_each (Rows.enumerate 1 PopulateTopCreators.get_fresh_high_scoring_creators)
    (PopulateTopCreators.loop_body w) [] [] = (tr, Ok successful_creators) ->
  Forall Creators.high_scoring_profile successful_creators /\
  (List.length successful_creators <= 19)%nat /\
  Trace.requests tr =
    rev (List.map (fun fid => GetScore fid false)
           PopulateTopCreators.get_fresh_high_scoring_creators) /\
  (Trace.slept tr == 19)%Q.
Proof.
  intros Hrun. split.
  - apply (for_each_state (Forall Creators.high_scoring_profile)
             (PopulateTopCreators.loop_body w) (populate_pass_keeps w) _ _ _ _ _ Hrun).
    constructor.
  - assert (Hgen : forall xs st tr0 tr1 st1,
               for_each xs (PopulateTopCreators.loop_body w) st tr0 = (tr1, Ok st1) ->
               (List.length st1 <= List.length st + List.length xs)%nat /\
               Trace.requests tr1 =
                 (rev (List.map (fun item => GetScore (snd item) false) xs)
                    ++ Trace.requests tr0)%list /\
               (Trace.slept tr1 == inject_Z (Z.of_nat (List.length xs)) + Trace.slept tr0)%Q).
    { induction xs as [|x xs IH]; intros st tr0 tr1 st1; simpl.
      - unfold ret. intros [= <- <-]. repeat split; [lia | ring].
      - intros H. apply pbind_ok_inv in H as (tr2 & st2 & Hb & Hrest).
        destruct (populate_pass_requests _ _ _ _ _ _ Hb) as [Hreq Hok].
        destruct (Hok st2 eq_refl) as [Hlen Hsl].
        destruct (IH _ _ _ _ Hrest) as (Hlen2 & Hreq2 & Hsl2).
        split; [lia|]. split.
        + rewrite Hreq2, Hreq, <- app_assoc. reflexivity.
        + rewrite Hsl2, Hsl.
          change (Z.pos (Pos.of_succ_nat (List.length xs)))
            with (Z.of_nat (S (List.length xs))).
          rewrite of_nat_succ_Q. ring. }
    destruct (Hgen _ _ _ _ _ Hrun) as (Hlen & Hreq & Hsl).
    split; [exact Hlen|]. split.
    + rewrite Hreq. reflexivity.
    + rewrite Hsl. vm_compute. reflexivity.
Qed.

Lemma only_high_scoring_profiles_kept_witness :
  exists tr successful_creators,
    for_each (Rows.enumerate 1 PopulateTopCreators.get_fresh_high_scoring_creators)
      (PopulateTopCreators.loop_body (Sample.answering (Creators.scored (JInt 80))))
      [] [] = (tr, Ok successful_creators) /\
    Forall Creators.high_scoring_profile successful_creators.
Proof.
  eexists _, _. split.
  - vm_compute. reflexivity.
  - refine (proj1 (only_high_scoring_profiles_kept
                     (Sample.answering (Creators.scored (JInt 80))) _ _ _)).
    vm_compute. reflexivity.
Defined.

(** ** update_all_profiles.py: the loop over the keys *)

Lemma force_profile_update_requests w fid r tr :
  exists tr' updated,
    UpdateAllProfiles.force_profile_update w fid r tr = (tr', Ok updated) /\
    Trace.requests tr' = GetScore fid true :: Trace.requests tr /\
    Trace.slept tr' = Trace.slept tr.
Proof.
  unfold UpdateAllProfiles.force_profile_update, Leaderboard.get_or_na,
    Leaderboard.pfp_status, Py.bind, pbind, try_catch, emit, lift, ret.
  repeat case_match; simplify_eq; eauto.
Qed.

Lemma update_all_loop w xs :
  forall counts tr,
  exists tr' counts',
    for_each xs (fun item => UpdateAllProfiles.loop_body w (fst item) (snd item)) counts tr
      = (tr', Ok counts') /\
    fst counts <= fst counts' /\ snd counts <= snd counts' /\
    fst counts' + snd counts' = fst counts + snd counts + Z.of_nat (List.length xs) /\
    Trace.requests tr' =
      (rev (List.map (fun item => GetScore (snd item) true) xs) ++ Trace.requests tr)%list /\
    (Trace.slept tr' == Tallies.pauses (List.map fst xs) + Trace.slept tr)%Q.
Proof.
  induction xs as [|[i fid] xs IH]; intros [s f] tr.
  - exists tr, (s, f). simpl. repeat split; try lia. ring.
  - destruct (force_profile_update_requests w fid (score (tick_at w fid))
                (Printed "Item" [JInt i] :: tr)) as (tr1 & updated & Hup & Hreq1 & Hsl1).
    simpl in Hreq1, Hsl1.
    assert (Hpass : exists tr2,
               UpdateAllProfiles.loop_body w i fid (s, f) tr =
                 (tr2, Ok (if updated then (s + 1, f) else (s, f + 1))) /\
               Trace.requests tr2 = GetScore fid true :: Trace.requests tr /\
               Trace.slept tr2 = (Tallies.pause i + Trace.slept tr)%Q).
    { unfold UpdateAllProfiles.loop_body, Tallies.pause.
      unfold pbind at 1. unfold emit at 1. unfold pbind at 1. rewrite Hup.
      unfold pbind, emit, ret.
      destruct (i mod 10 =? 0); eexists; (split; [reflexivity|]); simpl;
        rewrite Hreq1, Hsl1; split; reflexivity. }
    destruct Hpass as (tr2 & Hpass & Hreq2 & Hsl2).
    destruct (IH (if updated then (s + 1, f) else (s, f + 1)) tr2)
      as (tr3 & counts3 & Hrest & Hs & Hf & Hsum & Hreq3 & Hsl3).
    exists tr3, counts3. split.
    + cbn [for_each fst snd]. rewrite (pbind_ok _ _ _ _ _ Hpass). exact Hrest.
    + cbn [fst snd List.length List.map rev Tallies.pauses] in *.
      destruct updated; cbn [fst snd] in *;
        (repeat split; try lia;
         [rewrite Hreq3, Hreq2, <- app_assoc; reflexivity
         |rewrite Hsl3, Hsl2; ring]).
Qed.

(** X22: the loop of update_all_profiles.py over its keys cannot be stopped
    by any reply.  For every list of keys it completes; every key is counted
    once, as updated or as failed, so the two totals it prints add up to the
    number of keys; it has sent one cache-busting score request per key, in
    the order of the list; and it has slept a second after each key, two
    after every tenth. *)
Theorem every_key_counted_once w all_fids tr :
  exists tr' successful_updates failed_updates,
    ProfileKeys.update_all w all_fids tr = (tr', Ok (successful_updates, failed_updates)) /\
    0 <= successful_updates /\ 0 <= failed_updates /\
    successful_updates + failed_updates = Z.of_nat (List.length all_fids) /\
    Trace.requests tr' =
      (rev (List.map (fun fid => GetScore fid true) all_fids) ++ Trace.requests tr)%list /\
    (Trace.slept tr' ==
       Tallies.pauses (List.map fst (Rows.enumerate 1 all_fids)) + Trace.slept tr)%Q.
Proof.
  destruct (update_all_loop w (Rows.enumerate 1 all_fids) (0, 0) tr)
    as (tr1 & [s f] & Hloop & Hs & Hf & Hsum & Hreq & Hsl).
  cbn [fst snd] in *.
  assert (Hlen : forall (xs : list Z) start,
             List.length (Rows.enumerate start xs) = List.length xs /\
             List.map (fun item => GetScore (snd item) true) (Rows.enumerate start xs)
               = List.map (fun fid => GetScore fid true) xs).
  { induction xs as [|x xs IH]; intros start; simpl; [auto|].
    destruct (IH (start + 1)) as [-> ->]. auto. }
  destruct (Hlen all_fids 1) as [Hl Hm]. rewrite Hl in Hsum. rewrite Hm in Hreq.
  exists (Printed "Total processed" [JInt (Z.of_nat (List.length all_fids))] ::
          Printed "Failed updates" [JInt f] ::
          Printed "Successfully updated" [JInt s] :: tr1), s, f.
  split.
  - unfold ProfileKeys.update_all. rewrite (pbind_ok _ _ _ _ _ Hloop). reflexivity.
  - repeat split; try lia; [exact Hreq | exact Hsl].
Qed.

(** ** Score requests that bring no reply *)

Lemma simple_fetch_failed w fid r tr :
  Fetch.failed w r = true ->
  exists error,
    SimpleBulkPopulate.get_creator_score w fid r tr
      = (Curl (GetScore fid false) :: tr, Ok (SimpleBulkPopulate.failure error)).
Proof.
  unfold Fetch.failed, SimpleBulkPopulate.get_creator_score, pbind, try_catch, emit, lift, ret.
  destruct r as [cp|e]; [|eauto].
  destruct (returncode cp =? 0); simpl; [|eauto].
  destruct (json_loads w (stdout cp)); [discriminate | eauto].
Qed.

Lemma targeted_fetch_failed w fid r tr :
  Fetch.failed w r = true ->
  exists error,
    TargetedBulkPopulate.get_creator_score w fid r tr
      = (Curl (GetScore fid false) :: tr, Ok (TargetedBulkPopulate.failure error)).
Proof.
  unfold Fetch.failed, TargetedBulkPopulate.get_creator_score, pbind, try_catch, emit, lift, ret.
  destruct r as [cp|e]; [|eauto].
  destruct (returncode cp =? 0); simpl; [|eauto].
  destruct (json_loads w (stdout cp)); [discriminate | eauto].
Qed.

Lemma bulk_fetch_failed w fid r tr :
  Fetch.failed w r = true ->
  exists tr',
    BulkPopulate.get_creator_score w fid r tr = (tr', Ok JNull) /\
    Trace.slept tr' = Trace.slept tr.
Proof.
  unfold Fetch.failed, BulkPopulate.get_creator_score, pbind, try_catch, emit, lift, ret.
  destruct r as [cp|e]; [|eauto].
  destruct (returncode cp =? 0); simpl; [|eauto].
  destruct (json_loads w (stdout cp)); [discriminate | eauto].
Qed.

(** X23: a score request that brings no reply never stops a sampling loop
    and never counts as a success.  When the request for a fresh key raises
    or times out, exits with a non-zero code or returns a body that does not
    decode, the pass of a loop that is still short of its quota completes:
    the successes stay as they were, the attempt is counted, the key joins
    the seen-set, and the script sleeps [REQUEST_DELAY] before the next
    pass.  (In bulk_populate.py this holds for a key that the identity
    service confirmed.) *)
Theorem failed_fetch_is_absorbed T w st tr :
  Fetch.failed w (score (tick_at w (attempts st + 1))) = true ->
  0 <= successful_adds st < T ->
  0 <= attempts st ->
  (forall fid,
     SimpleBulkPopulate.generate_weighted_fid
       (rand (tick_at w (attempts st + 1))) (raw (tick_at w (attempts st + 1))) = Ok fid ->
     fid ∉ processed_fids st ->
     exists tr',
       SimpleBulkPopulate.loop_body T w st tr = (tr', Ok (Fetch.unsuccessful fid st)) /\
       Trace.slept tr' = (SimpleBulkPopulate.REQUEST_DELAY + Trace.slept tr)%Q) /\
  (forall fid,
     TargetedBulkPopulate.generate_likely_fid
       (rand (tick_at w (attempts st + 1))) (raw (tick_at w (attempts st + 1))) = Ok fid ->
     fid ∉ processed_fids st ->
     exists tr',
       TargetedBulkPopulate.loop_body T w st tr = (tr', Ok (Fetch.unsuccessful fid st)) /\
       Trace.slept tr' = (TargetedBulkPopulate.REQUEST_DELAY + Trace.slept tr)%Q) /\
  (forall fid tr1,
     BulkPopulate.generate_weighted_fid
       (rand (tick_at w (attempts st + 1))) (raw (tick_at w (attempts st + 1))) = Ok fid ->
     fid ∉ processed_fids st ->
     BulkPopulate.check_neynar_user_exists w fid (neynar (tick_at w (attempts st + 1)))
       (Printed "Testing FID" [JInt (attempts st + 1); JInt fid] :: tr) = (tr1, Ok true) ->
     exists tr',
       BulkPopulate.loop_body T w st tr = (tr', Ok (Fetch.unsuccessful fid st)) /\
       Trace.slept tr' = (BulkPopulate.REQUEST_DELAY + Trace.slept tr1)%Q).
Proof.
  intros Hfailed Hs Ha.
  assert (HT : T <> 0) by lia.
  assert (Hn : attempts st + 1 <> 0) by lia.
  split; [|split].
  - intros fid Hfid Hnew. unfold SimpleBulkPopulate.loop_body.
    unfold pbind at 1. unfold lift at 1. rewrite Hfid.
    destruct (decide (fid ∈ processed_fids st)); [tauto|].
    unfold pbind at 1. unfold emit at 1. unfold pbind at 1.
    destruct (simple_fetch_failed w fid _
                (Printed "Testing FID" [JInt (attempts st + 1); JInt fid] :: tr) Hfailed)
      as [error ->].
    unfold SimpleBulkPopulate.failure, Fetch.unsuccessful, pbind, lift, emit, ret. simpl.
    destruct (_ || _); destruct (_ =? 0); try rewrite truediv_ok by exact HT;
      eexists; split; reflexivity.
  - intros fid Hfid Hnew. unfold TargetedBulkPopulate.loop_body.
    unfold pbind at 1. unfold lift at 1. rewrite Hfid.
    destruct (decide (fid ∈ processed_fids st)); [tauto|].
    unfold pbind at 1. unfold emit at 1. unfold pbind at 1.
    destruct (targeted_fetch_failed w fid _
                (Printed "FID" [JInt (attempts st + 1); JInt fid] :: tr) Hfailed)
      as [error ->].
    unfold TargetedBulkPopulate.failure, Fetch.unsuccessful, pbind, lift, emit, ret. simpl.
    destruct (_ =? 0); try rewrite truediv_ok by exact Hn; eexists; split; reflexivity.
  - intros fid tr1 Hfid Hnew Hcheck. unfold BulkPopulate.loop_body.
    unfold pbind at 1. unfold lift at 1. rewrite Hfid.
    destruct (decide (fid ∈ processed_fids st)); [tauto|].
    unfold pbind at 1. unfold emit at 1. unfold pbind at 1. rewrite Hcheck. simpl.
    unfold pbind at 1. unfold emit at 1. unfold pbind at 1.
    destruct (bulk_fetch_failed w fid _ (Printed "Active" [] :: tr1) Hfailed)
      as (tr2 & -> & Hsl).
    unfold Fetch.unsuccessful, pbind, emit, ret. simpl.
    eexists. split; [reflexivity|]. simpl. now rewrite Hsl.
Qed.

Lemma failed_fetch_is_absorbed_witness :
  exists tr',
    SimpleBulkPopulate.loop_body 1 Sample.silent initial []
      = (tr', Ok (Fetch.unsuccessful 2 initial)) /\
    Trace.slept tr' = (SimpleBulkPopulate.REQUEST_DELAY + Trace.slept [])%Q.
Proof.
  refine (proj1 (failed_fetch_is_absorbed 1 Sample.silent initial [] _ _ _) 2 _ _).
  - reflexivity.
  - simpl. lia.
  - simpl. lia.
  - vm_compute. reflexivity.
  - vm_compute. set_solver.
Defined.

(** ** populate_top_creators.py: the closing analysis *)

Lemma populate_listing entries :
  Forall (fun e => Contract.aggregate_entry e = true) entries ->
  forall count tr,
  exists listing,
    for_each entries PopulateTopCreators.print_entry count tr =
      ((listing ++ tr)%list,
       Ok (count + Z.of_nat (List.length (List.filter Contract.has_enrichment entries)))) /\
    List.length listing = List.length (List.filter Contract.has_enrichment entries).
Proof.
  induction 1 as [|entry rest Hentry _ IH]; intros count tr.
  - exists []. simpl. rewrite Z.add_0_r. auto.
  - cbn [for_each List.filter].
    assert (Hline : exists line,
               PopulateTopCreators.print_entry entry count tr =
                 (if Contract.has_enrichment entry then line :: tr else tr,
                  Ok (if Contract.has_enrichment entry then count + 1 else count))).
    { unfold PopulateTopCreators.print_entry, pbind, lift, emit, ret.
      rewrite (has_profile_enrichment _ Hentry).
      destruct (Contract.has_enrichment entry);
        [|exists (Printed "Entry" []); reflexivity].
      apply aggregate_entry_fields in Hentry
        as (fields & rank & fid & overall & tier & -> & Hr & Hf & Ho & Ht).
      unfold Leaderboard.get_or_na, Leaderboard.pfp_status, Py.bind, get, get_default, getitem.
      rewrite Hr, Hf, Ho, Ht. simpl. eauto. }
    destruct Hline as [line Hline]. rewrite (pbind_ok _ _ _ _ _ Hline).
    destruct (Contract.has_enrichment entry).
    + destruct (IH (count + 1) (line :: tr)) as (listing & Hrest & Hlen).
      exists (listing ++ [line])%list. rewrite Hrest, <- app_assoc. split.
      * cbn [List.length]. do 2 f_equal. lia.
      * rewrite length_app, Hlen. simpl. lia.
    + destruct (IH count tr) as (listing & Hrest & Hlen). exists listing. auto.
Qed.

Lemma filter_firstn_length {A : Type} (p : A -> bool) n (l : list A) :
  (List.length (List.filter p (firstn n l)) <= List.length (List.filter p l))%nat /\
  (List.length (List.filter p (firstn n l)) <= n)%nat.
Proof.
  revert n. induction l as [|x l IH]; intros [|n]; simpl; try lia.
  destruct (IH n) as [H1 H2]. destruct (p x); simpl; lia.
Qed.


